(** * KnobGUI: the serial device session of the haptic knob controller

    A shallow embedding of the protocol layer of the desktop GUI:

    - the command encoder [formatTFDCommand] / [sendTFDConfig] and the older
      [formatHapticCommand] of the [useHapticSerial] hook;
    - the response decoder [handleSerialData], in its two shapes: the
      prefix-dispatch handler of [components/mini-tfd-control.tsx] and the
      combined-line handler of the controller stored after [public/preload.js];
    - the state helper [updateState];
    - the liveness monitor and the reconnection procedure ([connect],
      [checkDeviceResponsiveness], [handleReconnection]);
    - the main-process transport handlers of [public/electron.js];
    - the control panel around the session: the mode table, the handlers of
      its inputs, the requests, port scanning and auto-connect;
    - the angle helpers of the dials ([wrap180], [getDisplayAngle], the
      pointer angles), the commands of the [useHapticSerial] hook and the
      encoders of the component copies.

    Conventions of the embedding.

    - A JavaScript number is a [number]: [NaN], an infinity, or a finite value
      carried as the exact rational it denotes.  Rounding to binary64, overflow
      and the sign of zero are not represented.
    - A JavaScript string is a [string] of bytes; the protocol is ASCII.
    - React state is a record.  A closure created during a render reads the
      values of that render; such a captured render is passed explicitly as
      a [View] (or as the captured [TFDState]), while setters act on the
      live record.
    - Time is counted in milliseconds; [tick] advances it by one.  A call
      through the IPC bridge completes within the handler that issues it. *)

From Stdlib Require Import Bool Arith List String Ascii ZArith QArith Qabs Qround Lia.
From Stdlib Require Import DecimalString.
From Stdlib Require Import Lqa Qpower DecimalPos DecimalN.
Import ListNotations.

Open Scope string_scope.

(* ================================================================== *)
(** ** JavaScript primitives used by the source *)

Module JS.

(** The number type. *)
Inductive number : Type :=
| NaN : number
| Num (q : Q) : number
| Infinity (negative : bool) : number.

Definition isNaN (x : number) : bool :=
  match x with NaN => true | _ => false end.

(** [x === y] on numbers. *)
Definition strict_eq (x y : number) : bool :=
  match x, y with
  | Num a, Num b => Qeq_bool a b
  | Infinity s, Infinity t => Bool.eqb s t
  | _, _ => false
  end.

(** Truthiness of a number: [0] and [NaN] are falsy. *)
Definition truthy (x : number) : bool :=
  match x with
  | NaN => false
  | Num q => negb (Qeq_bool q 0)
  | Infinity _ => true
  end.

(** [x || d] on numbers. *)
Definition or_default (x d : number) : number :=
  if truthy x then x else d.

Definition Qneg_bool (q : Q) : bool := negb (Qle_bool 0 q).

Definition neg (x : number) : number :=
  match x with
  | NaN => NaN
  | Num q => Num (- q)
  | Infinity s => Infinity (negb s)
  end.

Definition mul (x y : number) : number :=
  match x, y with
  | NaN, _ | _, NaN => NaN
  | Num a, Num b => Num (a * b)
  | Infinity s, Num b | Num b, Infinity s =>
      if Qeq_bool b 0 then NaN else Infinity (xorb s (Qneg_bool b))
  | Infinity s, Infinity t => Infinity (xorb s t)
  end.

Definition div (x y : number) : number :=
  match x, y with
  | NaN, _ | _, NaN => NaN
  | Num a, Num b =>
      if Qeq_bool b 0
      then (if Qeq_bool a 0 then NaN else Infinity (Qneg_bool a))
      else Num (a / b)
  | Infinity s, Num b => Infinity (xorb s (Qneg_bool b))
  | Num _, Infinity _ => Num 0
  | Infinity _, Infinity _ => NaN
  end.

(** [Math.min] and [Math.max] of two numbers. *)
Definition Math_min (x y : number) : number :=
  match x, y with
  | NaN, _ | _, NaN => NaN
  | Num a, Num b => if Qle_bool a b then x else y
  | Infinity true, _ | _, Infinity true => Infinity true
  | Infinity false, o | o, Infinity false => o
  end.

Definition Math_max (x y : number) : number :=
  match x, y with
  | NaN, _ | _, NaN => NaN
  | Num a, Num b => if Qle_bool a b then y else x
  | Infinity false, _ | _, Infinity false => Infinity false
  | Infinity true, o | o, Infinity true => o
  end.

(** *** Characters *)

Definition is_ws (c : ascii) : bool :=
  let n := nat_of_ascii c in
  ((9 <=? n)%nat && (n <=? 13)%nat) || (n =? 32)%nat.

Definition is_digit (c : ascii) : bool :=
  let n := nat_of_ascii c in (48 <=? n)%nat && (n <=? 57)%nat.

Definition digit_value (c : ascii) : Z := Z.of_nat (nat_of_ascii c - 48).

(** The character class [[-\d.]] of the telemetry regular expressions. *)
Definition is_num_char (c : ascii) : bool :=
  is_digit c || Ascii.eqb c "-" || Ascii.eqb c ".".

Definition upper_char (c : ascii) : ascii :=
  let n := nat_of_ascii c in
  if (97 <=? n)%nat && (n <=? 122)%nat then ascii_of_nat (n - 32) else c.

(** *** Strings *)

Definition is_empty (s : string) : bool :=
  match s with EmptyString => true | _ => false end.

Fixpoint trimStart (s : string) : string :=
  match s with
  | String c r => if is_ws c then trimStart r else s
  | EmptyString => EmptyString
  end.

Fixpoint trimEnd (s : string) : string :=
  match s with
  | String c r =>
      let r' := trimEnd r in
      if is_ws c && is_empty r' then EmptyString else String c r'
  | EmptyString => EmptyString
  end.

Definition trim (s : string) : string := trimEnd (trimStart s).

Definition startsWith (s p : string) : bool := String.prefix p s.

(** [s.includes(p)] *)
Fixpoint includes (s p : string) : bool :=
  String.prefix p s ||
  match s with
  | String _ r => includes r p
  | EmptyString => false
  end.

(** [s.substring(n)] *)
Fixpoint substring_from (n : nat) (s : string) : string :=
  match n, s with
  | O, _ => s
  | S k, String _ r => substring_from k r
  | S _, EmptyString => EmptyString
  end.

(** [s.split(sep)] for a one-character separator. *)
Fixpoint split (sep : ascii) (s : string) : list string :=
  match s with
  | EmptyString => [EmptyString]
  | String c r =>
      if Ascii.eqb c sep then EmptyString :: split sep r
      else match split sep r with
           | h :: t => String c h :: t
           | [] => [String c EmptyString]
           end
  end.

Fixpoint toUpperCase (s : string) : string :=
  match s with
  | String c r => String (upper_char c) (toUpperCase r)
  | EmptyString => EmptyString
  end.

(** Longest prefix of characters satisfying [p], and the rest. *)
Fixpoint span (p : ascii -> bool) (s : string) : string * string :=
  match s with
  | String c r =>
      if p c then let (a, b) := span p r in (String c a, b)
      else (EmptyString, s)
  | EmptyString => (EmptyString, EmptyString)
  end.

(** [s.match(/KEY([-\d.]+)/)]: the first capture group of the leftmost
    match, [None] when the expression does not match anywhere. *)
Fixpoint match_field (key s : string) : option string :=
  let here :=
    if String.prefix key s
    then let g := fst (span is_num_char (substring_from (String.length key) s)) in
         if is_empty g then None else Some g
    else None in
  match here with
  | Some g => Some g
  | None => match s with
            | String _ r => match_field key r
            | EmptyString => None
            end
  end.

(** *** [parseFloat] *)

Fixpoint digits_value (acc : Z) (s : string) : Z :=
  match s with
  | String c r => digits_value (10 * acc + digit_value c) r
  | EmptyString => acc
  end.

(** The value of an exponent part at the head of [s], [0] when there is
    none ([e] or [E], an optional sign, at least one digit). *)
Definition exponent (s : string) : Z :=
  match s with
  | String c r =>
      if Ascii.eqb c "e" || Ascii.eqb c "E" then
        let '(negative, r') :=
          match r with
          | String d r'' =>
              if Ascii.eqb d "-" then (true, r'')
              else if Ascii.eqb d "+" then (false, r'')
              else (false, r)
          | EmptyString => (false, r)
          end in
        let ds := fst (span is_digit r') in
        if is_empty ds then 0%Z
        else if negative then (- digits_value 0 ds)%Z else digits_value 0 ds
      else 0%Z
  | EmptyString => 0%Z
  end.

(** [parseFloat(input)]: leading white space is skipped, the longest prefix
    that is a decimal literal is converted, anything after it is ignored. *)
Definition parseFloat (input : string) : number :=
  let s0 := trimStart input in
  let '(negative, s1) :=
    match s0 with
    | String c r =>
        if Ascii.eqb c "-" then (true, r)
        else if Ascii.eqb c "+" then (false, r)
        else (false, s0)
    | EmptyString => (false, s0)
    end in
  if String.prefix "Infinity" s1 then Infinity negative
  else
    let '(ip, r1) := span is_digit s1 in
    let '(fp, r2) :=
      match r1 with
      | String c r => if Ascii.eqb c "." then span is_digit r else (EmptyString, r1)
      | EmptyString => (EmptyString, r1)
      end in
    if is_empty ip && is_empty fp then NaN
    else
      let e := exponent r2 in
      let m := digits_value 0 (ip ++ fp) in
      let q := (inject_Z m * Qpower (10 # 1) (e - Z.of_nat (String.length fp)))%Q in
      Num (Qred (if negative then - q else q)).

(** *** Number to string *)

Definition string_of_Z (n : Z) : string :=
  NilZero.string_of_uint (N.to_uint (Z.to_N n)).

Section Printing.

(** [Number::toString] on a finite value prints the shortest digit string
    that reads back as the same binary64 value; it is kept abstract. *)
Variable Number_toString : Q -> string.

Definition toString (x : number) : string :=
  match x with
  | NaN => "NaN"
  | Infinity s => if s then "-Infinity" else "Infinity"
  | Num q => Number_toString q
  end.

(** [x.toFixed(f)] *)
Definition toFixed (f : nat) (x : number) : string :=
  match x with
  | Num q =>
      let sign := if Qneg_bool q then "-" else "" in
      let a := Qabs q in
      if Qle_bool (inject_Z (10 ^ 21)) a then sign ++ Number_toString a
      else
        let n := Qfloor (a * inject_Z (10 ^ Z.of_nat f) + (1 # 2)) in
        let m := string_of_Z n in
        if (f =? 0)%nat then sign ++ m
        else
          let m := if (String.length m <=? f)%nat
                   then String.concat "" (repeat "0" (f + 1 - String.length m)) ++ m
                   else m in
          let k := String.length m in
          sign ++ String.substring 0 (k - f) m ++ "." ++ String.substring (k - f) f m
  | _ => toString x
  end.

End Printing.

End JS.

Import JS.

(* ================================================================== *)
(** ** The IPC bridge [window.electronAPI] (types/global.d.ts) *)

Module Api.

(** [{ success: boolean; error?: string }] *)
Record result : Type := mk_result { success : bool; error : option string }.

Definition ok : result := mk_result true None.
Definition failed (msg : string) : result := mk_result false (Some msg).

(** [result.error || fallback] *)
Definition error_or (r : result) (fallback : string) : string :=
  match error r with
  | Some m => if is_empty m then fallback else m
  | None => fallback
  end.

(** The three serial methods of the bridge, over a transport state [T].
    A rejected promise is represented by a result with [success = false]. *)
Record Bridge (T : Type) : Type := {
  serialConnect : string -> number -> T -> result * T;
  serialDisconnect : T -> result * T;
  serialWrite : string -> T -> result * T
}.

Arguments serialConnect {T} _ _ _ _.
Arguments serialDisconnect {T} _ _.
Arguments serialWrite {T} _ _ _.

End Api.

(* ================================================================== *)
(** ** The main process: the IPC handlers of public/electron.js *)

Module MainProcess.

(** [global.serialPort]; [Number.parseInt(baudRate)] is kept as passed. *)
Record SerialPort : Type := {
  path : string;
  baudRate : number;
  isOpen : bool
}.

(** Messages the main process sends to the renderer. *)
Inductive message : Type :=
| serial_error (msg : string)
| serial_disconnected
| serial_data (line : string).

Record Global : Type := {
  serialPort : option SerialPort;
  wire : list string;        (* data handed to an open port, oldest first *)
  sent : list message        (* [mainWindow.webContents.send], oldest first *)
}.

(** What the operating system answers. *)
Record Hardware : Type := {
  module_available : bool;                    (* [require("serialport")] *)
  open_error : string -> option string;       (* [port.open] on a path *)
  write_error : string -> option string       (* [port.write] of some data *)
}.

Definition port_open (g : Global) : bool :=
  match serialPort g with
  | Some p => isOpen p
  | None => false
  end.

(** [ipcMain.handle("serial-connect", ...)] *)
Definition serial_connect (hw : Hardware) (portPath : string) (baud : number)
    (g : Global) : Api.result * Global :=
  if negb (module_available hw) then
    (* require throws; the inner catch answers with a mock connection *)
    (Api.ok, g)
  else
    let g1 :=
      if port_open g
      then {| serialPort := None; wire := wire g;
              sent := sent g ++ [serial_disconnected] |}
      else g in
    let fresh := {| path := portPath; baudRate := baud; isOpen := false |} in
    match open_error hw portPath with
    | Some _ =>
        (* open rejects; the inner catch answers with a mock connection *)
        (Api.ok, {| serialPort := Some fresh; wire := wire g1; sent := sent g1 |})
    | None =>
        (Api.ok, {| serialPort := Some {| path := portPath; baudRate := baud;
                                          isOpen := true |};
                    wire := wire g1; sent := sent g1 |})
    end.

(** [ipcMain.handle("serial-disconnect", ...)] *)
Definition serial_disconnect (g : Global) : Api.result * Global :=
  if port_open g
  then (Api.ok, {| serialPort := None; wire := wire g;
                   sent := sent g ++ [serial_disconnected] |})
  else (Api.ok, g).

(** [ipcMain.handle("serial-write", ...)] *)
Definition serial_write (hw : Hardware) (data : string) (g : Global)
    : Api.result * Global :=
  if port_open g then
    match write_error hw data with
    | Some msg => (Api.failed msg, g)
    | None => (Api.ok, {| serialPort := serialPort g; wire := wire g ++ [data];
                          sent := sent g |})
    end
  else
    (* "Mock write (no actual serial port)" *)
    (Api.ok, g).

(** [ipcMain.handle("serial-is-connected", ...)] *)
Definition serial_is_connected (g : Global) : bool := port_open g.

Definition initial : Global := {| serialPort := None; wire := []; sent := [] |}.

(** The bridge exposed by public/preload.js, served by these handlers. *)
Definition bridge (hw : Hardware) : Api.Bridge Global := {|
  Api.serialConnect := serial_connect hw;
  Api.serialDisconnect := serial_disconnect;
  Api.serialWrite := serial_write hw
|}.

End MainProcess.

(* ================================================================== *)
(** ** Component state: [TFDState] and [updateState] *)

Module TFD.

Record TFDState : Type := {
  mode : string;
  currentAngle : number;
  currentVelocity : number;
  currentTorque : number;
  torque : number;
  stiffness : number;
  targetAngle : number;
  selectedPort : string;
  baudRate : number;
  isPolling : bool;
  pollInterval : number;
  endstopTurns : number;
  endstopMinAngle : number;
  endstopMaxAngle : number;
  deviceType : string;
  endstopMode : string;
  isSticky : bool
}.

(** [Partial<TFDState>]: [None] is an absent key. *)
Module Partial.
Record t : Type := {
  mode : option string;
  currentAngle : option number;
  currentVelocity : option number;
  currentTorque : option number;
  torque : option number;
  stiffness : option number;
  targetAngle : option number;
  selectedPort : option string;
  baudRate : option number;
  isPolling : option bool;
  pollInterval : option number;
  endstopTurns : option number;
  endstopMinAngle : option number;
  endstopMaxAngle : option number;
  deviceType : option string;
  endstopMode : option string;
  isSticky : option bool
}.

Definition empty : t :=
  Build_t None None None None None None None None None
          None None None None None None None None.
End Partial.

(** One key of [{ ...prev, ...updates }]. *)
Definition spread {A : Type} (prev : A) (update : option A) : A :=
  match update with
  | Some v => v
  | None => prev
  end.

Definition with_endstopAngles (lo hi : number) (s : TFDState) : TFDState :=
  {| mode := mode s; currentAngle := currentAngle s;
     currentVelocity := currentVelocity s; currentTorque := currentTorque s;
     torque := torque s; stiffness := stiffness s; targetAngle := targetAngle s;
     selectedPort := selectedPort s; baudRate := baudRate s;
     isPolling := isPolling s; pollInterval := pollInterval s;
     endstopTurns := endstopTurns s;
     endstopMinAngle := lo; endstopMaxAngle := hi;
     deviceType := deviceType s; endstopMode := endstopMode s;
     isSticky := isSticky s |}.

(** The function passed to [setState] by [updateState(updates)]. *)
Definition updateState (updates : Partial.t) (prev : TFDState) : TFDState :=
  let newState :=
    {| mode := spread (mode prev) (Partial.mode updates);
       currentAngle := spread (currentAngle prev) (Partial.currentAngle updates);
       currentVelocity := spread (currentVelocity prev) (Partial.currentVelocity updates);
       currentTorque := spread (currentTorque prev) (Partial.currentTorque updates);
       torque := spread (torque prev) (Partial.torque updates);
       stiffness := spread (stiffness prev) (Partial.stiffness updates);
       targetAngle := spread (targetAngle prev) (Partial.targetAngle updates);
       selectedPort := spread (selectedPort prev) (Partial.selectedPort updates);
       baudRate := spread (baudRate prev) (Partial.baudRate updates);
       isPolling := spread (isPolling prev) (Partial.isPolling updates);
       pollInterval := spread (pollInterval prev) (Partial.pollInterval updates);
       endstopTurns := spread (endstopTurns prev) (Partial.endstopTurns updates);
       endstopMinAngle := spread (endstopMinAngle prev) (Partial.endstopMinAngle updates);
       endstopMaxAngle := spread (endstopMaxAngle prev) (Partial.endstopMaxAngle updates);
       deviceType := spread (deviceType prev) (Partial.deviceType updates);
       endstopMode := spread (endstopMode prev) (Partial.endstopMode updates);
       isSticky := spread (isSticky prev) (Partial.isSticky updates) |} in
  (* Recalculate endstop angles when turns change *)
  match Partial.endstopTurns updates with
  | Some turns =>
      let totalDegrees := mul turns (Num 360) in
      with_endstopAngles (div (neg totalDegrees) (Num 2))
                         (div totalDegrees (Num 2)) newState
  | None => newState
  end.

(** [useState<TFDState>({...})] of the controller stored after
    public/preload.js. *)
Definition initialState : TFDState := {|
  mode := "none";
  currentAngle := Num 0;
  currentVelocity := Num 0;
  currentTorque := Num 0;
  torque := Num (2 # 10);
  stiffness := Num (8 # 10);
  targetAngle := Num 0;
  selectedPort := "";
  baudRate := Num 115200;
  isPolling := true;
  pollInterval := Num 20;
  endstopTurns := Num 1;
  endstopMinAngle := Num (-180);
  endstopMaxAngle := Num 180;
  deviceType := "knob";
  endstopMode := "none";
  isSticky := false
|}.

(** The initial state of components/mini-tfd-control.tsx; its records have
    no [endstopMode] and [isSticky] keys, which are carried unused. *)
Definition initialState_tsx : TFDState := {|
  mode := "none";
  currentAngle := Num 0;
  currentVelocity := Num 0;
  currentTorque := Num 0;
  torque := Num (2 # 10);
  stiffness := Num (8 # 10);
  targetAngle := Num 0;
  selectedPort := "";
  baudRate := Num 115200;
  isPolling := true;
  pollInterval := Num 30;
  endstopTurns := Num (25 # 10);
  endstopMinAngle := Num (-450);
  endstopMaxAngle := Num 450;
  deviceType := "knob";
  endstopMode := "none";
  isSticky := false
|}.

(** The payloads of the [updateState] calls of the controller, by call site. *)
Inductive update_call : Type :=
| call_deviceType (newDeviceType newMode : string)   (* handleDeviceTypeChange *)
| call_selectedPort (p : string)
| call_currentAngle (a : number)
| call_currentVelocity (v : number)
| call_currentTorque (t : number)
| call_mode (newMode : string) (newStiffness : number)  (* handleModeChange *)
| call_baudRate (b : number)
| call_isPolling (b : bool)
| call_pollInterval (n : number)
| call_torque (input : string)
| call_stiffness (input : string)
| call_endstopMode (m : string)
| call_endstopTurns (input : string)
| call_isSticky (b : bool).

Definition payload (c : update_call) : Partial.t :=
  match c with
  | call_deviceType d m =>
      Partial.Build_t (Some m) None None None None None None None None
                      None None None None None (Some d) None None
  | call_selectedPort p =>
      Partial.Build_t None None None None None None None (Some p) None
                      None None None None None None None None
  | call_currentAngle a =>
      Partial.Build_t None (Some a) None None None None None None None
                      None None None None None None None None
  | call_currentVelocity v =>
      Partial.Build_t None None (Some v) None None None None None None
                      None None None None None None None None
  | call_currentTorque t =>
      Partial.Build_t None None None (Some t) None None None None None
                      None None None None None None None None
  | call_mode m k =>
      Partial.Build_t (Some m) None None None None (Some k) None None None
                      None None None None None None None None
  | call_baudRate b =>
      Partial.Build_t None None None None None None None None (Some b)
                      None None None None None None None None
  | call_isPolling b =>
      Partial.Build_t None None None None None None None None None
                      (Some b) None None None None None None None
  | call_pollInterval n =>
      Partial.Build_t None None None None None None None None None
                      None (Some n) None None None None None None
  | call_torque input =>
      (* torque: Number.parseFloat(e.target.value) || 0 *)
      Partial.Build_t None None None None
                      (Some (or_default (parseFloat input) (Num 0)))
                      None None None None
                      None None None None None None None None
  | call_stiffness input =>
      Partial.Build_t None None None None None
                      (Some (or_default (parseFloat input) (Num 0)))
                      None None None
                      None None None None None None None None
  | call_endstopMode m =>
      Partial.Build_t None None None None None None None None None
                      None None None None None None (Some m) None
  | call_endstopTurns input =>
      (* const newTurns = Number.parseFloat(e.target.value) || 0.5 *)
      Partial.Build_t None None None None None None None None None
                      None None
                      (Some (or_default (parseFloat input) (Num (5 # 10))))
                      None None None None None
  | call_isSticky b =>
      Partial.Build_t None None None None None None None None None
                      None None None None None None None (Some b)
  end.

End TFD.

Import TFD.

(* ================================================================== *)
(** ** Command encoder *)

Module Encoder.

(** The line feed that ends every command. *)
Definition nl : string := String (ascii_of_nat 10) EmptyString.

(** The modes of the [HapticMode] type. *)
Definition HapticMode : list string :=
  [ "none"; "soft-detents"; "medium-detents"; "rough-detents"; "clockwise";
    "counterclockwise"; "increased-torque"; "lock"; "endstops";
    "center-detent"; "proportional-control"; "inertial-control"; "latch" ].

Definition is_HapticMode (m : string) : bool :=
  existsb (String.eqb m) HapticMode.

(** [HapticConfig] of the [useHapticSerial] hook; [None] is an absent key. *)
Record HapticConfig : Type := {
  h_mode : string;
  h_angle : number;
  h_torque : option number;
  h_stiffness : option number;
  h_targetAngle : option number
}.

(** [x || d] for an optional number. *)
Definition opt_or (x : option number) (d : number) : number :=
  match x with
  | Some v => or_default v d
  | None => d
  end.

Section WithPrinter.

Variable Number_toString : Q -> string.

Definition fixed1 (x : number) : string := toFixed Number_toString 1 x.

(** [formatTFDCommand(config)] of the controller stored after
    public/preload.js. *)
Definition formatTFDCommand (config : TFDState) : string :=
  let m := mode config in
  if m =? "none" then "set normal" ++ nl
  else if m =? "soft-detents" then "set detent:ultra" ++ nl
  else if m =? "medium-detents" then "set detent:fine" ++ nl
  else if m =? "rough-detents" then "set detent:coarse" ++ nl
  else if m =? "clockwise" then "set cw" ++ nl
  else if m =? "counterclockwise" then "set ccw" ++ nl
  else if m =? "increased-torque" then
    "set constant:" ++ fixed1 (torque config) ++ nl
  else if m =? "lock" then "set constant:1.0" ++ nl
  else if m =? "endstops" then
    let e := endstopMode config in
    let turns := fixed1 (endstopTurns config) in
    if e =? "proportional" then "set endstops-proportional:" ++ turns ++ nl
    else if e =? "soft" then "set endstops-ultra:" ++ turns ++ nl
    else if e =? "medium" then "set endstops-fine:" ++ turns ++ nl
    else if e =? "rough" then "set endstops-coarse:" ++ turns ++ nl
    else if e =? "center" then "set endstops-center:" ++ turns ++ nl
    else "set endstops:" ++ turns ++ nl
  else if m =? "center-detent" then "set detent:center" ++ nl
  else if m =? "proportional-control" then
    "set proportional:" ++ fixed1 (targetAngle config) ++ ","
      ++ fixed1 (stiffness config) ++ nl
  else if m =? "inertial-control" then
    "set inertial:" ++ fixed1 (stiffness config) ++ nl
  else if m =? "latch" then "set latch" ++ nl
  else "set normal" ++ nl.

(** The separate sticky command of [sendTFDConfig]. *)
Definition stickyCommand (config : TFDState) : string :=
  "set sticky:" ++ (if isSticky config then "on" else "off") ++ nl.

(** [formatHapticCommand(config)] of the [useHapticSerial] hook. *)
Definition formatHapticCommand (config : HapticConfig) : string :=
  let m := h_mode config in
  if m =? "none" then "MODE:NONE" ++ nl
  else if m =? "soft-detents" then "MODE:DETENTS,SOFT" ++ nl
  else if m =? "medium-detents" then "MODE:DETENTS,MEDIUM" ++ nl
  else if m =? "rough-detents" then "MODE:DETENTS,ROUGH" ++ nl
  else if m =? "clockwise" then "MODE:CLOCKWISE" ++ nl
  else if m =? "counterclockwise" then "MODE:COUNTERCLOCKWISE" ++ nl
  else if m =? "increased-torque" then
    "MODE:TORQUE," ++ toString Number_toString (opt_or (h_torque config) (Num (5 # 10))) ++ nl
  else if m =? "lock" then "MODE:LOCK" ++ nl
  else if m =? "endstops" then "MODE:ENDSTOPS" ++ nl
  else if m =? "center-detent" then "MODE:CENTER_DETENT" ++ nl
  else if m =? "proportional-control" then
    "MODE:PROPORTIONAL,"
      ++ toString Number_toString (opt_or (h_stiffness config) (Num (8 # 10))) ++ ","
      ++ toString Number_toString (opt_or (h_targetAngle config) (Num 0)) ++ nl
  else "MODE:" ++ toUpperCase m ++ nl.

(** [sendTFDConfig()]: the calls made through the bridge and the value
    left in [error] ([None] when [setError] was not reached with a
    message).  [isConnected] and [state] are those of the render the
    closure belongs to. *)
Definition sendTFDConfig {T : Type} (api : Api.Bridge T)
    (isConnected : bool) (state : TFDState) (t : T)
    : list string * option string * T :=
  if negb isConnected then ([], Some "Not connected to device", t)
  else
    let command := formatTFDCommand state in
    let '(result, t1) := Api.serialWrite api command t in
    if negb (Api.success result)
    then ([command], Some (Api.error_or result "Failed to send config"), t1)
    else if mode state =? "endstops" then
      (* Send sticky command separately if in endstop mode *)
      let sticky := stickyCommand state in
      let '(stickyResult, t2) := Api.serialWrite api sticky t1 in
      if negb (Api.success stickyResult)
      then ([command; sticky],
            Some (Api.error_or stickyResult "Failed to set sticky mode"), t2)
      else ([command; sticky], None, t2)
    else ([command], None, t1).

End WithPrinter.

End Encoder.

(* ================================================================== *)
(** ** Response decoder *)

Module Decoder.

(** [console.warn] and [console.error]; [console.log] output is left out. *)
Inductive level : Type := Warn | Error.

Definition diagnostic : Type := (level * string)%type.

(** How a block of statements ends. *)
Inductive completion (A : Type) : Type :=
| Normal (a : A)
| Throw (e : string).

Arguments Normal {A} a.
Arguments Throw {A} e.

Definition set_currentAngle (a : number) : Partial.t :=
  payload (call_currentAngle a).
Definition set_currentVelocity (v : number) : Partial.t :=
  payload (call_currentVelocity v).
Definition set_currentTorque (t : number) : Partial.t :=
  payload (call_currentTorque t).

(** The handler of the controller stored after public/preload.js, which
    reads the combined line [ANGLE:..,VEL:..,TORQUE:..]. *)
Module Combined.

Definition isSensorData (cleanData : string) : bool :=
  startsWith cleanData "ANGLE:" && includes cleanData "VEL:"
    && includes cleanData "TORQUE:".

Definition isCommandResponse (cleanData : string) : bool :=
  cleanData =? "OK".

(** [clampAngle]: the clamp is commented out, the angle is returned. *)
Definition clampAngle (state : TFDState) (angle : number) : number := angle.

(** One field: the regular expression result, then the guarded update. *)
Definition update_field (m : option string) (upd : number -> Partial.t)
    (warning : string) (st : TFDState) : TFDState * list diagnostic :=
  match m with
  | Some text =>
      let numeric := parseFloat text in
      if negb (isNaN numeric)
      then (updateState (upd numeric) st, [])
      else (st, [(Warn, warning)])
  | None => (st, [])
  end.

(** The body of the [try] block.  [parts[1]] and [parts[2]] are
    [undefined] when the line has fewer commas, and [.match] on them
    throws before any update is made. *)
Definition parse (state : TFDState) (cleanData : string) (st : TFDState)
    : completion (TFDState * list diagnostic) :=
  let parts := split "," cleanData in
  match nth_error parts 0, nth_error parts 1, nth_error parts 2 with
  | Some p0, Some p1, Some p2 =>
      let angleMatch := match_field "ANGLE:" p0 in
      let velMatch := match_field "VEL:" p1 in
      let torqueMatch := match_field "TORQUE:" p2 in
      let '(st1, d1) :=
        update_field angleMatch
          (fun n => set_currentAngle (clampAngle state n))
          "Invalid angle value:" st in
      let '(st2, d2) :=
        update_field velMatch set_currentVelocity
          "Invalid velocity value:" st1 in
      let '(st3, d3) :=
        update_field torqueMatch set_currentTorque
          "Invalid torque value:" st2 in
      Normal (st3, (d1 ++ d2 ++ d3)%list)
  | _, _, _ => Throw "TypeError: Cannot read properties of undefined"
  end.

(** The data part of [handleSerialData(event, data)]: [state] is the
    record captured by the closure, [st] the record [setState] acts on. *)
Definition handleSerialData (state : TFDState) (data : string) (st : TFDState)
    : completion (TFDState * list diagnostic) :=
  let cleanData := trim data in
  if isSensorData cleanData then
    match parse state cleanData st with
    | Normal r => Normal r
    | Throw _ => Normal (st, [(Error, "Error parsing sensor data:")])
    end
  else Normal (st, []).

End Combined.

(** The handler of components/mini-tfd-control.tsx, which dispatches on
    the prefix of the line. *)
Module Prefix.

Definition isSensorData (cleanData : string) : bool :=
  startsWith cleanData "ANGLE:" || startsWith cleanData "VEL:"
    || startsWith cleanData "TORQUE:".

Definition isCommandResponse (cleanData : string) : bool :=
  cleanData =? "OK".

Definition clampAngle (state : TFDState) (angle : number) : number :=
  if mode state =? "endstops"
  then Math_max (endstopMinAngle state) (Math_min (endstopMaxAngle state) angle)
  else angle.

Definition handleSerialData (state : TFDState) (data : string) (st : TFDState)
    : completion (TFDState * list diagnostic) :=
  let cleanData := trim data in
  if startsWith cleanData "ANGLE:" then
    let angleString := substring_from (String.length "ANGLE:") cleanData in
    let numericAngle := parseFloat angleString in
    if negb (isNaN numericAngle)
    then Normal (updateState (set_currentAngle (clampAngle state numericAngle)) st, [])
    else Normal (st, [(Warn, "Received non-numeric angle data:")])
  else if startsWith cleanData "VEL:" then
    let velocityString := substring_from (String.length "VEL:") cleanData in
    let numericVelocity := parseFloat velocityString in
    if negb (isNaN numericVelocity)
    then Normal (updateState (set_currentVelocity numericVelocity) st, [])
    else Normal (st, [(Warn, "Received non-numeric velocity data:")])
  else if startsWith cleanData "TORQUE:" then
    let torqueString := substring_from (String.length "TORQUE:") cleanData in
    let numericTorque := parseFloat torqueString in
    if negb (isNaN numericTorque)
    then Normal (updateState (set_currentTorque numericTorque) st, [])
    else Normal (st, [(Warn, "Received non-numeric torque data:")])
  else Normal (st, [(Warn, "Received unhandled serial data:")]).

End Prefix.

(** The text of a decimal numeral: an optional minus sign, then digits with
    an optional fraction, or a fraction alone. *)
Definition is_float_text (s : string) : bool :=
  let body :=
    match s with
    | String c r => if Ascii.eqb c "-" then r else s
    | EmptyString => s
    end in
  let '(ip, rest) := span is_digit body in
  match rest with
  | EmptyString => negb (is_empty ip)
  | String c frac =>
      Ascii.eqb c "." && is_empty (snd (span is_digit frac))
        && (negb (is_empty ip) || negb (is_empty frac))
  end.

End Decoder.

(* ================================================================== *)
(** ** The device session: liveness monitor and reconnection

    The controller stored after public/preload.js.  The poller, the
    configuration effect, port scanning and the bookkeeping shown only in
    the window ([lastResponse], [lastAngleUpdate], pending-request flags,
    the remembered product id) are outside this model. *)

Module Session.

(** The state variables of the component as one render sees them. *)
Record View : Type := {
  state : TFDState;
  isElectron : bool;
  isConnected : bool;
  isConnecting : bool;
  error : option string;
  isDeviceResponding : bool;
  reconnectAttempts : nat;
  isReconnecting : bool;
  isInGracePeriod : bool;
  lastPortPath : string;
  lastBaudRate : number;
  hasAttemptedReconnect : bool
}.

Definition setState (x : TFDState) (v : View) : View :=
  {| state := x; isElectron := isElectron v; isConnected := isConnected v;
     isConnecting := isConnecting v; error := error v;
     isDeviceResponding := isDeviceResponding v;
     reconnectAttempts := reconnectAttempts v;
     isReconnecting := isReconnecting v;
     isInGracePeriod := isInGracePeriod v; lastPortPath := lastPortPath v;
     lastBaudRate := lastBaudRate v;
     hasAttemptedReconnect := hasAttemptedReconnect v |}.

Definition setIsElectron (x : bool) (v : View) : View :=
  {| state := state v; isElectron := x; isConnected := isConnected v;
     isConnecting := isConnecting v; error := error v;
     isDeviceResponding := isDeviceResponding v;
     reconnectAttempts := reconnectAttempts v;
     isReconnecting := isReconnecting v;
     isInGracePeriod := isInGracePeriod v; lastPortPath := lastPortPath v;
     lastBaudRate := lastBaudRate v;
     hasAttemptedReconnect := hasAttemptedReconnect v |}.

Definition setIsConnected (x : bool) (v : View) : View :=
  {| state := state v; isElectron := isElectron v; isConnected := x;
     isConnecting := isConnecting v; error := error v;
     isDeviceResponding := isDeviceResponding v;
     reconnectAttempts := reconnectAttempts v;
     isReconnecting := isReconnecting v;
     isInGracePeriod := isInGracePeriod v; lastPortPath := lastPortPath v;
     lastBaudRate := lastBaudRate v;
     hasAttemptedReconnect := hasAttemptedReconnect v |}.

Definition setIsConnecting (x : bool) (v : View) : View :=
  {| state := state v; isElectron := isElectron v;
     isConnected := isConnected v; isConnecting := x; error := error v;
     isDeviceResponding := isDeviceResponding v;
     reconnectAttempts := reconnectAttempts v;
     isReconnecting := isReconnecting v;
     isInGracePeriod := isInGracePeriod v; lastPortPath := lastPortPath v;
     lastBaudRate := lastBaudRate v;
     hasAttemptedReconnect := hasAttemptedReconnect v |}.

Definition setError (x : option string) (v : View) : View :=
  {| state := state v; isElectron := isElectron v;
     isConnected := isConnected v; isConnecting := isConnecting v;
     error := x; isDeviceResponding := isDeviceResponding v;
     reconnectAttempts := reconnectAttempts v;
     isReconnecting := isReconnecting v;
     isInGracePeriod := isInGracePeriod v; lastPortPath := lastPortPath v;
     lastBaudRate := lastBaudRate v;
     hasAttemptedReconnect := hasAttemptedReconnect v |}.

Definition setIsDeviceResponding (x : bool) (v : View) : View :=
  {| state := state v; isElectron := isElectron v;
     isConnected := isConnected v; isConnecting := isConnecting v;
     error := error v; isDeviceResponding := x;
     reconnectAttempts := reconnectAttempts v;
     isReconnecting := isReconnecting v;
     isInGracePeriod := isInGracePeriod v; lastPortPath := lastPortPath v;
     lastBaudRate := lastBaudRate v;
     hasAttemptedReconnect := hasAttemptedReconnect v |}.

Definition setReconnectAttempts (x : nat) (v : View) : View :=
  {| state := state v; isElectron := isElectron v;
     isConnected := isConnected v; isConnecting := isConnecting v;
     error := error v; isDeviceResponding := isDeviceResponding v;
     reconnectAttempts := x; isReconnecting := isReconnecting v;
     isInGracePeriod := isInGracePeriod v; lastPortPath := lastPortPath v;
     lastBaudRate := lastBaudRate v;
     hasAttemptedReconnect := hasAttemptedReconnect v |}.

Definition setIsReconnecting (x : bool) (v : View) : View :=
  {| state := state v; isElectron := isElectron v;
     isConnected := isConnected v; isConnecting := isConnecting v;
     error := error v; isDeviceResponding := isDeviceResponding v;
     reconnectAttempts := reconnectAttempts v; isReconnecting := x;
     isInGracePeriod := isInGracePeriod v; lastPortPath := lastPortPath v;
     lastBaudRate := lastBaudRate v;
     hasAttemptedReconnect := hasAttemptedReconnect v |}.

Definition setIsInGracePeriod (x : bool) (v : View) : View :=
  {| state := state v; isElectron := isElectron v;
     isConnected := isConnected v; isConnecting := isConnecting v;
     error := error v; isDeviceResponding := isDeviceResponding v;
     reconnectAttempts := reconnectAttempts v;
     isReconnecting := isReconnecting v; isInGracePeriod := x;
     lastPortPath := lastPortPath v; lastBaudRate := lastBaudRate v;
     hasAttemptedReconnect := hasAttemptedReconnect v |}.

Definition setLastPortPath (x : string) (v : View) : View :=
  {| state := state v; isElectron := isElectron v;
     isConnected := isConnected v; isConnecting := isConnecting v;
     error := error v; isDeviceResponding := isDeviceResponding v;
     reconnectAttempts := reconnectAttempts v;
     isReconnecting := isReconnecting v;
     isInGracePeriod := isInGracePeriod v; lastPortPath := x;
     lastBaudRate := lastBaudRate v;
     hasAttemptedReconnect := hasAttemptedReconnect v |}.

Definition setLastBaudRate (x : number) (v : View) : View :=
  {| state := state v; isElectron := isElectron v;
     isConnected := isConnected v; isConnecting := isConnecting v;
     error := error v; isDeviceResponding := isDeviceResponding v;
     reconnectAttempts := reconnectAttempts v;
     isReconnecting := isReconnecting v;
     isInGracePeriod := isInGracePeriod v; lastPortPath := lastPortPath v;
     lastBaudRate := x; hasAttemptedReconnect := hasAttemptedReconnect v |}.

Definition setHasAttemptedReconnect (x : bool) (v : View) : View :=
  {| state := state v; isElectron := isElectron v;
     isConnected := isConnected v; isConnecting := isConnecting v;
     error := error v; isDeviceResponding := isDeviceResponding v;
     reconnectAttempts := reconnectAttempts v;
     isReconnecting := isReconnecting v;
     isInGracePeriod := isInGracePeriod v; lastPortPath := lastPortPath v;
     lastBaudRate := lastBaudRate v; hasAttemptedReconnect := x |}.

(** [string || fallback] and the truthiness of a string. *)
Definition str_or (s fallback : string) : string :=
  if is_empty s then fallback else s.

(** What a pending [setTimeout] runs.  Each callback is a closure; [env] is
    the render whose variables it reads. *)
Inductive task : Type :=
| ResponseTimeout (env : View)   (* armed by handleSerialData, 2000 ms *)
| ConnectGrace (env : View)      (* armed by connect, 2000 ms *)
| ReconnectWait (env : View)     (* handleReconnection after its 1000 ms wait *)
| ReconnectGrace (env : View).   (* armed by handleReconnection, 2000 ms *)

Record timer : Type := {
  id : nat;
  remaining : nat;
  callback : task
}.

(** A call through the bridge, with the [success] it returned. *)
Inductive call : Type :=
| CallConnect (portPath : string) (baudRate : number) (success : bool)
| CallDisconnect
| CallWrite (data : string) (success : bool).

Section WithBridge.

Context {T : Type} (api : Api.Bridge T).

Record Session : Type := {
  live : View;                             (* the committed React state *)
  handlers : View;                         (* the render the serial handlers
                                              were registered in *)
  deviceResponseTimeoutRef : option nat;   (* [.current] *)
  timers : list timer;                     (* pending timeouts, oldest first *)
  nextTimer : nat;
  transport : T;
  calls : list call;                       (* bridge calls, oldest first *)
  reconnections : nat                      (* times the response timeout
                                              called handleReconnection *)
}.

Definition with_live (f : View -> View) (s : Session) : Session :=
  {| live := f (live s); handlers := handlers s;
     deviceResponseTimeoutRef := deviceResponseTimeoutRef s;
     timers := timers s; nextTimer := nextTimer s; transport := transport s;
     calls := calls s; reconnections := reconnections s |}.

Definition with_handlers (h : View) (s : Session) : Session :=
  {| live := live s; handlers := h;
     deviceResponseTimeoutRef := deviceResponseTimeoutRef s;
     timers := timers s; nextTimer := nextTimer s; transport := transport s;
     calls := calls s; reconnections := reconnections s |}.

Definition with_ref (r : option nat) (s : Session) : Session :=
  {| live := live s; handlers := handlers s;
     deviceResponseTimeoutRef := r;
     timers := timers s; nextTimer := nextTimer s; transport := transport s;
     calls := calls s; reconnections := reconnections s |}.

Definition with_timers (ts : list timer) (s : Session) : Session :=
  {| live := live s; handlers := handlers s;
     deviceResponseTimeoutRef := deviceResponseTimeoutRef s;
     timers := ts; nextTimer := nextTimer s; transport := transport s;
     calls := calls s; reconnections := reconnections s |}.

Definition with_transport (t : T) (c : call) (s : Session) : Session :=
  {| live := live s; handlers := handlers s;
     deviceResponseTimeoutRef := deviceResponseTimeoutRef s;
     timers := timers s; nextTimer := nextTimer s; transport := t;
     calls := calls s ++ [c]; reconnections := reconnections s |}.

Definition count_reconnection (s : Session) : Session :=
  {| live := live s; handlers := handlers s;
     deviceResponseTimeoutRef := deviceResponseTimeoutRef s;
     timers := timers s; nextTimer := nextTimer s; transport := transport s;
     calls := calls s; reconnections := S (reconnections s) |}.

(** [setTimeout(callback, delay)]: the new timer's id and the session. *)
Definition setTimeout (cb : task) (delay : nat) (s : Session) : nat * Session :=
  (nextTimer s,
   {| live := live s; handlers := handlers s;
      deviceResponseTimeoutRef := deviceResponseTimeoutRef s;
      timers := timers s ++ [{| id := nextTimer s; remaining := delay;
                                callback := cb |}];
      nextTimer := S (nextTimer s); transport := transport s;
      calls := calls s; reconnections := reconnections s |}).

(** [clearTimeout(i)] *)
Definition clearTimeout (i : nat) (s : Session) : Session :=
  with_timers (filter (fun t => negb (id t =? i)%nat) (timers s)) s.

(** [if (ref.current) clearTimeout(ref.current)] *)
Definition clearResponseTimeout (s : Session) : Session :=
  match deviceResponseTimeoutRef s with
  | Some i => clearTimeout i s
  | None => s
  end.

(** Calls through [window.electronAPI]. *)
Definition ipc_connect (portPath : string) (baud : number) (s : Session)
    : Api.result * Session :=
  let '(r, t) := Api.serialConnect api portPath baud (transport s) in
  (r, with_transport t (CallConnect portPath baud (Api.success r)) s).

Definition ipc_disconnect (s : Session) : Api.result * Session :=
  let '(r, t) := Api.serialDisconnect api (transport s) in
  (r, with_transport t CallDisconnect s).

Definition ipc_write (data : string) (s : Session) : Api.result * Session :=
  let '(r, t) := Api.serialWrite api data (transport s) in
  (r, with_transport t (CallWrite data (Api.success r)) s).

(** [checkDeviceResponsiveness()] *)
Definition checkDeviceResponsiveness (env : View) (s : Session)
    : bool * Session :=
  if negb (isElectron env) then (false, s)
  else
    let '(result, s1) := ipc_write ("get all" ++ Encoder.nl) s in
    (Api.success result, s1).

(** [handleReconnection()] up to its first timer: the guard, the
    disconnection, and the 1000 ms wait whose continuation is
    [ReconnectWait]. *)
Definition handleReconnection (env : View) (s : Session) : Session :=
  if isReconnecting env || (3 <=? reconnectAttempts env)%nat
     || is_empty (lastPortPath env)
  then s
  else
    let s1 := with_live (setIsReconnecting true) s in
    (* First disconnect *)
    let s2 := if isElectron env then snd (ipc_disconnect s1) else s1 in
    (* Wait a bit before reconnecting *)
    snd (setTimeout (ReconnectWait env) 1000 s2).

(** The rest of [handleReconnection()]: the reconnection attempt, the
    [catch] block and the [finally] block. *)
Definition onReconnectWait (env : View) (s : Session) : Session :=
  let s1 :=
    if isElectron env then
      let '(result, s') := ipc_connect (lastPortPath env) (lastBaudRate env) s in
      if Api.success result then
        let s'' := with_live (setIsConnected true) s' in
        let s'' := with_live (setIsInGracePeriod true) s'' in
        (* Start grace period timer *)
        snd (setTimeout (ReconnectGrace env) 2000 s'')
      else
        (* catch (err) *)
        let s'' := with_live (fun v => setReconnectAttempts (reconnectAttempts v + 1) v) s' in
        if (reconnectAttempts env + 1 <? 3)%nat
        then handleReconnection env s''
        else with_live (setError (Some "Failed to reconnect after multiple attempts")) s''
    else s in
  (* finally *)
  with_live (setIsReconnecting false) s1.

(** The grace-period callback armed by [handleReconnection()]. *)
Definition onReconnectGrace (env : View) (s : Session) : Session :=
  let s1 := with_live (setIsInGracePeriod false) s in
  let '(isResponding, s2) := checkDeviceResponsiveness env s1 in
  if negb isResponding then
    let s3 := with_live (fun v => setReconnectAttempts (reconnectAttempts v + 1) v) s2 in
    if (reconnectAttempts env + 1 <? 3)%nat
    then handleReconnection env s3
    else
      let s4 := with_live (setError (Some "Device not responding after reconnection attempts")) s3 in
      with_live (setIsDeviceResponding false) s4
  else
    let s3 := with_live (setIsDeviceResponding true) s2 in
    let s3 := with_live (setReconnectAttempts 0) s3 in
    with_live (setHasAttemptedReconnect false) s3.

(** The callback armed by [handleSerialData]. *)
Definition onResponseTimeout (env : View) (s : Session) : Session :=
  let s1 := with_live (setIsDeviceResponding false) s in
  let s2 := with_live (setError (Some "Device stopped responding.")) s1 in
  (* Trigger reconnection if we haven't already attempted it *)
  if negb (hasAttemptedReconnect env) && isConnected env then
    let s3 := with_live (setHasAttemptedReconnect true) s2 in
    handleReconnection env (count_reconnection s3)
  else s2.

(** The grace-period callback armed by [connect()]. *)
Definition onConnectGrace (env : View) (s : Session) : Session :=
  let s1 := with_live (setIsInGracePeriod false) s in
  let '(isResponding, s2) := checkDeviceResponsiveness env s1 in
  if negb isResponding then
    let s3 := with_live (setError (Some "Device not responding after connection")) s2 in
    with_live (setIsDeviceResponding false) s3
  else with_live (setIsDeviceResponding true) s2.

(** [portPath || state.selectedPort] and [baudRate || state.baudRate] *)
Definition targetPort (env : View) (portPath : option string) : string :=
  match portPath with
  | Some p => str_or p (selectedPort (state env))
  | None => selectedPort (state env)
  end.

Definition targetBaudRate (env : View) (baudRate : option number) : number :=
  Encoder.opt_or baudRate (TFD.baudRate (state env)).

(** [connect(portPath?, baudRate?)], called from the render [env]. *)
Definition connect (env : View) (portPath : option string)
    (baudRate : option number) (s : Session) : Session :=
  let targetPort := targetPort env portPath in
  let targetBaudRate := targetBaudRate env baudRate in
  if is_empty targetPort then
    with_live (setError (Some "Please select a port first")) s
  else
    (* Store connection details for potential reconnection *)
    let s := with_live (setLastPortPath targetPort) s in
    let s := with_live (setLastBaudRate targetBaudRate) s in
    let s := with_live (setReconnectAttempts 0) s in
    let s := with_live (setHasAttemptedReconnect false) s in
    let s := with_live (setIsConnecting true) s in
    let s := with_live (setError None) s in
    let s := with_live (setIsDeviceResponding false) s in
    (* Clear any existing device response timeout *)
    let s := match deviceResponseTimeoutRef s with
             | Some i => with_ref None (clearTimeout i s)
             | None => s
             end in
    let s :=
      if isElectron env then
        let '(result, s') := ipc_connect targetPort targetBaudRate s in
        if Api.success result then
          let s' := with_live (setIsConnected true) s' in
          let s' := with_live (setIsInGracePeriod true) s' in
          (* Start grace period timer *)
          snd (setTimeout (ConnectGrace env) 2000 s')
        else
          (* catch (err) *)
          let s' := with_live (setError (Some (Api.error_or result "Connection failed"))) s' in
          let s' := with_live (setIsConnected false) s' in
          with_live (setIsDeviceResponding false) s'
      else
        let s' := with_live (setError (Some "Serial communication not available in browser")) s in
        let s' := with_live (setIsConnected false) s' in
        with_live (setIsDeviceResponding false) s' in
    (* finally *)
    with_live (setIsConnecting false) s.

(** [disconnect()], called from the render [env]. *)
Definition disconnect (env : View) (s : Session) : Session :=
  if isElectron env then
    let '(result, s') := ipc_disconnect s in
    if Api.success result then
      let s' := with_live (setIsConnected false) s' in
      let s' := with_live (setIsDeviceResponding false) s' in
      with_live (setError None) s'
    else
      with_live (setError (Some (Api.error_or result "Disconnect failed"))) s'
  else
    let s' := with_live (setIsConnected false) s in
    with_live (setIsDeviceResponding false) s'.

(** [handleSerialData(event, data)], registered in the render [env]. *)
Definition handleSerialData (env : View) (data : string) (s : Session)
    : Session :=
  let cleanData := trim data in
  let isSensorData := Decoder.Combined.isSensorData cleanData in
  let isCommandResponse := Decoder.Combined.isCommandResponse cleanData in
  let s1 :=
    if isSensorData || isCommandResponse then
      let s' := with_live (setIsDeviceResponding true) s in
      let s' := with_live (setError None) s' in
      (* Reset the timeout whenever a valid response is received *)
      let s' := clearResponseTimeout s' in
      let '(i, s') := setTimeout (ResponseTimeout env) 2000 s' in
      with_ref (Some i) s'
    else s in
  match Decoder.Combined.handleSerialData (state env) data (state (live s1)) with
  | Decoder.Normal (st, _) => with_live (setState st) s1
  | Decoder.Throw _ => s1
  end.

(** [handleSerialError(event, errorMessage)] *)
Definition handleSerialError (errorMessage : string) (s : Session) : Session :=
  let s' := with_live (setError (Some errorMessage)) s in
  with_live (setIsDeviceResponding false) s'.

(** [handleSerialDisconnected()] *)
Definition handleSerialDisconnected (s : Session) : Session :=
  let s' := with_live (setIsConnected false) s in
  let s' := with_live (setIsDeviceResponding false) s' in
  let s' := with_live (setError (Some "Device disconnected")) s' in
  clearResponseTimeout s'.

(** [checkElectron()] with the outcome of the environment test. *)
Definition checkElectron (electronAvailable : bool) (s : Session) : Session :=
  let s' := with_live (setIsElectron electronAvailable) s in
  if negb electronAvailable then
    let s' := with_live (setIsDeviceResponding false) s' in
    with_live (setError (Some "Serial communication not available in browser")) s'
  else s'.

(** *** Rendering

    The state updates of one handler or callback are committed together
    when it returns.  The effect that registers the serial handlers
    depends on [[isElectron, isConnected, hasAttemptedReconnect]]: when
    one of them changed, its cleanup clears the response timeout and the
    effect runs again in the new render, so that the handlers read that
    render from then on.  Without Electron the effect only clears
    [isDeviceResponding]. *)
Definition same_deps (v w : View) : bool :=
  Bool.eqb (isElectron v) (isElectron w)
    && Bool.eqb (isConnected v) (isConnected w)
    && Bool.eqb (hasAttemptedReconnect v) (hasAttemptedReconnect w).

Definition commit (s : Session) : Session :=
  if same_deps (live s) (handlers s) then s
  else
    let s1 := if isElectron (handlers s) then clearResponseTimeout s else s in
    if isElectron (live s1) then with_handlers (live s1) s1
    else
      let s2 := with_live (setIsDeviceResponding false) s1 in
      with_handlers (live s1) s2.

(** *** Timers *)

Definition run_task (cb : task) (s : Session) : Session :=
  match cb with
  | ResponseTimeout env => onResponseTimeout env s
  | ConnectGrace env => onConnectGrace env s
  | ReconnectWait env => onReconnectWait env s
  | ReconnectGrace env => onReconnectGrace env s
  end.

Definition elapse (t : timer) : timer :=
  {| id := id t; remaining := pred (remaining t); callback := callback t |}.

(** The oldest timer that is due, and the others. *)
Fixpoint pop_due (ts : list timer) : option (timer * list timer) :=
  match ts with
  | [] => None
  | t :: r =>
      if (remaining t =? 0)%nat then Some (t, r)
      else match pop_due r with
           | Some (d, r') => Some (d, t :: r')
           | None => None
           end
  end.

(** Run the due callbacks one after the other, each followed by a render. *)
Fixpoint run_due (fuel : nat) (s : Session) : Session :=
  match fuel with
  | O => s
  | S k =>
      match pop_due (timers s) with
      | Some (t, rest) => run_due k (commit (run_task (callback t) (with_timers rest s)))
      | None => s
      end
  end.

(** One millisecond passes. *)
Definition tick (s : Session) : Session :=
  let s1 := with_timers (map elapse (timers s)) s in
  run_due (List.length (timers s1)) s1.

(** *** Events *)

Inductive event : Type :=
| CheckElectron (electronAvailable : bool)
| UpdateState (updates : Partial.t)
| Connect (portPath : option string) (baudRate : option number)
| Disconnect
| SerialData (data : string)
| SerialError (errorMessage : string)
| SerialDisconnected
| Tick.

(** The serial listeners exist when the effect ran with [isElectron]. *)
Definition step (e : event) (s : Session) : Session :=
  match e with
  | CheckElectron a => commit (checkElectron a s)
  | UpdateState u => commit (with_live (fun v => setState (updateState u (state v)) v) s)
  | Connect p b => commit (connect (live s) p b s)
  | Disconnect => commit (disconnect (live s) s)
  | SerialData d =>
      if isElectron (handlers s) then commit (handleSerialData (handlers s) d s) else s
  | SerialError m =>
      if isElectron (handlers s) then commit (handleSerialError m s) else s
  | SerialDisconnected =>
      if isElectron (handlers s) then commit (handleSerialDisconnected s) else s
  | Tick => tick s
  end.

Definition run (es : list event) (s : Session) : Session :=
  fold_left (fun acc e => step e acc) es s.

Definition initialView : View := {|
  state := initialState;
  isElectron := false;
  isConnected := false;
  isConnecting := false;
  error := None;
  isDeviceResponding := false;
  reconnectAttempts := 0;
  isReconnecting := false;
  isInGracePeriod := false;
  lastPortPath := "";
  lastBaudRate := Num 115200;
  hasAttemptedReconnect := false
|}.

Definition initial (t : T) : Session := {|
  live := initialView;
  handlers := initialView;
  deviceResponseTimeoutRef := None;
  timers := [];
  nextTimer := 1;
  transport := t;
  calls := [];
  reconnections := 0
|}.



End WithBridge.

Arguments Session T : clear implicits.

(** A bridge that answers from a script: the n-th [serialConnect] and the
    n-th [serialWrite] get the answers the script lists for them. *)
Record Scripted : Type := {
  connects : nat;
  writes : nat
}.

Definition scripted (connectAnswer writeAnswer : nat -> Api.result)
    : Api.Bridge Scripted := {|
  Api.serialConnect := fun _ _ t =>
    (connectAnswer (connects t), {| connects := S (connects t); writes := writes t |});
  Api.serialDisconnect := fun t => (Api.ok, t);
  Api.serialWrite := fun _ t =>
    (writeAnswer (writes t), {| connects := connects t; writes := S (writes t) |})
|}.

End Session.

(* ================================================================== *)
(** ** Predicates used in the statements *)


(** *** Concrete inputs *)

Module Sample.

(** A machine whose port opens and accepts every write. *)
Definition hw_ok : MainProcess.Hardware := {|
  MainProcess.module_available := true;
  MainProcess.open_error := fun _ => None;
  MainProcess.write_error := fun _ => None
|}.

(** A machine without the serialport module. *)
Definition hw_absent : MainProcess.Hardware := {|
  MainProcess.module_available := false;
  MainProcess.open_error := fun _ => Some "Opening COM3: File not found";
  MainProcess.write_error := fun _ => Some "Port is not open"
|}.

(** A machine whose port opens and rejects every write. *)
Definition hw_write_fails : MainProcess.Hardware := {|
  MainProcess.module_available := true;
  MainProcess.open_error := fun _ => None;
  MainProcess.write_error := fun _ => Some "Port is not writable"
|}.

(** The main process after a successful [serial-connect] to COM3. *)
Definition g_open : MainProcess.Global :=
  snd (MainProcess.serial_connect hw_ok "COM3" (Num 115200) MainProcess.initial).

(** A stand-in for [Number::toString]. *)
Definition no_printer : Q -> string := fun _ => EmptyString.

Definition with_mode (m : string) (s : TFDState) : TFDState :=
  updateState (payload (call_mode m (stiffness s))) s.

(** [{mode: "endstops", endstopTurns: 2.0, endstopMode: "soft", isSticky: true}] *)
Definition soft_endstops : TFDState :=
  updateState (payload (call_isSticky true))
    (updateState (payload (call_endstopMode "soft"))
       (updateState (payload (call_endstopTurns "2.0"))
          (with_mode "endstops" initialState))).

End Sample.

(** *** The session *)

Section SessionPredicates.

Context {T : Type}.

Import Session.

Definition is_response_timeout (t : timer) : bool :=
  match callback t with
  | ResponseTimeout _ => true
  | _ => false
  end.


(** [s'] differs from [s] by state updates, bridge calls and freshly armed
    timers other than the response timeout. *)
Definition extends (s s' : Session T) : Prop :=
  handlers s' = handlers s
  /\ deviceResponseTimeoutRef s' = deviceResponseTimeoutRef s
  /\ exists added,
       timers s' = (timers s ++ added)%list
       /\ map id added = seq (nextTimer s) (List.length added)
       /\ nextTimer s' = (nextTimer s + List.length added)%nat
       /\ forallb (fun t => negb (is_response_timeout t)) added = true.

(** A timer [k] ms later. *)
Definition waited (k : nat) (t : timer) : timer :=
  {| id := id t; remaining := (remaining t - k)%nat; callback := callback t |}.


End SessionPredicates.

(** The lines that reset the response countdown, as [handleSerialData]
    of the controller stored after public/preload.js tests them. *)
Definition resetsCountdown (data : string) : bool :=
  Decoder.Combined.isSensorData (trim data)
    || Decoder.Combined.isCommandResponse (trim data).



(** *** Concrete sessions *)

Module Scenario.

Import Session.

(** A transport on which every call succeeds. *)
Definition always_ok : Api.Bridge Scripted :=
  scripted (fun _ => Api.ok) (fun _ => Api.ok).

(** A transport that opens once and never again. *)
Definition reopen_fails : Api.Bridge Scripted :=
  scripted (fun n => if (n =? 0)%nat then Api.ok else Api.failed "Access denied")
           (fun _ => Api.ok).

(** A transport that opens every time and writes once. *)
Definition probe_fails : Api.Bridge Scripted :=
  scripted (fun _ => Api.ok)
           (fun n => if (n =? 0)%nat then Api.ok else Api.failed "Write failed").

Definition fresh : Session Scripted :=
  initial {| connects := 0; writes := 0 |}.

(** The window detects Electron, COM3 is selected, Connect is pressed. *)
Definition boot : list event :=
  [CheckElectron true; UpdateState (payload (call_selectedPort "COM3"));
   Connect None None].

(** [n] milliseconds without any event. *)
Definition wait (n : nat) : list event := repeat Tick n.

(** The device answers [OK] once, right after the grace period, and is
    silent from then on for [ms] milliseconds. *)
Definition silence_after_ok (ms : nat) : list event :=
  (boot ++ wait 2000 ++ [SerialData "OK"] ++ wait ms)%list.

(** The number of [serialConnect] calls in a log. *)
Definition connect_calls (cs : list call) : nat :=
  List.length (filter (fun c => match c with CallConnect _ _ _ => true | _ => false end) cs).

(** The main process of a machine without device, behind the window. *)
Definition no_device : Session MainProcess.Global :=
  run (MainProcess.bridge Sample.hw_absent)
    [CheckElectron true; UpdateState (payload (call_selectedPort "COM3"))]
    (initial MainProcess.initial).

(** The window in front of the main process: what the main process sent
    to the renderer during an event reaches the serial listeners right
    after it. *)
Definition listener_event (m : MainProcess.message) : event :=
  match m with
  | MainProcess.serial_error msg => SerialError msg
  | MainProcess.serial_disconnected => SerialDisconnected
  | MainProcess.serial_data line => SerialData line
  end.

Definition step_main (hw : MainProcess.Hardware) (e : event)
    (s : Session MainProcess.Global) : Session MainProcess.Global :=
  let s1 := step (MainProcess.bridge hw) e s in
  let fresh_messages :=
    skipn (List.length (MainProcess.sent (transport s)))
          (MainProcess.sent (transport s1)) in
  run (MainProcess.bridge hw) (map listener_event fresh_messages) s1.

Definition run_main (hw : MainProcess.Hardware) (es : list event)
    (s : Session MainProcess.Global) : Session MainProcess.Global :=
  fold_left (fun acc e => step_main hw e acc) es s.

End Scenario.

(** *** The decoder *)

(** Every character of [s] satisfies [p]. *)
Fixpoint all_chars (p : ascii -> bool) (s : string) : bool :=
  match s with
  | String c r => p c && all_chars p r
  | EmptyString => true
  end.



(* ================================================================== *)
(** ** The control panel of the controller

    The inputs, requests and effects of the controller stored after
    public/preload.js that surround the device session: the mode table,
    the handlers of the mode, device-type and endstop inputs, the effect
    that sends the configuration, the requests, port scanning and
    auto-connect.  The interval poller is not part of it. *)

(** Further arithmetic on [number]. *)
Module JSArith.

(** [Object.is(x, y)] on numbers, as React compares dependencies. *)
Definition Object_is (x y : number) : bool :=
  match x, y with
  | NaN, NaN => true
  | _, _ => strict_eq x y
  end.

Definition add (x y : number) : number :=
  match x, y with
  | NaN, _ | _, NaN => NaN
  | Num a, Num b => Num (a + b)
  | Infinity s, Num _ | Num _, Infinity s => Infinity s
  | Infinity s, Infinity t => if Bool.eqb s t then Infinity s else NaN
  end.

Definition sub (x y : number) : number := add x (neg y).

(** [x <= y], [x < y] and [x > y]: comparisons with [NaN] are false. *)
Definition le (x y : number) : bool :=
  match x, y with
  | NaN, _ | _, NaN => false
  | Num a, Num b => Qle_bool a b
  | Infinity s, Infinity t => s || negb t
  | Infinity s, Num _ => s
  | Num _, Infinity t => negb t
  end.

Definition lt (x y : number) : bool :=
  match x, y with
  | NaN, _ | _, NaN => false
  | _, _ => negb (le y x)
  end.


Definition Math_abs (x : number) : number :=
  match x with
  | NaN => NaN
  | Num q => Num (Qabs q)
  | Infinity _ => Infinity false
  end.

(** The integer part of a rational, towards zero. *)
Definition Qtrunc (q : Q) : Z :=
  if Qle_bool 0 q then Qfloor q else Qceiling q.

(** [x % y]: the remainder has the sign of the dividend. *)
Definition rem (x y : number) : number :=
  match x, y with
  | Num a, Num b =>
      if Qeq_bool b 0 then NaN else Num (a - b * inject_Z (Qtrunc (a / b)))
  | Num a, Infinity _ => Num a
  | _, _ => NaN
  end.

End JSArith.

(** [hapticModes]: the modes of the panel and the devices that offer them. *)
Module Modes.

Record entry : Type := {
  id : string;
  label : string;
  devices : list string
}.

Definition hapticModes : list entry :=
  [ {| id := "none"; label := "None"; devices := ["knob"; "steering-wheel"] |};
    {| id := "center-detent"; label := "Center Detent";
       devices := ["knob"; "steering-wheel"] |};
    {| id := "rough-detents"; label := "Rough Detents"; devices := ["knob"] |};
    {| id := "medium-detents"; label := "Medium Detents"; devices := ["knob"] |};
    {| id := "soft-detents"; label := "Soft Detents"; devices := ["knob"] |};
    {| id := "clockwise"; label := "Clockwise"; devices := ["knob"] |};
    {| id := "counterclockwise"; label := "Counterclockwise"; devices := ["knob"] |};
    {| id := "increased-torque"; label := "Increased Torque";
       devices := ["knob"; "steering-wheel"] |};
    {| id := "lock"; label := "Lock"; devices := ["knob"] |};
    {| id := "endstops"; label := "Endstops"; devices := ["knob"; "steering-wheel"] |};
    {| id := "proportional-control"; label := "Proportional Control";
       devices := ["knob"; "steering-wheel"] |};
    {| id := "inertial-control"; label := "Inertial Control";
       devices := ["steering-wheel"] |};
    {| id := "latch"; label := "Latch"; devices := ["knob"] |} ].

(** The values of the [DeviceType] type. *)
Definition DeviceType : list string := ["knob"; "steering-wheel"].

(** [getAvailableModes(deviceType)] *)
Definition getAvailableModes (deviceType : string) : list entry :=
  filter (fun mode => existsb (String.eqb deviceType) (devices mode)) hapticModes.

(** [handleDeviceTypeChange(newDeviceType)]: the update it passes to
    [updateState]; [state] is the record of the render. *)
Definition handleDeviceTypeChange (state : TFDState) (newDeviceType : string)
    : update_call :=
  let availableModes := getAvailableModes newDeviceType in
  let currentModeAvailable :=
    existsb (fun mode => id mode =? TFD.mode state) availableModes in
  call_deviceType newDeviceType
    (if currentModeAvailable then TFD.mode state else "none").

(** [handleModeChange(newMode)]: the update it passes to [updateState]. *)
Definition handleModeChange (state : TFDState) (newMode : string) : update_call :=
  let newStiffness :=
    if newMode =? "inertial-control" then Num (25 # 100)
    else if newMode =? "proportional-control" then Num (4 # 10)
    else stiffness state in
  call_mode newMode newStiffness.

(** The mode shown in the panel is offered by the selected device. *)
Definition mode_offered (state : TFDState) : Prop :=
  existsb (fun mode => id mode =? TFD.mode state)
          (getAvailableModes (deviceType state)) = true.

End Modes.

(** Serial ports as [serial-list-ports] reports them. *)
Module Ports.

Record SerialPortInfo : Type := {
  path : string;
  manufacturer : option string;
  friendlyName : option string;
  serialNumber : option string;
  pnpId : option string;
  locationId : option string;
  productId : option string;
  vendorId : option string
}.

(** A port of which only the path and some names are known. *)
Definition named (p : string) (m f : option string) : SerialPortInfo :=
  {| path := p; manufacturer := m; friendlyName := f; serialNumber := None;
     pnpId := None; locationId := None; productId := None; vendorId := None |}.

(** The ports the main process invents when it cannot list any. *)
Definition mock_ports : list SerialPortInfo :=
  [ named "COM1" (Some "Mock Device") (Some "Mock Device (COM1)");
    named "COM2" (Some "Haptic Controller") (Some "Haptic Controller (COM2)");
    named "COM3" None (Some "COM3") ].

(** [ipcMain.handle("serial-list-ports", ...)]: [listed] is what
    [SerialPort.list()] resolves to, [None] when it rejects. *)
Definition serial_list_ports (hw : MainProcess.Hardware)
    (listed : option (list SerialPortInfo)) : list SerialPortInfo :=
  if MainProcess.module_available hw then
    match listed with
    | Some ports => ports
    | None => mock_ports
    end
  else mock_ports.

Definition DEFAULT_PRODUCT_ID : string := "1002".

(** [getLastProductId()] and [setLastProductId(productId)] over the value
    stored in [localStorage] under [lastConnectedProductId]. *)
Definition getLastProductId (stored : option string) : string :=
  match stored with
  | Some v => Session.str_or v DEFAULT_PRODUCT_ID
  | None => DEFAULT_PRODUCT_ID
  end.

Definition setLastProductId (productId : string) (stored : option string)
    : option string :=
  Some productId.

End Ports.

Module Panel.

Import Session.

(** The state of the panel that the session does not carry. *)
Record Extra : Type := {
  availablePorts : list Ports.SerialPortInfo;
  isScanning : bool;
  isAutoConnecting : bool;
  pendingAngleRequest : bool;
  pendingVelocityRequest : bool
}.

Definition setAvailablePorts (x : list Ports.SerialPortInfo) (e : Extra) : Extra :=
  {| availablePorts := x; isScanning := isScanning e;
     isAutoConnecting := isAutoConnecting e;
     pendingAngleRequest := pendingAngleRequest e;
     pendingVelocityRequest := pendingVelocityRequest e |}.

Definition setIsScanning (x : bool) (e : Extra) : Extra :=
  {| availablePorts := availablePorts e; isScanning := x;
     isAutoConnecting := isAutoConnecting e;
     pendingAngleRequest := pendingAngleRequest e;
     pendingVelocityRequest := pendingVelocityRequest e |}.

Definition setIsAutoConnecting (x : bool) (e : Extra) : Extra :=
  {| availablePorts := availablePorts e; isScanning := isScanning e;
     isAutoConnecting := x;
     pendingAngleRequest := pendingAngleRequest e;
     pendingVelocityRequest := pendingVelocityRequest e |}.

Definition setPendingAngleRequest (x : bool) (e : Extra) : Extra :=
  {| availablePorts := availablePorts e; isScanning := isScanning e;
     isAutoConnecting := isAutoConnecting e;
     pendingAngleRequest := x;
     pendingVelocityRequest := pendingVelocityRequest e |}.

Definition setPendingVelocityRequest (x : bool) (e : Extra) : Extra :=
  {| availablePorts := availablePorts e; isScanning := isScanning e;
     isAutoConnecting := isAutoConnecting e;
     pendingAngleRequest := pendingAngleRequest e;
     pendingVelocityRequest := x |}.

Definition initialExtra : Extra :=
  {| availablePorts := []; isScanning := false; isAutoConnecting := false;
     pendingAngleRequest := false; pendingVelocityRequest := false |}.

(** What one render of the panel shows to the closures it creates. *)
Record Render : Type := {
  view : View;
  more : Extra
}.

Section WithBridge.

Context {T : Type} (api : Api.Bridge T).

(** [window.electronAPI.serialListPorts()]: [None] is a rejected promise. *)
Variable serialListPorts : T -> option (list Ports.SerialPortInfo) * T.

Variable Number_toString : Q -> string.

(** The panel: the session, the rest of the React state, and the value
    kept in [localStorage]. *)
Record Desk : Type := {
  session : Session T;
  extra : Extra;
  localStorage : option string
}.

Definition on_session (f : Session T -> Session T) (d : Desk) : Desk :=
  {| session := f (session d); extra := extra d; localStorage := localStorage d |}.

Definition on_extra (f : Extra -> Extra) (d : Desk) : Desk :=
  {| session := session d; extra := f (extra d); localStorage := localStorage d |}.

Definition on_storage (f : option string -> option string) (d : Desk) : Desk :=
  {| session := session d; extra := extra d; localStorage := f (localStorage d) |}.

Definition set_live (f : View -> View) (d : Desk) : Desk :=
  on_session (with_live f) d.

Definition rendered (d : Desk) : Render :=
  {| view := live (session d); more := extra d |}.

(** *** Sending the configuration *)

(** [sendTFDConfig()] of the render [env], on the session. *)
Definition sendTFDConfig (env : View) (s : Session T) : Session T :=
  if negb (isConnected env) then
    with_live (setError (Some "Not connected to device")) s
  else
    let command := Encoder.formatTFDCommand Number_toString (state env) in
    let '(result, s1) := ipc_write api command s in
    if negb (Api.success result) then
      with_live (setError (Some (Api.error_or result "Failed to send config"))) s1
    else if mode (state env) =? "endstops" then
      let '(stickyResult, s2) :=
        ipc_write api (Encoder.stickyCommand (state env)) s1 in
      if negb (Api.success stickyResult) then
        with_live (setError (Some (Api.error_or stickyResult
                                     "Failed to set sticky mode"))) s2
      else with_live (setError None) s2
    else with_live (setError None) s1.

(** The dependencies of the effect that sends the configuration:
    [[state.mode, state.torque, state.stiffness, state.targetAngle,
    state.endstopTurns, isConnected]]. *)
Definition same_config_deps (v w : View) : bool :=
  (mode (state v) =? mode (state w))
    && JSArith.Object_is (torque (state v)) (torque (state w))
    && JSArith.Object_is (stiffness (state v)) (stiffness (state w))
    && JSArith.Object_is (targetAngle (state v)) (targetAngle (state w))
    && JSArith.Object_is (endstopTurns (state v)) (endstopTurns (state w))
    && Bool.eqb (isConnected v) (isConnected w).

(** The effects that follow a render: [before] is the render before it.
    The serial handlers are registered again as in [commit]; the
    configuration is sent when one of its dependencies changed and the
    session is connected. *)
Definition render (before : View) (s : Session T) : Session T :=
  let now := live s in
  let s1 := commit s in
  if same_config_deps before now then s1
  else if isConnected now then sendTFDConfig now s1
  else s1.

(** *** The inputs of the panel *)

Inductive action : Type :=
| DeviceTypeClick (newDeviceType : string)
| ModeSelect (newMode : string)
| TorqueInput (value : string)
| StiffnessInput (value : string)
| EndstopModeSelect (newMode : string)
| EndstopTurnsInput (value : string)
| StickyClick.

Definition apply_update (c : update_call) (s : Session T) : Session T :=
  with_live (fun v => setState (updateState (payload c) (state v)) v) s.

(** The handler of an input, created in the render [env]. *)
Definition dispatch (a : action) (env : View) (s : Session T) : Session T :=
  match a with
  | DeviceTypeClick d =>
      apply_update (Modes.handleDeviceTypeChange (state env) d) s
  | ModeSelect m =>
      apply_update (Modes.handleModeChange (state env) m) s
  | TorqueInput value => apply_update (call_torque value) s
  | StiffnessInput value => apply_update (call_stiffness value) s
  | EndstopModeSelect newMode =>
      let s1 := apply_update (call_endstopMode newMode) s in
      if isConnected env then sendTFDConfig env s1 else s1
  | EndstopTurnsInput value =>
      let s1 := apply_update (call_endstopTurns value) s in
      if isConnected env then sendTFDConfig env s1 else s1
  | StickyClick =>
      let newSticky := negb (isSticky (state env)) in
      let s1 := apply_update (call_isSticky newSticky) s in
      if isConnected env
      then snd (ipc_write api ("set sticky:" ++ (if newSticky then "on" else "off")
                                 ++ Encoder.nl) s1)
      else s1
  end.

(** An input on a panel at rest: its handler, then the render. *)
Definition step (a : action) (s : Session T) : Session T :=
  render (live s) (dispatch a (live s) s).

(** The lines written through the bridge, oldest first. *)
Definition written (cs : list call) : list string :=
  flat_map (fun c => match c with CallWrite data _ => [data] | _ => [] end) cs.

(** *** Requests *)

(** [getCurrentAngle()], [getCurrentVelocity()] and [getCurrentTorque()]:
    the value they resolve to, [None] for [null]. *)
Definition getCurrentAngle (env : Render) (d : Desk) : option number * Desk :=
  if isElectron (view env) then
    let d1 := on_extra (setPendingAngleRequest true) d in
    let '(result, s) := ipc_write api ("get all" ++ Encoder.nl) (session d1) in
    let d2 := on_session (fun _ => s) d1 in
    if negb (Api.success result) then
      let d3 := on_extra (setPendingAngleRequest false) d2 in
      let d3 := set_live (setIsDeviceResponding false) d3 in
      let d3 := set_live (setError (Some "Device not responding to data request")) d3 in
      (* catch (err) *)
      let d3 := on_extra (setPendingAngleRequest false) d3 in
      (None, set_live (setIsDeviceResponding false) d3)
    else (None, d2)
  else (None, set_live (setIsDeviceResponding false) d).

Definition getCurrentVelocity (env : Render) (d : Desk) : option number * Desk :=
  if isElectron (view env) then
    let d1 := on_extra (setPendingVelocityRequest true) d in
    let '(result, s) := ipc_write api ("get vel" ++ Encoder.nl) (session d1) in
    let d2 := on_session (fun _ => s) d1 in
    if negb (Api.success result) then
      let d3 := on_extra (setPendingVelocityRequest false) d2 in
      let d3 := set_live (setIsDeviceResponding false) d3 in
      let d3 := set_live (setError (Some "Device not responding to velocity request")) d3 in
      (* catch (err) *)
      let d3 := on_extra (setPendingVelocityRequest false) d3 in
      (None, set_live (setIsDeviceResponding false) d3)
    else (None, d2)
  else (None, set_live (setIsDeviceResponding false) d).

Definition getCurrentTorque (env : Render) (d : Desk) : option number * Desk :=
  if isElectron (view env) then
    let '(result, s) := ipc_write api ("get torque" ++ Encoder.nl) (session d) in
    let d2 := on_session (fun _ => s) d in
    if negb (Api.success result) then
      let d3 := set_live (setIsDeviceResponding false) d2 in
      let d3 := set_live (setError (Some "Device not responding to torque request")) d3 in
      (* catch (err) *)
      (None, set_live (setIsDeviceResponding false) d3)
    else (None, d2)
  else (None, set_live (setIsDeviceResponding false) d).

(** [requestCurrentAngle()] and [requestCurrentVelocity()] *)
Definition requestCurrentAngle (env : Render) (d : Desk) : Desk :=
  if negb (isConnected (view env)) then
    set_live (setError (Some "Not connected to device")) d
  else
    let '(angle, d1) := getCurrentAngle env d in
    match angle with
    | Some a =>
        let clampedAngle := Decoder.Combined.clampAngle (state (view env)) a in
        on_session (apply_update (call_currentAngle clampedAngle)) d1
    | None => d1
    end.

Definition requestCurrentVelocity (env : Render) (d : Desk) : Desk :=
  if negb (isConnected (view env)) then
    set_live (setError (Some "Not connected to device")) d
  else
    let '(velocity, d1) := getCurrentVelocity env d in
    match velocity with
    | Some v => on_session (apply_update (call_currentVelocity v)) d1
    | None => d1
    end.

(** [reset()] and [calibrate()] differ in the message they fall back to
    (and in the status they leave in [lastResponse], which is not part of
    the session). *)
Definition zero_command (fallback : string) (env : View) (s : Session T)
    : Session T :=
  if negb (isConnected env) then
    with_live (setError (Some "Not connected to device")) s
  else if isElectron env then
    let '(result, s1) := ipc_write api ("set zero" ++ Encoder.nl) s in
    if negb (Api.success result)
    then with_live (setError (Some (Api.error_or result fallback))) s1
    else s1
  else with_live (setError (Some "Serial communication not available in browser")) s.

Definition reset (env : View) (s : Session T) : Session T :=
  zero_command "Failed to reset device" env s.

Definition calibrate (env : View) (s : Session T) : Session T :=
  zero_command "Failed to calibrate device" env s.

(** *** Scanning and auto-connect *)

(** [listAvailablePorts()]: the ports it resolves to. *)
Definition listAvailablePorts (env : Render) (d : Desk)
    : list Ports.SerialPortInfo * Desk :=
  let d := on_extra (setIsScanning true) d in
  let d := set_live (setError None) d in
  let '(ports, d) :=
    if isElectron (view env) then
      let '(answer, t) := serialListPorts (transport (session d)) in
      let d := on_session (fun s => {| live := live s; handlers := handlers s;
                                        deviceResponseTimeoutRef := deviceResponseTimeoutRef s;
                                        timers := timers s; nextTimer := nextTimer s;
                                        transport := t; calls := calls s;
                                        reconnections := reconnections s |}) d in
      match answer with
      | Some ports => (ports, on_extra (setAvailablePorts ports) d)
      | None =>
          (* catch (err) *)
          ([], set_live (setError (Some "Failed to scan for serial ports")) d)
      end
    else
      let d := on_extra (setAvailablePorts []) d in
      ([], set_live (setError (Some "Serial communication not available in browser")) d) in
  (* finally *)
  (ports, on_extra (setIsScanning false) d).

(** [connect(portPath, baudRate)] of the render [env], with the product
    id it remembers: [availablePorts] is the list that render saw. *)
Definition connect (env : Render) (portPath : option string)
    (baudRate : option number) (d : Desk) : Desk :=
  let target := targetPort (view env) portPath in
  let d1 := on_session (Session.connect api (view env) portPath baudRate) d in
  if is_empty target then d1
  else
    match find (fun p => Ports.path p =? target) (availablePorts (more env)) with
    | Some port =>
        match Ports.productId port with
        | Some productId =>
            if is_empty productId then d1
            else on_storage (Ports.setLastProductId productId) d1
        | None => d1
        end
    | None => d1
    end.

Definition has_productId (p : Ports.SerialPortInfo) : bool :=
  match Ports.productId p with
  | Some _ => true
  | None => false
  end.

Definition productId_is (v : string) (p : Ports.SerialPortInfo) : bool :=
  match Ports.productId p with
  | Some x => x =? v
  | None => false
  end.

(** [handleAutoConnect()] of the render [env]. *)
Definition handleAutoConnect (env : Render) (d : Desk) : Desk :=
  if negb (isElectron (view env)) then
    set_live (setError (Some "Serial communication not available in browser for auto-connect")) d
  else if isAutoConnecting (more env) then d
  else
    let d := if isConnected (view env)
             then on_session (Session.disconnect api (view env)) d else d in
    let d := on_extra (setIsAutoConnecting true) d in
    let d := set_live (setError None) d in
    let d := on_extra (setAvailablePorts []) d in
    let d := on_session (apply_update (call_selectedPort "")) d in
    let '(ports, d) := listAvailablePorts env d in
    if (List.length ports =? 0)%nat then
      let d := set_live (setError (Some "No serial ports found.")) d in
      on_extra (setIsAutoConnecting false) d
    else
      (* Filter ports to only include those with a defined productId *)
      let filteredPorts := filter has_productId ports in
      if (List.length filteredPorts =? 0)%nat then
        let d := set_live (setError (Some "No compatible devices with Product ID found.")) d in
        on_extra (setIsAutoConnecting false) d
      else
        let lastProductId := Ports.getLastProductId (localStorage d) in
        match find (productId_is lastProductId) filteredPorts with
        | Some preferredPort =>
            let d := on_session (apply_update (call_selectedPort (Ports.path preferredPort))) d in
            let d := connect env (Some (Ports.path preferredPort))
                       (Some (baudRate (state (view env)))) d in
            on_extra (setIsAutoConnecting false) d
        | None => on_extra (setIsAutoConnecting false) d
        end.

(** [handleConnect()], the Connect / Disconnect button. *)
Definition handleConnect (env : Render) (d : Desk) : Desk :=
  if isConnected (view env)
  then on_session (Session.disconnect api (view env)) d
  else connect env None None d.

Definition initialDesk (t : T) : Desk :=
  {| session := initial t; extra := initialExtra; localStorage := None |}.

(** The Connect / Disconnect button on a panel at rest: its handler,
    then the render. *)
Definition pressConnect (d : Desk) : Desk :=
  on_session (render (live (session d))) (handleConnect (rendered d) d).

End WithBridge.

Arguments Desk T : clear implicits.

(** [serialListPorts] as the main process serves it. *)
Definition main_lister (hw : MainProcess.Hardware)
    (listed : option (list Ports.SerialPortInfo)) (g : MainProcess.Global)
    : option (list Ports.SerialPortInfo) * MainProcess.Global :=
  (Some (Ports.serial_list_ports hw listed), g).

End Panel.

(** Concrete panels. *)
Module Bench.

(** The panel of the scenario, connected to COM3. *)
Definition connected : Session.Session Session.Scripted :=
  Session.run Scenario.always_ok Scenario.boot Scenario.fresh.

(** The same panel after Endstops was selected. *)
Definition in_endstops : Session.Session Session.Scripted :=
  Panel.step Scenario.always_ok Sample.no_printer (Panel.ModeSelect "endstops")
    connected.

(** A knob with the expected product id on COM7 and an adapter on COM4. *)
Definition knob_port : Ports.SerialPortInfo :=
  {| Ports.path := "COM7"; Ports.manufacturer := Some "Haptic Controller";
     Ports.friendlyName := None; Ports.serialNumber := None;
     Ports.pnpId := None; Ports.locationId := None;
     Ports.productId := Some "1002"; Ports.vendorId := Some "2341" |}.

Definition adapter_port : Ports.SerialPortInfo :=
  {| Ports.path := "COM4"; Ports.manufacturer := Some "FTDI";
     Ports.friendlyName := None; Ports.serialNumber := None;
     Ports.pnpId := None; Ports.locationId := None;
     Ports.productId := Some "6001"; Ports.vendorId := Some "0403" |}.

(** A bridge that lists these two ports. *)
Definition lister (t : Session.Scripted)
    : option (list Ports.SerialPortInfo) * Session.Scripted :=
  (Some [adapter_port; knob_port], t).

(** A panel in Electron that has not scanned yet. *)
Definition idle : Panel.Desk Session.Scripted :=
  {| Panel.session := Session.run Scenario.always_ok [Session.CheckElectron true]
                        Scenario.fresh;
     Panel.extra := Panel.initialExtra;
     Panel.localStorage := None |}.

(** The same panel with COM3 selected. *)
Definition ready : Panel.Desk Session.Scripted :=
  {| Panel.session :=
       Session.run Scenario.always_ok
         [Session.CheckElectron true;
          Session.UpdateState (payload (call_selectedPort "COM3"))]
         Scenario.fresh;
     Panel.extra := Panel.initialExtra;
     Panel.localStorage := None |}.

End Bench.

(* ================================================================== *)
(** ** The dials

    The angle arithmetic of the [DialVisualization], [TorqueDial] and
    [VelocityDial] components; the SVG they draw from it is left out. *)

Module Dial.





(** [wrapAngle(a)]: [(((a % 360) + 540) % 360) - 180]. *)
Definition wrapAngle (a : number) : number :=
  JSArith.sub
    (JSArith.rem (JSArith.add (JSArith.rem a (Num 360)) (Num 540)) (Num 360))
    (Num 180).

(** Where an endstop is drawn: [(wrapAngle(endstop) + 360) % 360], as
    [renderEndstops] and [getDisplayAngle] both compute it. *)
Definition endstopDisplayAngle (endstop : number) : number :=
  JSArith.rem (JSArith.add (wrapAngle endstop) (Num 360)) (Num 360).

(** [getDisplayAngle()] *)
Definition getDisplayAngle (mode : string)
    (angle endstopMinAngle endstopMaxAngle : number) : number :=
  if mode =? "endstops" then
    let clampedAngle := Math_max endstopMinAngle (Math_min endstopMaxAngle angle) in
    let minDisplay := endstopDisplayAngle endstopMinAngle in
    let maxDisplay := endstopDisplayAngle endstopMaxAngle in
    let t := div (JSArith.sub clampedAngle endstopMinAngle)
                 (JSArith.sub endstopMaxAngle endstopMinAngle) in
    let angleSpan := JSArith.sub maxDisplay minDisplay in
    if strict_eq angleSpan (Num 0) then
      JSArith.rem (JSArith.add minDisplay (mul t (Num 360))) (Num 360)
    else
      let angleSpan :=
        if JSArith.lt angleSpan (Num 0) then JSArith.add angleSpan (Num 360)
        else angleSpan in
      JSArith.rem (JSArith.add minDisplay (mul t angleSpan)) (Num 360)
  else
    JSArith.rem (JSArith.add (JSArith.rem angle (Num 360)) (Num 360)) (Num 360).

(** The needle of [TorqueDial]: [pointerAngle]. *)
Definition torquePointerAngle (torqueValue : number) : number :=
  let maxInputTorque := Num 2 in
  let minInputTorque := Num 0 in
  let clampedTorque := Math_max minInputTorque (Math_min maxInputTorque torqueValue) in
  let startSweepAngle := Num (-135) in
  let endSweepAngle := Num 135 in
  let totalSweepAngle := JSArith.sub endSweepAngle startSweepAngle in
  let normalizedTorque :=
    div (JSArith.sub clampedTorque minInputTorque)
        (JSArith.sub maxInputTorque minInputTorque) in
  JSArith.add startSweepAngle (mul normalizedTorque totalSweepAngle).

(** [VelocityDial]: the velocity it shows and the angle of its needle. *)
Definition clampedVelocity (velocity : number) : number :=
  let maxVelocity := Num 200 in
  let minVelocity := Num (-200) in
  let clamp := Math_max minVelocity (Math_min maxVelocity velocity) in
  if JSArith.le (JSArith.Math_abs clamp) (Num 4) then Num 0 else clamp.

Definition velocityPointerAngle (velocity : number) : number :=
  let maxVelocity := Num 200 in
  let minVelocity := Num (-200) in
  let startSweepAngle := Num (-135) in
  let endSweepAngle := Num 135 in
  let totalSweepAngle := JSArith.sub endSweepAngle startSweepAngle in
  let normalizedVelocity :=
    div (JSArith.sub (clampedVelocity velocity) minVelocity)
        (JSArith.sub maxVelocity minVelocity) in
  JSArith.add startSweepAngle (mul normalizedVelocity totalSweepAngle).

(** The value of [a % 360]. *)
Definition rem360 (a : Q) : Q :=
  (a - 360 * inject_Z (JSArith.Qtrunc (a / 360)))%Q.

(** The value of [endstopDisplayAngle] at a finite endstop. *)
Definition marker (a : Q) : Q :=
  rem360 (rem360 (rem360 a + 540) + - (180) + 360)%Q.

(** A finite number in the interval from [lo] (included) to [hi]
    (excluded, or included). *)
Definition within (lo hi : Q) (x : number) : Prop :=
  match x with
  | Num q => (lo <= q /\ q < hi)%Q
  | _ => False
  end.

Definition between (lo hi : Q) (x : number) : Prop :=
  match x with
  | Num q => (lo <= q /\ q <= hi)%Q
  | _ => False
  end.

(** Two finite angles that differ by whole turns. *)
Definition same_direction (x y : number) : Prop :=
  match x, y with
  | Num a, Num b => exists k : Z, (a - b == 360 * inject_Z k)%Q
  | _, _ => False
  end.

End Dial.

(* ================================================================== *)
(** ** The [useHapticSerial] hook

    The hook stored in unnamed/part_000, over the same bridge.  A
    command is a closure of a render and reads the [isConnected] of that
    render; [isElectron] is fixed when the hook is mounted.  Time stamps
    of [lastResponse] are left out. *)

Module Hook.

(** What [lastResponse] holds. *)
Inductive response : Type :=
| connected (port : string) (baudRate : number)
| haptic_config (sent : string) (config : Encoder.HapticConfig)
| received (data : string)
| reset_sent
| calibration_sent.

Record State : Type := {
  isConnected : bool;
  isConnecting : bool;
  error : option string;
  lastResponse : option response;
  availablePorts : list Ports.SerialPortInfo;
  isScanning : bool
}.

Definition setIsConnected (x : bool) (h : State) : State :=
  {| isConnected := x; isConnecting := isConnecting h; error := error h;
     lastResponse := lastResponse h; availablePorts := availablePorts h;
     isScanning := isScanning h |}.

Definition setIsConnecting (x : bool) (h : State) : State :=
  {| isConnected := isConnected h; isConnecting := x; error := error h;
     lastResponse := lastResponse h; availablePorts := availablePorts h;
     isScanning := isScanning h |}.

Definition setError (x : option string) (h : State) : State :=
  {| isConnected := isConnected h; isConnecting := isConnecting h; error := x;
     lastResponse := lastResponse h; availablePorts := availablePorts h;
     isScanning := isScanning h |}.

Definition setLastResponse (x : option response) (h : State) : State :=
  {| isConnected := isConnected h; isConnecting := isConnecting h;
     error := error h; lastResponse := x; availablePorts := availablePorts h;
     isScanning := isScanning h |}.

Definition setAvailablePorts (x : list Ports.SerialPortInfo) (h : State) : State :=
  {| isConnected := isConnected h; isConnecting := isConnecting h;
     error := error h; lastResponse := lastResponse h; availablePorts := x;
     isScanning := isScanning h |}.

Definition setIsScanning (x : bool) (h : State) : State :=
  {| isConnected := isConnected h; isConnecting := isConnecting h;
     error := error h; lastResponse := lastResponse h;
     availablePorts := availablePorts h; isScanning := x |}.

Definition initialState : State :=
  {| isConnected := false; isConnecting := false; error := None;
     lastResponse := None; availablePorts := []; isScanning := false |}.

(** The fields [scanPorts] copies from a listed port. *)
Definition copied (port : Ports.SerialPortInfo) : Ports.SerialPortInfo :=
  {| Ports.path := Ports.path port;
     Ports.manufacturer := Ports.manufacturer port;
     Ports.friendlyName := None;
     Ports.serialNumber := Ports.serialNumber port;
     Ports.pnpId := Ports.pnpId port;
     Ports.locationId := Ports.locationId port;
     Ports.productId := Ports.productId port;
     Ports.vendorId := Ports.vendorId port |}.

Section WithBridge.

Context {T : Type} (api : Api.Bridge T).

(** [window.electronAPI.serialListPorts()]: the ports, or the message of
    the error it rejects with, [None] when it rejects with something
    other than an [Error]. *)
Variable serialListPorts : T -> (list Ports.SerialPortInfo + option string) * T.

Variable Number_toString : Q -> string.

(** [isBrowser && window.electronAPI] *)
Variable isElectron : bool.

(** The hook and the transport behind the bridge, with the lines written. *)
Record World : Type := {
  hook : State;
  transport : T;
  written : list string
}.

Definition with_hook (f : State -> State) (w : World) : World :=
  {| hook := f (hook w); transport := transport w; written := written w |}.

Definition serialWrite (data : string) (w : World) : Api.result * World :=
  let '(result, t) := Api.serialWrite api data (transport w) in
  (result, {| hook := hook w; transport := t; written := written w ++ [data] |}).

(** [scanPorts()] *)
Definition scanPorts (w : World) : World :=
  if negb isElectron then
    with_hook (setError (Some "Serial port scanning is only available in desktop app")) w
  else
    let w := with_hook (setIsScanning true) w in
    let w := with_hook (setError None) w in
    let '(answer, t) := serialListPorts (transport w) in
    let w := {| hook := hook w; transport := t; written := written w |} in
    let w :=
      match answer with
      | inl ports => with_hook (setAvailablePorts (map copied ports)) w
      | inr (Some message) => with_hook (setError (Some message)) w
      | inr None => with_hook (setError (Some "Failed to scan ports")) w
      end in
    (* finally *)
    with_hook (setIsScanning false) w.

(** [connect(portPath, baudRate = 115200)] *)
Definition connect (portPath : string) (baudRate : option number) (w : World)
    : bool * World :=
  let baudRate := match baudRate with Some b => b | None => Num 115200 end in
  if negb isElectron then
    (false, with_hook (setError (Some "Serial connection is only available in desktop app")) w)
  else
    let w := with_hook (setIsConnecting true) w in
    let w := with_hook (setError None) w in
    let '(result, t) := Api.serialConnect api portPath baudRate (transport w) in
    let w := {| hook := hook w; transport := t; written := written w |} in
    let '(ok, w) :=
      if Api.success result then
        let w := with_hook (setIsConnected true) w in
        (true, with_hook (setLastResponse (Some (connected portPath baudRate))) w)
      else
        (* catch (err) *)
        let w := with_hook (setError (Some (Api.error_or result "Connection failed"))) w in
        (false, with_hook (setIsConnected false) w) in
    (* finally *)
    (ok, with_hook (setIsConnecting false) w).

(** [disconnect()] *)
Definition disconnect (w : World) : World :=
  if negb isElectron then w
  else
    let '(result, t) := Api.serialDisconnect api (transport w) in
    let w := {| hook := hook w; transport := t; written := written w |} in
    if Api.success result then
      let w := with_hook (setIsConnected false) w in
      let w := with_hook (setError None) w in
      with_hook (setLastResponse None) w
    else
      with_hook (setError (Some (Api.error_or result "Disconnect failed"))) w.

(** [sendHapticConfig(config)] of the render [env]. *)
Definition sendHapticConfig (env : State) (config : Encoder.HapticConfig)
    (w : World) : bool * World :=
  if negb (isConnected env) || negb isElectron then
    (false, with_hook (setError (Some "Not connected to device")) w)
  else
    let command := Encoder.formatHapticCommand Number_toString config in
    let '(result, w) := serialWrite command w in
    if Api.success result then
      let w := with_hook (setError None) w in
      (true, with_hook (setLastResponse (Some (haptic_config command config))) w)
    else
      (false, with_hook (setError (Some (Api.error_or result "Failed to send config"))) w).

(** [setAngle(angle)] *)
Definition setAngle (env : State) (angle : number) (w : World) : bool * World :=
  if negb (isConnected env) || negb isElectron then (false, w)
  else
    let command := "ANGLE:" ++ toFixed Number_toString 2 angle ++ Encoder.nl in
    let '(result, w) := serialWrite command w in
    if Api.success result then (true, with_hook (setError None) w)
    else (false, with_hook (setError (Some (Api.error_or result "Failed to set angle"))) w).

(** [getStatus()] and [getCurrentAngle()]: [Some true] or [None] for [null]. *)
Definition getStatus (env : State) (w : World) : option bool * World :=
  if negb (isConnected env) || negb isElectron then (None, w)
  else
    let '(result, w) := serialWrite ("STATUS?" ++ Encoder.nl) w in
    if Api.success result then (Some true, with_hook (setError None) w)
    else (None, with_hook (setError (Some (Api.error_or result "Failed to get status"))) w).

Definition getCurrentAngle (env : State) (w : World) : option bool * World :=
  if negb (isConnected env) || negb isElectron then (None, w)
  else
    let '(result, w) := serialWrite ("ANGLE?" ++ Encoder.nl) w in
    if Api.success result then (Some true, with_hook (setError None) w)
    else (None, with_hook (setError (Some (Api.error_or result "Failed to get angle"))) w).

(** [reset()] and [calibrate()] *)
Definition reset (env : State) (w : World) : bool * World :=
  if negb (isConnected env) || negb isElectron then (false, w)
  else
    let '(result, w) := serialWrite ("RESET" ++ Encoder.nl) w in
    if Api.success result then
      let w := with_hook (setError None) w in
      (true, with_hook (setLastResponse (Some reset_sent)) w)
    else
      (false, with_hook (setError (Some (Api.error_or result "Failed to reset device"))) w).

Definition calibrate (env : State) (w : World) : bool * World :=
  if negb (isConnected env) || negb isElectron then (false, w)
  else
    let '(result, w) := serialWrite ("CALIBRATE" ++ Encoder.nl) w in
    if Api.success result then
      let w := with_hook (setError None) w in
      (true, with_hook (setLastResponse (Some calibration_sent)) w)
    else
      (false, with_hook (setError (Some (Api.error_or result "Failed to calibrate device"))) w).

(** The serial listeners, registered when [isElectron]. *)
Definition handleSerialData (data : string) (w : World) : World :=
  with_hook (setLastResponse (Some (received (trim data)))) w.

Definition handleSerialError (errorMessage : string) (w : World) : World :=
  with_hook (setError (Some errorMessage)) w.

Definition handleSerialDisconnected (w : World) : World :=
  let w := with_hook (setIsConnected false) w in
  with_hook (setError (Some "Device disconnected")) w.

(** The commands of the hook and the line each of them writes. *)
Inductive command : Type :=
| SendHapticConfig (config : Encoder.HapticConfig)
| SetAngle (angle : number)
| GetStatus
| GetCurrentAngle
| Reset
| Calibrate.

Definition run_command (c : command) (env : State) (w : World) : World :=
  match c with
  | SendHapticConfig config => snd (sendHapticConfig env config w)
  | SetAngle angle => snd (setAngle env angle w)
  | GetStatus => snd (getStatus env w)
  | GetCurrentAngle => snd (getCurrentAngle env w)
  | Reset => snd (reset env w)
  | Calibrate => snd (calibrate env w)
  end.

Definition line (c : command) : string :=
  match c with
  | SendHapticConfig config => Encoder.formatHapticCommand Number_toString config
  | SetAngle angle => "ANGLE:" ++ toFixed Number_toString 2 angle ++ Encoder.nl
  | GetStatus => "STATUS?" ++ Encoder.nl
  | GetCurrentAngle => "ANGLE?" ++ Encoder.nl
  | Reset => "RESET" ++ Encoder.nl
  | Calibrate => "CALIBRATE" ++ Encoder.nl
  end.

End WithBridge.

Arguments World T : clear implicits.

End Hook.

(* ================================================================== *)
(** ** The encoders of components/mini-tfd-control.tsx

    The file holds two earlier copies of the component, each with its
    own [formatTFDCommand]. *)

Module Component.

Section WithPrinter.

Variable Number_toString : Q -> string.

(** [formatTFDCommand(config)] of the first copy (lines 1342-1371). *)
Definition formatTFDCommand_first (config : TFDState) : string :=
  let m := mode config in
  if m =? "none" then "set normal" ++ Encoder.nl
  else if m =? "soft-detents" then "set detent:ultra" ++ Encoder.nl
  else if m =? "medium-detents" then "set detent:fine" ++ Encoder.nl
  else if m =? "rough-detents" then "set detent:coarse" ++ Encoder.nl
  else if m =? "clockwise" then "set cw" ++ Encoder.nl
  else if m =? "counterclockwise" then "set ccw" ++ Encoder.nl
  else if m =? "increased-torque" then
    "set constant:" ++ Encoder.fixed1 Number_toString (torque config) ++ Encoder.nl
  else if m =? "lock" then "set constant:1.0" ++ Encoder.nl
  else if m =? "endstops" then
    "set endstops:" ++ Encoder.fixed1 Number_toString (endstopTurns config) ++ Encoder.nl
  else if m =? "center-detent" then "set detent:center" ++ Encoder.nl
  else if m =? "proportional-control" then
    "set proportional:" ++ Encoder.fixed1 Number_toString (targetAngle config) ++ ","
      ++ Encoder.fixed1 Number_toString (stiffness config) ++ Encoder.nl
  else "set normal" ++ Encoder.nl.

(** [formatTFDCommand(config)] of the second copy (lines 3161-3192). *)
Definition formatTFDCommand_second (config : TFDState) : string :=
  let m := mode config in
  if m =? "none" then "set normal" ++ Encoder.nl
  else if m =? "soft-detents" then "set detent:ultra" ++ Encoder.nl
  else if m =? "medium-detents" then "set detent:fine" ++ Encoder.nl
  else if m =? "rough-detents" then "set detent:coarse" ++ Encoder.nl
  else if m =? "clockwise" then "set cw" ++ Encoder.nl
  else if m =? "counterclockwise" then "set ccw" ++ Encoder.nl
  else if m =? "increased-torque" then
    "set constant:" ++ Encoder.fixed1 Number_toString (torque config) ++ Encoder.nl
  else if m =? "lock" then "set constant:1.0" ++ Encoder.nl
  else if m =? "endstops" then
    "set endstops:" ++ Encoder.fixed1 Number_toString (endstopTurns config) ++ Encoder.nl
  else if m =? "center-detent" then "set detent:center" ++ Encoder.nl
  else if m =? "proportional-control" then
    "set proportional:" ++ Encoder.fixed1 Number_toString (targetAngle config) ++ ","
      ++ Encoder.fixed1 Number_toString (stiffness config) ++ Encoder.nl
  else if m =? "inertial-control" then
    "set inertial:" ++ Encoder.fixed1 Number_toString (stiffness config) ++ Encoder.nl
  else "set normal" ++ Encoder.nl.

End WithPrinter.

(** The endstop modes the controller gives a command of their own. *)
Definition named_endstop_modes : list string :=
  [ "proportional"; "soft"; "medium"; "rough"; "center" ].

End Component.

(* ================================================================== *)
(** * Properties *)

(** ** The JavaScript primitives on examples *)

Example parseFloat_examples :
  parseFloat "12.50" = Num (25 # 2)
  /\ parseFloat "-3.20" = Num (-16 # 5)
  /\ parseFloat "  1.5e3abc" = Num 1500
  /\ parseFloat "5." = Num 5
  /\ parseFloat ".5" = Num (1 # 2)
  /\ parseFloat "-Infinity" = Infinity true
  /\ parseFloat "." = NaN
  /\ parseFloat "abc" = NaN
  /\ parseFloat "-.-" = NaN.
Proof. repeat split. Qed.

Example toFixed_examples (Number_toString : Q -> string) :
  toFixed Number_toString 1 (Num 2) = "2.0"
  /\ toFixed Number_toString 1 (Num (35 # 100)) = "0.4"
  /\ toFixed Number_toString 1 (Num (- 1 # 100)) = "-0.0"
  /\ toFixed Number_toString 0 (Num (-450)) = "-450"
  /\ toFixed Number_toString 2 (Num (12345 # 1000)) = "12.35"
  /\ toFixed Number_toString 1 NaN = "NaN".
Proof. repeat split. Qed.

Example string_examples :
  split "," "a,b,,c" = ["a"; "b"; ""; "c"]
  /\ split "," "" = [""]
  /\ match_field "ANGLE:" "xANGLE:yANGLE:-1.5z" = Some "-1.5"
  /\ match_field "VEL:" "VEL:abc" = None
  /\ trim "  a b  " = "a b"
  /\ includes "ANGLE:1,VEL:2" "VEL:" = true
  /\ toUpperCase "latch-2" = "LATCH-2".
Proof. repeat split. Qed.

(** ** Numbers *)

Lemma Qeq_bool_refl (q : Q) : Qeq_bool q q = true.
Proof. apply Qeq_eq_bool. reflexivity. Qed.



(** ** [updateState] and the endstop range *)






(** ** Strings *)

Lemma append_assoc (a b c : string) : (a ++ b) ++ c = a ++ (b ++ c).
Proof. induction a as [|x a IH]; simpl; [reflexivity | now rewrite IH]. Qed.

Lemma append_empty_r (a : string) : a ++ "" = a.
Proof. induction a as [|x a IH]; simpl; [reflexivity | now rewrite IH]. Qed.

(** ** Command encoder *)

Section EncoderProperties.

Variable Number_toString : Q -> string.


Lemma not_HapticMode (m : string) :
  Encoder.is_HapticMode m = false ->
  (m =? "none") = false /\ (m =? "soft-detents") = false
  /\ (m =? "medium-detents") = false /\ (m =? "rough-detents") = false
  /\ (m =? "clockwise") = false /\ (m =? "counterclockwise") = false
  /\ (m =? "increased-torque") = false /\ (m =? "lock") = false
  /\ (m =? "endstops") = false /\ (m =? "center-detent") = false
  /\ (m =? "proportional-control") = false
  /\ (m =? "inertial-control") = false /\ (m =? "latch") = false.
Proof.
  unfold Encoder.is_HapticMode, Encoder.HapticMode. simpl. intros H.
  repeat (apply orb_false_elim in H; destruct H as [? H]).
  repeat split; assumption.
Qed.

(** Every command is a line that starts with [set]. *)
Lemma formatTFDCommand_line (config : TFDState) :
  exists body, Encoder.formatTFDCommand Number_toString config = "set " ++ body ++ Encoder.nl.
Proof.
  unfold Encoder.formatTFDCommand.
  repeat match goal with
         | |- context [if ?b then _ else _] => destruct b
         end;
    match goal with
    | |- exists _, ?p ++ ?f1 ++ "," ++ ?f2 ++ Encoder.nl = _ =>
        exists (substring_from 4 p ++ f1 ++ "," ++ f2);
        simpl; rewrite !append_assoc; reflexivity
    | |- exists _, ?p ++ ?f ++ Encoder.nl = _ =>
        exists (substring_from 4 p ++ f); reflexivity
    | |- exists _, ?l ++ Encoder.nl = _ =>
        exists (substring_from 4 l); reflexivity
    end.
Qed.

Lemma sendTFDConfig_endstops {T : Type} (api : Api.Bridge T)
    (state : TFDState) (t : T) :
  mode state = "endstops" ->
  Api.success (fst (Api.serialWrite api (Encoder.formatTFDCommand Number_toString state) t)) = true ->
  fst (fst (Encoder.sendTFDConfig Number_toString api true state t))
  = [Encoder.formatTFDCommand Number_toString state; Encoder.stickyCommand state].
Proof.
  intros Hm Hw. unfold Encoder.sendTFDConfig. simpl.
  destruct (Api.serialWrite api (Encoder.formatTFDCommand Number_toString state) t) as [r t1].
  simpl in Hw. rewrite Hw. simpl. rewrite Hm. simpl.
  destruct (Api.serialWrite api (Encoder.stickyCommand state) t1) as [r2 t2].
  destruct (Api.success r2); reflexivity.
Qed.

(** C6.  [sendTFDConfig] on a connected session whose mode is [endstops],
    once its first write is accepted, passes to the transport the endstops
    command and then the line [set sticky:on] or [set sticky:off] that
    reflects [isSticky]; with endstop mode [soft], 2.0 turns and
    [isSticky] set these are [set endstops-ultra:2.0] and [set sticky:on],
    in that order, and on an open port that accepts the writes they are
    what reaches the wire. *)
Theorem C6_endstops_then_sticky {T : Type} (api : Api.Bridge T)
    (state : TFDState) (t : T) :
  mode state = "endstops" ->
  Api.success (fst (Api.serialWrite api (Encoder.formatTFDCommand Number_toString state) t)) = true ->
  fst (fst (Encoder.sendTFDConfig Number_toString api true state t))
  = [Encoder.formatTFDCommand Number_toString state;
     "set sticky:" ++ (if isSticky state then "on" else "off") ++ Encoder.nl]
  /\ String.prefix "set endstops" (Encoder.formatTFDCommand Number_toString state) = true
  /\ (endstopMode state = "soft" -> endstopTurns state = Num 2 ->
      isSticky state = true ->
      fst (fst (Encoder.sendTFDConfig Number_toString api true state t))
      = ["set endstops-ultra:2.0" ++ Encoder.nl; "set sticky:on" ++ Encoder.nl])
  /\ (forall (hw : MainProcess.Hardware) (g : MainProcess.Global),
         MainProcess.port_open g = true ->
         (forall d, MainProcess.write_error hw d = None) ->
         MainProcess.wire (snd (Encoder.sendTFDConfig Number_toString (MainProcess.bridge hw) true state g))
         = List.app (MainProcess.wire g)
             [Encoder.formatTFDCommand Number_toString state;
              "set sticky:" ++ (if isSticky state then "on" else "off")
                ++ Encoder.nl]).
Proof.
  intros Hm Hw.
  pose proof (sendTFDConfig_endstops api state t Hm Hw) as Hsend.
  split; [exact Hsend|]. split; [|split].
  - unfold Encoder.formatTFDCommand. rewrite Hm. simpl.
    repeat match goal with
           | |- context [if ?b then _ else _] => destruct b
           end; reflexivity.
  - intros He Ht Hs. rewrite Hsend.
    unfold Encoder.formatTFDCommand, Encoder.stickyCommand.
    rewrite Hm, He, Ht, Hs. reflexivity.
  - intros hw g Hopen Hnoerr.
    unfold Encoder.sendTFDConfig. simpl.
    unfold MainProcess.serial_write. rewrite Hopen, Hnoerr. simpl.
    rewrite Hm. simpl. unfold MainProcess.port_open in *. simpl.
    rewrite Hopen, Hnoerr. simpl. rewrite <- app_assoc. reflexivity.
Qed.

(** C5, as the code has it.  A mode outside [HapticMode] does not make the
    encoder fail: [formatTFDCommand] falls back to [set normal], which
    [sendTFDConfig] transmits without reporting an error, and
    [formatHapticCommand] emits [MODE:] followed by the upper-cased mode;
    for every mode, inside or outside the type, [formatTFDCommand] returns
    a [set ...] line. *)
Theorem C5_unknown_mode_is_encoded (config : TFDState) :
  Encoder.is_HapticMode (mode config) = false ->
  Encoder.formatTFDCommand Number_toString config = "set normal" ++ Encoder.nl
  /\ (forall (T : Type) (api : Api.Bridge T) (t : T),
         Api.success (fst (Api.serialWrite api ("set normal" ++ Encoder.nl) t)) = true ->
         fst (Encoder.sendTFDConfig Number_toString api true config t) = (["set normal" ++ Encoder.nl], None))
  /\ (forall hc : Encoder.HapticConfig,
         Encoder.h_mode hc = mode config ->
         Encoder.formatHapticCommand Number_toString hc = "MODE:" ++ toUpperCase (mode config) ++ Encoder.nl)
  /\ (forall c : TFDState, exists body,
         Encoder.formatTFDCommand Number_toString c = "set " ++ body ++ Encoder.nl).
Proof.
  intros H. apply not_HapticMode in H.
  destruct H as (H1 & H2 & H3 & H4 & H5 & H6 & H7 & H8 & H9 & H10 & H11 & H12 & H13).
  assert (Hfmt : Encoder.formatTFDCommand Number_toString config = "set normal" ++ Encoder.nl).
  { unfold Encoder.formatTFDCommand.
    now rewrite H1, H2, H3, H4, H5, H6, H7, H8, H9, H10, H11, H12, H13. }
  split; [exact Hfmt|]. split; [|split].
  - intros T api t Hw. unfold Encoder.sendTFDConfig. simpl. rewrite Hfmt.
    destruct (Api.serialWrite api ("set normal" ++ Encoder.nl) t) as [r t1].
    simpl in Hw. rewrite Hw. simpl. now rewrite H9.
  - intros hc Hhc. unfold Encoder.formatHapticCommand. rewrite Hhc.
    now rewrite H1, H2, H3, H4, H5, H6, H7, H8, H9, H10, H11.
  - exact formatTFDCommand_line.
Qed.

End EncoderProperties.

(** The claim at the configuration of the scenario, sent to an open port. *)
Lemma C6_endstops_then_sticky_witness :
  mode Sample.soft_endstops = "endstops"
  /\ fst (fst (Encoder.sendTFDConfig Sample.no_printer
                 (MainProcess.bridge Sample.hw_ok) true Sample.soft_endstops
                 Sample.g_open))
     = ["set endstops-ultra:2.0" ++ Encoder.nl; "set sticky:on" ++ Encoder.nl].
Proof.
  split; [reflexivity|].
  exact (proj1 (proj2 (proj2
           (C6_endstops_then_sticky Sample.no_printer
              (MainProcess.bridge Sample.hw_ok) Sample.soft_endstops Sample.g_open
              eq_refl eq_refl))) eq_refl eq_refl eq_refl).
Defined.

(** The claim at the mode [turbo]. *)
Lemma C5_unknown_mode_is_encoded_witness :
  Encoder.is_HapticMode "turbo" = false
  /\ Encoder.formatTFDCommand Sample.no_printer (Sample.with_mode "turbo" initialState)
     = "set normal" ++ Encoder.nl.
Proof.
  split; [reflexivity|].
  exact (proj1 (C5_unknown_mode_is_encoded Sample.no_printer
                  (Sample.with_mode "turbo" initialState) eq_refl)).
Defined.

(** C5 as stated fails: with the mode [turbo], which is outside the
    enumeration, [sendTFDConfig] reports no error and the line
    [set normal] reaches the wire; the older encoder emits [MODE:TURBO]. *)
Lemma C5_counterexample :
  Encoder.is_HapticMode "turbo" = false
  /\ (let '(sent, err, g) :=
        Encoder.sendTFDConfig Sample.no_printer (MainProcess.bridge Sample.hw_ok)
          true (Sample.with_mode "turbo" initialState) Sample.g_open in
      err = None /\ MainProcess.wire g = ["set normal" ++ Encoder.nl])
  /\ Encoder.formatHapticCommand Sample.no_printer
       {| Encoder.h_mode := "turbo"; Encoder.h_angle := Num 0;
          Encoder.h_torque := None; Encoder.h_stiffness := None;
          Encoder.h_targetAngle := None |}
     = "MODE:TURBO" ++ Encoder.nl.
Proof. repeat split. Qed.

(** ** The main-process handlers *)

Lemma serial_write_closed (hw : MainProcess.Hardware) (data : string)
    (g : MainProcess.Global) :
  MainProcess.port_open g = false ->
  MainProcess.serial_write hw data g = (Api.ok, g).
Proof. intros H. unfold MainProcess.serial_write. now rewrite H. Qed.

Lemma serial_connect_succeeds (hw : MainProcess.Hardware) (portPath : string)
    (baud : number) (g : MainProcess.Global) :
  Api.success (fst (MainProcess.serial_connect hw portPath baud g)) = true.
Proof.
  unfold MainProcess.serial_connect.
  destruct (MainProcess.module_available hw); simpl; [|reflexivity].
  destruct (MainProcess.open_error hw portPath); reflexivity.
Qed.

Lemma serial_connect_no_device (hw : MainProcess.Hardware) (portPath : string)
    (baud : number) (g : MainProcess.Global) :
  MainProcess.port_open g = false ->
  MainProcess.module_available hw = false
    \/ MainProcess.open_error hw portPath <> None ->
  MainProcess.port_open (snd (MainProcess.serial_connect hw portPath baud g)) = false
  /\ MainProcess.wire (snd (MainProcess.serial_connect hw portPath baud g))
     = MainProcess.wire g.
Proof.
  intros Hg H. unfold MainProcess.serial_connect.
  destruct (MainProcess.module_available hw); simpl.
  - destruct H as [H|H]; [discriminate|]. rewrite Hg.
    destruct (MainProcess.open_error hw portPath); [|congruence].
    split; reflexivity.
  - auto.
Qed.

(** ** Response decoder *)


Lemma Combined_not_sensor_data (state : TFDState) (data : string) (st : TFDState) :
  Decoder.Combined.isSensorData (trim data) = false ->
  Decoder.Combined.handleSerialData state data st = Decoder.Normal (st, []).
Proof.
  intros H. unfold Decoder.Combined.handleSerialData. now rewrite H.
Qed.

(** *** Characters and strings of the wire format *)

Lemma all_chars_app (p : ascii -> bool) (a b : string) :
  all_chars p (a ++ b) = all_chars p a && all_chars p b.
Proof.
  induction a as [|c a IH]; simpl; [reflexivity|].
  now rewrite IH, andb_assoc.
Qed.

Lemma all_chars_impl (p q : ascii -> bool) (s : string) :
  (forall c, p c = true -> q c = true) ->
  all_chars p s = true -> all_chars q s = true.
Proof.
  intros Hpq. induction s as [|c s IH]; simpl; [reflexivity|].
  intros H. apply andb_prop in H. destruct H as [Hc Hs].
  now rewrite (Hpq c Hc), IH.
Qed.

Lemma span_all (p : ascii -> bool) (s : string) :
  all_chars p s = true -> span p s = (s, EmptyString).
Proof.
  induction s as [|c s IH]; simpl; [reflexivity|].
  intros H. apply andb_prop in H. destruct H as [Hc Hs].
  now rewrite Hc, IH.
Qed.

Lemma span_spec (p : ascii -> bool) (s : string) :
  s = fst (span p s) ++ snd (span p s)
  /\ all_chars p (fst (span p s)) = true.
Proof.
  induction s as [|c s IH]; simpl; [auto|].
  destruct (p c) eqn:Hc; [|auto].
  destruct (span p s) as [a b]. simpl in *. destruct IH as [-> Ha].
  now rewrite Hc, Ha.
Qed.

Lemma is_empty_true (s : string) : is_empty s = true -> s = EmptyString.
Proof. now destruct s. Qed.

Lemma split_no_separator (sep : ascii) (s : string) :
  all_chars (fun c => negb (Ascii.eqb c sep)) s = true ->
  split sep s = [s].
Proof.
  induction s as [|c s IH]; simpl; [reflexivity|].
  intros H. apply andb_prop in H. destruct H as [Hc Hs].
  apply negb_true_iff in Hc. now rewrite Hc, IH.
Qed.

Lemma split_at_separator (sep : ascii) (s r : string) :
  all_chars (fun c => negb (Ascii.eqb c sep)) s = true ->
  split sep (s ++ String sep r) = s :: split sep r.
Proof.
  induction s as [|c s IH]; simpl.
  - now rewrite Ascii.eqb_refl.
  - intros H. apply andb_prop in H. destruct H as [Hc Hs].
    apply negb_true_iff in Hc. now rewrite Hc, IH.
Qed.

Lemma prefix_head_differs (a b : ascii) (p s : string) :
  a <> b -> String.prefix (String a p) (String b s) = false.
Proof. intros H. simpl. destruct (ascii_dec a b); [contradiction|reflexivity]. Qed.

Lemma includes_prefix (s p : string) :
  String.prefix p s = true -> includes s p = true.
Proof. intros H. destruct s; simpl in *; now rewrite H. Qed.

Lemma includes_app_r (a b p : string) :
  includes b p = true -> includes (a ++ b) p = true.
Proof.
  intros H. induction a as [|c a IH]; simpl; [exact H|].
  rewrite IH. apply orb_true_r.
Qed.

Lemma includes_cons (c : ascii) (s p : string) :
  includes s p = true -> includes (String c s) p = true.
Proof. intros H. simpl. rewrite H. apply orb_true_r. Qed.

(** A string that contains [p] contains the first character of [p]. *)
Lemma includes_first_char (c : ascii) (p s : string) :
  all_chars (fun d => negb (Ascii.eqb d c)) s = true ->
  includes s (String c p) = false.
Proof.
  induction s as [|d s IH]; simpl; [reflexivity|].
  intros H. apply andb_prop in H. destruct H as [Hd Hs].
  apply negb_true_iff in Hd. rewrite (IH Hs), orb_false_r.
  destruct (ascii_dec c d) as [->|_]; [|reflexivity].
  now rewrite Ascii.eqb_refl in Hd.
Qed.

Lemma num_char_not (c d : ascii) :
  is_num_char d = false -> is_num_char c = true -> negb (Ascii.eqb c d) = true.
Proof.
  intros Hd Hc. destruct (Ascii.eqb_spec c d) as [->|_]; [congruence|reflexivity].
Qed.

Lemma match_field_here (key s g : string) :
  String.prefix key s = true ->
  fst (span is_num_char (substring_from (String.length key) s)) = g ->
  is_empty g = false ->
  match_field key s = Some g.
Proof.
  intros Hp Hg He. destruct s; cbn [match_field]; rewrite Hp, Hg, He; reflexivity.
Qed.

(** *** Decimal numerals *)

Lemma is_digit_num_char (c : ascii) : is_digit c = true -> is_num_char c = true.
Proof. intros H. unfold is_num_char. now rewrite H. Qed.

Lemma is_digit_not_ws (c : ascii) : is_digit c = true -> is_ws c = false.
Proof.
  unfold is_digit, is_ws. intros H. apply andb_prop in H. destruct H as [H1 H2].
  apply Nat.leb_le in H1, H2.
  destruct (Nat.leb_spec (nat_of_ascii c) 13), (Nat.eqb_spec (nat_of_ascii c) 32);
    try lia; now rewrite andb_false_r.
Qed.

Lemma is_digit_not (c d : ascii) :
  is_digit d = false -> is_digit c = true -> Ascii.eqb c d = false.
Proof.
  intros Hd Hc. destruct (Ascii.eqb_spec c d) as [->|_]; [congruence|reflexivity].
Qed.

(** The shape of a numeral: digits, then nothing or a point and digits. *)
Lemma float_text_shape (s : string) :
  Decoder.is_float_text s = true ->
  exists (negative : bool) (ip frac : string) (point : bool),
    s = (if negative then "-" else "") ++ ip ++ (if point then "." ++ frac else "")
    /\ all_chars is_digit ip = true
    /\ all_chars is_digit frac = true
    /\ (is_empty ip = false \/ (point = true /\ is_empty frac = false))
    /\ (point = false -> frac = EmptyString).
Proof.
  unfold Decoder.is_float_text. intros H.
  set (body := match s with
               | String c r => if Ascii.eqb c "-" then r else s
               | EmptyString => s
               end) in *.
  assert (Hs : exists negative : bool, s = (if negative then "-" else "") ++ body).
  { subst body. destruct s as [|c r]; [now exists false|].
    destruct (Ascii.eqb_spec c "-") as [->|_]; [now exists true | now exists false]. }
  destruct Hs as (negative & Hs).
  destruct (span_spec is_digit body) as (Hbody & Hip).
  destruct (span is_digit body) as [ip rest]. simpl in Hbody, Hip.
  destruct rest as [|c frac].
  - exists negative, ip, EmptyString, false. rewrite Hs, Hbody.
    apply negb_true_iff in H. repeat split; auto.
  - apply andb_prop in H. destruct H as [H Hne]. apply andb_prop in H.
    destruct H as [Hc Hfrac]. apply Ascii.eqb_eq in Hc. subst c.
    apply is_empty_true in Hfrac.
    destruct (span_spec is_digit frac) as (Hf & Hfd). rewrite Hfrac in Hf.
    rewrite append_empty_r in Hf.
    exists negative, ip, frac, true. rewrite Hs, Hbody.
    repeat split; auto.
    + now rewrite Hf.
    + apply orb_prop in Hne. destruct Hne as [Hne|Hne]; apply negb_true_iff in Hne; auto.
    + discriminate.
Qed.

Lemma float_text_chars (s : string) :
  Decoder.is_float_text s = true ->
  all_chars is_num_char s = true /\ is_empty s = false.
Proof.
  intros H. destruct (float_text_shape s H)
    as (negative & ip & frac & point & -> & Hip & Hfrac & Hne & _).
  split.
  - rewrite !all_chars_app.
    rewrite (all_chars_impl _ _ ip is_digit_num_char Hip).
    destruct negative, point; simpl;
      now rewrite ?(all_chars_impl _ _ frac is_digit_num_char Hfrac).
  - destruct negative; [reflexivity|]. simpl.
    destruct Hne as [Hne|[-> Hne]]; [now destruct ip|].
    destruct ip; reflexivity.
Qed.

Lemma span_digits_then (ip r : string) :
  all_chars is_digit ip = true ->
  match r with String c _ => is_digit c = false | EmptyString => True end ->
  span is_digit (ip ++ r) = (ip, r).
Proof.
  intros Hip Hr. induction ip as [|c ip IH]; simpl in *.
  - destruct r as [|c r]; [reflexivity|]. simpl. now rewrite Hr.
  - apply andb_prop in Hip. destruct Hip as [Hc Hip]. now rewrite Hc, IH.
Qed.

(** [parseFloat] reads a numeral as a number. *)
Lemma parseFloat_float_text (s : string) :
  Decoder.is_float_text s = true -> isNaN (parseFloat s) = false.
Proof.
  intros H. destruct (float_text_shape s H)
    as (negative & ip & frac & point & -> & Hip & Hfrac & Hne & Hnp).
  set (body := ip ++ (if point then "." ++ frac else "")).
  assert (Hbody0 : match body with
                   | String c _ => is_digit c = true \/ c = "."%char
                   | EmptyString => False
                   end).
  { subst body. destruct ip as [|c ip]; simpl in *.
    - destruct Hne as [Hne|[-> Hne]]; [discriminate|]. simpl. now right.
    - apply andb_prop in Hip. left. tauto. }
  assert (Hspan : span is_digit body
                  = (ip, if point then "." ++ frac else "")).
  { subst body. apply span_digits_then; [exact Hip|]. now destruct point. }
  assert (Hparse : forall neg0 : bool,
             isNaN (let '(ip, r1) := span is_digit body in
                    let '(fp, r2) :=
                      match r1 with
                      | String c r => if Ascii.eqb c "." then span is_digit r
                                      else (EmptyString, r1)
                      | EmptyString => (EmptyString, r1)
                      end in
                    if is_empty ip && is_empty fp then NaN
                    else
                      let e := exponent r2 in
                      let m := digits_value 0 (ip ++ fp) in
                      let q := (inject_Z m * Qpower (10 # 1)
                                  (e - Z.of_nat (String.length fp)))%Q in
                      Num (Qred (if neg0 then - q else q))) = false).
  { intros neg0. rewrite Hspan. destruct point; simpl.
    - rewrite (span_all _ _ Hfrac).
      destruct Hne as [Hne|[_ Hne]]; rewrite Hne, ?andb_false_r; reflexivity.
    - destruct Hne as [Hne|[Hne _]]; [|discriminate]. now rewrite Hne. }
  assert (Hinf : String.prefix "Infinity" body = false).
  { destruct body as [|c b]; [contradiction|].
    apply prefix_head_differs. intros <-.
    destruct Hbody0 as [Hd|Hd]; discriminate. }
  assert (Hws : trimStart body = body).
  { destruct body as [|c b]; [contradiction|]. simpl.
    destruct Hbody0 as [Hd| ->]; [|reflexivity].
    now rewrite (is_digit_not_ws c Hd). }
  unfold parseFloat. destruct negative.
  - change ("-" ++ body) with (String "-" body). cbn [trimStart is_ws].
    change (is_ws "-") with false. cbn iota.
    rewrite Ascii.eqb_refl. rewrite Hinf. exact (Hparse true).
  - change ("" ++ body) with body. rewrite Hws.
    destruct body as [|c b] eqn:Eb; [contradiction|].
    assert (Hm : Ascii.eqb c "-" = false).
    { destruct Hbody0 as [Hd| ->]; [|reflexivity]. now apply (is_digit_not c "-"). }
    assert (Hp : Ascii.eqb c "+" = false).
    { destruct Hbody0 as [Hd| ->]; [|reflexivity]. now apply (is_digit_not c "+"). }
    rewrite Hm, Hp, Hinf. exact (Hparse false).
Qed.

(** *** The combined line *)

Lemma prefix_app (p x : string) : String.prefix p (p ++ x) = true.
Proof.
  induction p as [|c p IH]; simpl; [now destruct x|].
  destruct (ascii_dec c c) as [_|N]; [exact IH | now elim N].
Qed.

Lemma field_no_comma (key x : string) :
  all_chars (fun c => negb (Ascii.eqb c ",")) key = true ->
  all_chars is_num_char x = true ->
  all_chars (fun c => negb (Ascii.eqb c ",")) (key ++ x) = true.
Proof.
  intros Hk Hx. rewrite all_chars_app, Hk. simpl.
  apply (all_chars_impl is_num_char); [|exact Hx].
  intros c. now apply num_char_not.
Qed.

Lemma update_field_parsed (text : string) (upd : number -> Partial.t)
    (warning : string) (st : TFDState) :
  isNaN (parseFloat text) = false ->
  Decoder.Combined.update_field (Some text) upd warning st
  = (updateState (upd (parseFloat text)) st, []).
Proof. intros H. unfold Decoder.Combined.update_field. now rewrite H. Qed.

Lemma combined_line_parts (a v t : string) :
  all_chars is_num_char a = true ->
  all_chars is_num_char v = true ->
  all_chars is_num_char t = true ->
  split "," ("ANGLE:" ++ a ++ ",VEL:" ++ v ++ ",TORQUE:" ++ t)
  = ["ANGLE:" ++ a; "VEL:" ++ v; "TORQUE:" ++ t].
Proof.
  intros Ha Hv Ht.
  change ("ANGLE:" ++ a ++ ",VEL:" ++ v ++ ",TORQUE:" ++ t)
    with ("ANGLE:" ++ (a ++ String "," ("VEL:" ++ (v ++ String "," ("TORQUE:" ++ t))))).
  rewrite <- (append_assoc "ANGLE:" a).
  rewrite split_at_separator by (apply field_no_comma; auto).
  rewrite <- (append_assoc "VEL:" v).
  rewrite split_at_separator by (apply field_no_comma; auto).
  rewrite split_no_separator by (apply field_no_comma; auto).
  reflexivity.
Qed.

Lemma combined_line_is_sensor_data (a v t : string) :
  Decoder.Combined.isSensorData ("ANGLE:" ++ a ++ ",VEL:" ++ v ++ ",TORQUE:" ++ t)
  = true.
Proof.
  unfold Decoder.Combined.isSensorData, startsWith.
  change ("ANGLE:" ++ a ++ ",VEL:" ++ v ++ ",TORQUE:" ++ t)
    with ("ANGLE:" ++ (a ++ String "," ("VEL:" ++ (v ++ String "," ("TORQUE:" ++ t))))).
  assert (H1 : String.prefix "ANGLE:"
                 ("ANGLE:" ++ (a ++ String "," ("VEL:" ++ (v ++ String "," ("TORQUE:" ++ t)))))
               = true).
  { apply prefix_app. }
  assert (H2 : forall r, includes ("VEL:" ++ r) "VEL:" = true).
  { intros r. apply includes_prefix, prefix_app. }
  assert (H3 : forall r, includes ("TORQUE:" ++ r) "TORQUE:" = true).
  { intros r. apply includes_prefix, prefix_app. }
  assert (I1 : includes
                 ("ANGLE:" ++ (a ++ String "," ("VEL:" ++ (v ++ String "," ("TORQUE:" ++ t)))))
                 "VEL:" = true).
  { apply includes_app_r, includes_app_r, includes_cons, H2. }
  assert (I2 : includes
                 ("ANGLE:" ++ (a ++ String "," ("VEL:" ++ (v ++ String "," ("TORQUE:" ++ t)))))
                 "TORQUE:" = true).
  { apply includes_app_r, includes_app_r, includes_cons, includes_app_r,
      includes_app_r, includes_cons, H3. }
  now rewrite H1, I1, I2.
Qed.

Lemma match_field_whole (key x : string) :
  String.prefix key (key ++ x) = true ->
  substring_from (String.length key) (key ++ x) = x ->
  all_chars is_num_char x = true -> is_empty x = false ->
  match_field key (key ++ x) = Some x.
Proof.
  intros Hp Hs Hx He. apply match_field_here; auto.
  now rewrite Hs, (span_all _ _ Hx).
Qed.

Lemma prefix_literal_ANGLE (x : string) : String.prefix "ANGLE:" ("ANGLE:" ++ x) = true.
Proof. apply prefix_app. Qed.

Lemma prefix_literal_VEL (x : string) : String.prefix "VEL:" ("VEL:" ++ x) = true.
Proof. apply prefix_app. Qed.

Lemma prefix_literal_TORQUE (x : string) : String.prefix "TORQUE:" ("TORQUE:" ++ x) = true.
Proof. apply prefix_app. Qed.

Lemma combined_line_decodes (state st : TFDState) (data a v t : string) :
  trim data = "ANGLE:" ++ a ++ ",VEL:" ++ v ++ ",TORQUE:" ++ t ->
  Decoder.is_float_text a = true ->
  Decoder.is_float_text v = true ->
  Decoder.is_float_text t = true ->
  Decoder.Combined.handleSerialData state data st
  = Decoder.Normal
      (updateState (Decoder.set_currentTorque (parseFloat t))
         (updateState (Decoder.set_currentVelocity (parseFloat v))
            (updateState (Decoder.set_currentAngle (parseFloat a)) st)), []).
Proof.
  intros Hd Ha Hv Ht.
  destruct (float_text_chars a Ha) as (Hac & Hae).
  destruct (float_text_chars v Hv) as (Hvc & Hve).
  destruct (float_text_chars t Ht) as (Htc & Hte).
  unfold Decoder.Combined.handleSerialData. rewrite Hd.
  rewrite combined_line_is_sensor_data.
  unfold Decoder.Combined.parse. rewrite (combined_line_parts a v t Hac Hvc Htc).
  cbn [nth_error].
  rewrite (match_field_whole "ANGLE:" a (prefix_literal_ANGLE a) eq_refl Hac Hae).
  rewrite (match_field_whole "VEL:" v (prefix_literal_VEL v) eq_refl Hvc Hve).
  rewrite (match_field_whole "TORQUE:" t (prefix_literal_TORQUE t) eq_refl Htc Hte).
  rewrite !update_field_parsed by now apply parseFloat_float_text.
  reflexivity.
Qed.

(** C7.  The line [ANGLE:12.50,VEL:-3.20,TORQUE:0.75] is decoded to the
    angle 12.5, the velocity -3.2 and the torque 0.75 (25/2, -16/5 and
    3/4); and every line [ANGLE:a,VEL:v,TORQUE:t] whose three values are
    decimal numerals is decoded without diagnostic to the three numbers
    the numerals denote, none of them [NaN], every other key of the state
    being left as it was. *)
Theorem C7_combined_line (state st : TFDState) :
  (exists st',
      Decoder.Combined.handleSerialData state "ANGLE:12.50,VEL:-3.20,TORQUE:0.75" st
      = Decoder.Normal (st', [])
      /\ currentAngle st' = Num (25 # 2)
      /\ currentVelocity st' = Num (-16 # 5)
      /\ currentTorque st' = Num (3 # 4))
  /\ (forall data a v t : string,
         trim data = "ANGLE:" ++ a ++ ",VEL:" ++ v ++ ",TORQUE:" ++ t ->
         Decoder.is_float_text a = true ->
         Decoder.is_float_text v = true ->
         Decoder.is_float_text t = true ->
         exists st',
           Decoder.Combined.handleSerialData state data st = Decoder.Normal (st', [])
           /\ currentAngle st' = parseFloat a
           /\ currentVelocity st' = parseFloat v
           /\ currentTorque st' = parseFloat t
           /\ isNaN (parseFloat a) = false
           /\ isNaN (parseFloat v) = false
           /\ isNaN (parseFloat t) = false
           /\ st' = updateState
                      {| Partial.mode := None;
                         Partial.currentAngle := Some (parseFloat a);
                         Partial.currentVelocity := Some (parseFloat v);
                         Partial.currentTorque := Some (parseFloat t);
                         Partial.torque := None; Partial.stiffness := None;
                         Partial.targetAngle := None; Partial.selectedPort := None;
                         Partial.baudRate := None; Partial.isPolling := None;
                         Partial.pollInterval := None; Partial.endstopTurns := None;
                         Partial.endstopMinAngle := None;
                         Partial.endstopMaxAngle := None;
                         Partial.deviceType := None; Partial.endstopMode := None;
                         Partial.isSticky := None |} st).
Proof.
  split.
  - eexists. split; [|split; [|split]].
    + apply (combined_line_decodes state st _ "12.50" "-3.20" "0.75"); reflexivity.
    + reflexivity.
    + reflexivity.
    + reflexivity.
  - intros data a v t Hd Ha Hv Ht. eexists. split.
    + now apply (combined_line_decodes state st data a v t).
    + repeat split; try reflexivity; now apply parseFloat_float_text.
Qed.

(** The claim at a line that ends with a carriage return. *)
Lemma C7_combined_line_witness :
  exists st',
    Decoder.Combined.handleSerialData initialState
      ("ANGLE:-0.5,VEL:12,TORQUE:.25" ++ String (ascii_of_nat 13) EmptyString)
      initialState
    = Decoder.Normal (st', [])
    /\ currentAngle st' = Num (-1 # 2)
    /\ currentVelocity st' = Num 12
    /\ currentTorque st' = Num (1 # 4).
Proof.
  destruct (proj2 (C7_combined_line initialState initialState)
              ("ANGLE:-0.5,VEL:12,TORQUE:.25" ++ String (ascii_of_nat 13) EmptyString)
              "-0.5" "12" ".25" eq_refl eq_refl eq_refl eq_refl)
    as (st' & H & Ha & Hv & Ht & _).
  exists st'. repeat split; assumption.
Defined.

(** *** Single-field lines *)

Lemma single_field_not_combined (data x : string) :
  all_chars is_num_char x = true ->
  trim data = "ANGLE:" ++ x \/ trim data = "VEL:" ++ x \/ trim data = "TORQUE:" ++ x ->
  Decoder.Combined.isSensorData (trim data) = false
  /\ Decoder.Combined.isCommandResponse (trim data) = false.
Proof.
  intros Hx H. unfold Decoder.Combined.isSensorData, Decoder.Combined.isCommandResponse,
    startsWith.
  destruct H as [-> | [-> | ->]]; split; try reflexivity.
  rewrite prefix_literal_ANGLE. cbn [andb].
  rewrite (includes_first_char "V" "EL:" ("ANGLE:" ++ x)); [reflexivity|].
  rewrite all_chars_app. simpl.
  apply (all_chars_impl is_num_char); [|exact Hx].
  intros c. now apply num_char_not.
Qed.

(** C4, as the code has it.  For a single-field line [ANGLE:x], [VEL:x]
    or [TORQUE:x] whose value is a decimal numeral, the prefix-dispatch
    handler of components/mini-tfd-control.tsx stores the parsed value in
    that field (the angle after [clampAngle]) and leaves the other
    telemetry fields as they were; the combined-line handler stored after
    public/preload.js does not count such a line as sensor data: the state
    is left unchanged and the countdown is not reset. *)
Theorem C4_single_field_lines (state st : TFDState) (data x : string) :
  Decoder.is_float_text x = true ->
  (trim data = "ANGLE:" ++ x ->
   exists st',
     Decoder.Prefix.handleSerialData state data st = Decoder.Normal (st', [])
     /\ currentAngle st' = Decoder.Prefix.clampAngle state (parseFloat x)
     /\ currentVelocity st' = currentVelocity st
     /\ currentTorque st' = currentTorque st)
  /\ (trim data = "VEL:" ++ x ->
      exists st',
        Decoder.Prefix.handleSerialData state data st = Decoder.Normal (st', [])
        /\ currentVelocity st' = parseFloat x
        /\ currentAngle st' = currentAngle st
        /\ currentTorque st' = currentTorque st)
  /\ (trim data = "TORQUE:" ++ x ->
      exists st',
        Decoder.Prefix.handleSerialData state data st = Decoder.Normal (st', [])
        /\ currentTorque st' = parseFloat x
        /\ currentAngle st' = currentAngle st
        /\ currentVelocity st' = currentVelocity st)
  /\ (trim data = "ANGLE:" ++ x \/ trim data = "VEL:" ++ x
        \/ trim data = "TORQUE:" ++ x ->
      Decoder.Combined.handleSerialData state data st = Decoder.Normal (st, [])
      /\ resetsCountdown data = false).
Proof.
  intros Hx. pose proof (parseFloat_float_text x Hx) as Hn.
  destruct (float_text_chars x Hx) as (Hc & _).
  split; [|split; [|split]].
  - intros Hd. unfold Decoder.Prefix.handleSerialData. rewrite Hd.
    unfold startsWith. rewrite prefix_literal_ANGLE.
    change (substring_from (String.length "ANGLE:") ("ANGLE:" ++ x)) with x.
    rewrite Hn. simpl negb. cbv iota. eexists. repeat split.
  - intros Hd. unfold Decoder.Prefix.handleSerialData. rewrite Hd.
    unfold startsWith. rewrite prefix_literal_VEL.
    change (String.prefix "ANGLE:" ("VEL:" ++ x)) with false.
    change (substring_from (String.length "VEL:") ("VEL:" ++ x)) with x.
    rewrite Hn. simpl negb. cbv iota. eexists. repeat split.
  - intros Hd. unfold Decoder.Prefix.handleSerialData. rewrite Hd.
    unfold startsWith. rewrite prefix_literal_TORQUE.
    change (String.prefix "ANGLE:" ("TORQUE:" ++ x)) with false.
    change (String.prefix "VEL:" ("TORQUE:" ++ x)) with false.
    change (substring_from (String.length "TORQUE:") ("TORQUE:" ++ x)) with x.
    rewrite Hn. simpl negb. cbv iota. eexists. repeat split.
  - intros Hd. destruct (single_field_not_combined data x Hc Hd) as (Hs & Hk).
    split; [now apply Combined_not_sensor_data|].
    unfold resetsCountdown. now rewrite Hs, Hk.
Qed.

(** The claim at the line [VEL:1.50]. *)
Lemma C4_single_field_lines_witness :
  exists st',
    Decoder.Prefix.handleSerialData initialState_tsx "VEL:1.50" initialState_tsx
    = Decoder.Normal (st', [])
    /\ currentVelocity st' = Num (3 # 2).
Proof.
  destruct (proj1 (proj2 (C4_single_field_lines initialState_tsx initialState_tsx
                            "VEL:1.50" "1.50" eq_refl)) eq_refl)
    as (st' & H & Hv & _).
  exists st'. split; assumption.
Defined.

(** C4 as stated fails on the combined-line handler: the line [VEL:1.50]
    is not taken as sensor data, the velocity stays at 0 and no
    diagnostic is emitted. *)
Lemma C4_counterexample :
  Decoder.Combined.handleSerialData initialState "VEL:1.50" initialState
  = Decoder.Normal (initialState, [])
  /\ currentVelocity initialState = Num 0
  /\ parseFloat "1.50" = Num (3 # 2)
  /\ resetsCountdown "VEL:1.50" = false.
Proof. repeat split. Qed.

(** *** Malformed lines *)







(** The exception of the [try] block and its handler: a line without
    commas is reported at error level and the state is unchanged. *)
Example Combined_parse_throws :
  Decoder.Combined.parse initialState "ANGLE:1 VEL:2 TORQUE:3" initialState
  = Decoder.Throw "TypeError: Cannot read properties of undefined"
  /\ Decoder.Combined.handleSerialData initialState "ANGLE:1 VEL:2 TORQUE:3"
       initialState
     = Decoder.Normal (initialState, [(Decoder.Error, "Error parsing sensor data:")]).
Proof. split; reflexivity. Qed.

(** ** The session: timers *)

Section SessionProperties.

Context {T : Type} (api : Api.Bridge T).

Import Session.
Local Open Scope nat_scope.

Lemma run_app (es1 es2 : list event) (s : Session T) :
  run api (es1 ++ es2) s = run api es2 (run api es1 s).
Proof. apply fold_left_app. Qed.

Lemma run_ticks_succ (n : nat) (s : Session T) :
  run api (repeat Tick (S n)) s = tick api (run api (repeat Tick n) s).
Proof.
  rewrite (repeat_cons n Tick : repeat Tick (S n) = (repeat Tick n ++ [Tick])%list).
  now rewrite run_app.
Qed.

Lemma with_timers_same (s : Session T) : with_timers (timers s) s = s.
Proof. now destruct s. Qed.

Lemma pop_due_none (ts : list timer) :
  (forall t, In t ts -> remaining t <> 0) -> pop_due ts = None.
Proof.
  induction ts as [|t ts IH]; intros H; simpl; [reflexivity|].
  destruct (Nat.eqb_spec (remaining t) 0) as [E|_].
  - exfalso. apply (H t); [now left | exact E].
  - rewrite IH; [reflexivity|]. intros u Hu. apply H. now right.
Qed.

(** While no timer is within a millisecond of its deadline a tick only
    lets the time pass. *)
Lemma tick_idle (s : Session T) :
  (forall t, In t (timers s) -> 2 <= remaining t) ->
  tick api s = with_timers (map elapse (timers s)) s.
Proof.
  intros H. unfold tick.
  set (s1 := with_timers (map elapse (timers s)) s).
  destruct (List.length (timers s1)) as [|k]; [reflexivity|].
  simpl. rewrite pop_due_none; [reflexivity|].
  intros t Ht. subst s1. simpl in Ht. apply in_map_iff in Ht.
  destruct Ht as (u & <- & Hu). apply H in Hu. simpl. lia.
Qed.

(** A lone timer that has more than [k] ms to go is all that changes
    during [k] ticks. *)
Lemma lone_timer_waits (t : timer) (k : nat) (s : Session T) :
  timers s = [t] -> k < remaining t ->
  run api (repeat Tick k) s = with_timers [waited k t] s.
Proof.
  intros Ht. induction k as [|k IH]; intros Hk.
  - simpl. unfold waited. rewrite Nat.sub_0_r.
    destruct s as [l h r ts n tr c rc]. simpl in *. subst ts. now destruct t.
  - rewrite run_ticks_succ, IH by lia.
    rewrite tick_idle.
    + simpl. unfold with_timers, waited, elapse. simpl. do 3 f_equal. lia.
    + simpl. intros u [<-|[]]. simpl. lia.
Qed.

(** When its last millisecond passes its callback runs, followed by a render. *)
Lemma lone_timer_fires (t : timer) (s : Session T) :
  timers s = [t] -> remaining t = 1 ->
  tick api s = commit (run_task api (callback t) (with_timers [] s)).
Proof.
  intros Ht Hr. unfold tick. rewrite Ht. simpl. rewrite Hr. simpl. reflexivity.
Qed.

Lemma lone_timer_runs (t : timer) (n : nat) (s : Session T) :
  timers s = [t] -> remaining t = S n ->
  run api (repeat Tick (S n)) s
  = commit (run_task api (callback t) (with_timers [] s)).
Proof.
  intros Ht Hr. rewrite run_ticks_succ.
  rewrite (lone_timer_waits t n s Ht) by lia.
  rewrite (lone_timer_fires (waited n t)); [reflexivity|reflexivity|].
  simpl. lia.
Qed.

(** *** Connecting *)

Lemma commit_same (s : Session T) :
  same_deps (live s) (handlers s) = true -> commit s = s.
Proof. intros H. unfold commit. now rewrite H. Qed.

Lemma same_deps_refl (v : View) : same_deps v v = true.
Proof.
  unfold same_deps. now rewrite !Bool.eqb_reflx.
Qed.

Lemma commit_settles (s : Session T) :
  same_deps (live (commit s)) (handlers (commit s)) = true.
Proof.
  unfold commit. destruct (same_deps (live s) (handlers s)) eqn:E; [exact E|].
  destruct (isElectron (handlers s)); destruct (isElectron (live _)) eqn:E2;
    simpl; try apply same_deps_refl;
    unfold same_deps; simpl; now rewrite !Bool.eqb_reflx.
Qed.

Lemma connect_starts_grace (s : Session T) (p : option string)
    (b : option number) :
  timers s = [] ->
  isElectron (live s) = true ->
  is_empty (targetPort (live s) p) = false ->
  Api.success (fst (Api.serialConnect api (targetPort (live s) p)
                      (targetBaudRate (live s) b) (transport s))) = true ->
  let s1 := step api (Connect p b) s in
  timers s1 = [{| id := nextTimer s; remaining := 2000;
                  callback := ConnectGrace (live s) |}]
  /\ error (live s1) = None
  /\ isDeviceResponding (live s1) = false
  /\ isConnected (live s1) = true
  /\ isInGracePeriod (live s1) = true
  /\ hasAttemptedReconnect (live s1) = false
  /\ reconnectAttempts (live s1) = 0
  /\ lastPortPath (live s1) = targetPort (live s) p
  /\ lastBaudRate (live s1) = targetBaudRate (live s) b
  /\ calls s1 = (calls s ++ [CallConnect (targetPort (live s) p)
                               (targetBaudRate (live s) b) true])%list
  /\ transport s1 = snd (Api.serialConnect api (targetPort (live s) p)
                           (targetBaudRate (live s) b) (transport s)).
Proof.
  intros Ht He Hp Hc s1. subst s1.
  destruct s as [l h r ts n tr c rc]. simpl in *. subst ts.
  unfold connect. simpl. rewrite Hp, He. unfold ipc_connect.
  destruct r as [i|]; simpl;
    destruct (Api.serialConnect api (targetPort l p) (targetBaudRate l b) tr)
      as [res t']; simpl in Hc; rewrite Hc; simpl.
  all: unfold commit, clearResponseTimeout; simpl; rewrite ?He;
    destruct (same_deps _ _); [|destruct (isElectron h)];
    simpl; rewrite ?He; simpl; repeat split; reflexivity.
Qed.

(** The callback of the grace period: the probe is written and its
    [success] alone decides. *)
Lemma connect_grace_probe (env : View) (s : Session T) :
  isElectron env = true ->
  same_deps (live s) (handlers s) = true ->
  let ok := Api.success (fst (Api.serialWrite api ("get all" ++ Encoder.nl) (transport s))) in
  let s' := commit (onConnectGrace api env s) in
  calls s' = (calls s ++ [CallWrite ("get all" ++ Encoder.nl) ok])%list
  /\ isDeviceResponding (live s') = ok
  /\ error (live s')
     = (if ok then error (live s) else Some "Device not responding after connection")
  /\ isConnected (live s') = isConnected (live s)
  /\ timers s' = timers s
  /\ transport s' = snd (Api.serialWrite api ("get all" ++ Encoder.nl) (transport s)).
Proof.
  intros He Hd ok s'. subst ok s'.
  destruct s as [l h r ts n tr c rc]. simpl in *.
  unfold onConnectGrace, checkDeviceResponsiveness, ipc_write. rewrite He. simpl.
  destruct (Api.serialWrite api _ tr) as [res t'].
  simpl. destruct (Api.success res); simpl;
    (rewrite commit_same; [simpl; repeat split; reflexivity | exact Hd]).
Qed.




Lemma connect_then_grace (s : Session T) (p : option string)
    (b : option number) :
  timers s = [] ->
  isElectron (live s) = true ->
  is_empty (targetPort (live s) p) = false ->
  Api.success (fst (Api.serialConnect api (targetPort (live s) p)
                      (targetBaudRate (live s) b) (transport s))) = true ->
  let s1 := step api (Connect p b) s in
  let s2 := run api (repeat Tick 2000) s1 in
  let ok := Api.success (fst (Api.serialWrite api ("get all" ++ Encoder.nl)
                                (transport s1))) in
  calls s2 = (calls s1 ++ [CallWrite ("get all" ++ Encoder.nl) ok])%list
  /\ isDeviceResponding (live s2) = ok
  /\ error (live s2)
     = (if ok then None else Some "Device not responding after connection")
  /\ isConnected (live s2) = true
  /\ transport s2 = snd (Api.serialWrite api ("get all" ++ Encoder.nl) (transport s1)).
Proof.
  intros Ht He Hp Hc s1 s2 ok.
  destruct (connect_starts_grace s p b Ht He Hp Hc)
    as (Htm & Herr & Hresp & Hconn & _).
  fold s1 in Htm, Herr, Hresp, Hconn.
  assert (Hdeps : same_deps (live s1) (handlers s1) = true)
    by apply commit_settles.
  subst s2. rewrite (lone_timer_runs _ 1999 s1 Htm) by reflexivity.
  cbn [callback run_task].
  destruct (connect_grace_probe (live s) (with_timers [] s1) He Hdeps)
    as (Hcalls & Hr & Herr' & Hconn' & _ & Htr).
  repeat split.
  - exact Hcalls.
  - exact Hr.
  - rewrite Herr'. cbn [with_timers live]. now rewrite Herr.
  - rewrite Hconn'. exact Hconn.
  - exact Htr.
Qed.


(** *** Reachable sessions are settled *)




(** *** What the handlers and callbacks change *)

Lemma extends_refl (s : Session T) : extends s s.
Proof.
  unfold extends. repeat split. exists []. simpl.
  rewrite app_nil_r, Nat.add_0_r. auto.
Qed.

Lemma extends_trans (s1 s2 s3 : Session T) :
  extends s1 s2 -> extends s2 s3 -> extends s1 s3.
Proof.
  intros (H1 & R1 & a1 & T1 & I1 & N1 & F1) (H2 & R2 & a2 & T2 & I2 & N2 & F2).
  unfold extends. repeat split; try congruence.
  exists (a1 ++ a2)%list. repeat split.
  - rewrite T2, T1. now rewrite app_assoc.
  - rewrite map_app, I1, I2, N1, length_app. now rewrite seq_app.
  - rewrite N2, N1, length_app. lia.
  - rewrite forallb_app. now rewrite F1, F2.
Qed.

Ltac break_session :=
  repeat (simpl;
    match goal with
    | |- context [Api.serialWrite ?a ?d ?t] =>
        destruct (Api.serialWrite a d t) as [? ?] eqn:?
    | |- context [Api.serialConnect ?a ?p ?b ?t] =>
        destruct (Api.serialConnect a p b t) as [? ?] eqn:?
    | |- context [Api.serialDisconnect ?a ?t] =>
        destruct (Api.serialDisconnect a t) as [? ?] eqn:?
    | |- context [if ?b then _ else _] => destruct b eqn:?
    | |- context [match ?x with Some _ => _ | None => _ end] => destruct x eqn:?
    | |- context [match ?x with Decoder.Normal _ => _ | Decoder.Throw _ => _ end] =>
        destruct x as [[? ?]|?] eqn:?
    end); simpl.

Ltac solve_extends :=
  unfold extends; simpl; repeat split;
  first [ exists []; simpl; rewrite ?app_nil_r, ?Nat.add_0_r; now auto
        | eexists [_]; simpl; rewrite ?Nat.add_1_r; now auto
        | eexists [_; _]; simpl; rewrite <- ?app_assoc; simpl;
          rewrite ?Nat.add_1_r; now auto ].

Lemma handleReconnection_extends (env : View) (s : Session T) :
  extends s (handleReconnection api env s).
Proof.
  destruct s as [l h r ts n tr c rc].
  unfold handleReconnection, ipc_disconnect. simpl.
  break_session; simpl; solve_extends.
Qed.


Lemma with_live_extends (f : View -> View) (s : Session T) :
  extends s (with_live f s).
Proof. destruct s. solve_extends. Qed.




(** *** Well-formed timers *)



















(** *** Reconnections are started by the response timeout only *)


Lemma commit_keeps (s : Session T) :
  reconnections (commit s) = reconnections s
  /\ calls (commit s) = calls s
  /\ hasAttemptedReconnect (live (commit s)) = hasAttemptedReconnect (live s)
  /\ isConnected (live (commit s)) = isConnected (live s)
  /\ error (live (commit s)) = error (live s)
  /\ nextTimer (commit s) = nextTimer s
  /\ transport (commit s) = transport s.
Proof.
  unfold commit, clearResponseTimeout, clearTimeout.
  destruct (same_deps _ _); [auto 10|].
  destruct (isElectron (handlers s)); [destruct (deviceResponseTimeoutRef s)|];
    simpl; destruct (isElectron _); simpl; auto 10.
Qed.











(** *** While the flag is set no timeout starts a reconnection *)




(** *** The flag is cleared by a successful probe or by [connect()] *)






(** *** Inbound lines and the response countdown *)


Lemma setters_keep_deps (l h : View) (b : bool) (e : option string) (st : TFDState) :
  same_deps (setState st (setError e (setIsDeviceResponding b l))) h = same_deps l h.
Proof. reflexivity. Qed.








(** *** The retry decision of the reconnection *)

(** A failed reopening is retried whenever the render the closure belongs
    to had counted fewer than two attempts, whatever the live counter says. *)
Lemma reopen_failure_retries (env : View) (s : Session T) :
  isReconnecting env = false ->
  reconnectAttempts env + 1 < 3 ->
  is_empty (lastPortPath env) = false ->
  isElectron env = true ->
  Api.success (fst (Api.serialConnect api (lastPortPath env) (lastBaudRate env)
                      (transport s))) = false ->
  let s' := onReconnectWait api env s in
  reconnectAttempts (live s') = reconnectAttempts (live s) + 1
  /\ error (live s') = error (live s)
  /\ timers s' = (timers s ++ [{| id := nextTimer s; remaining := 1000;
                                 callback := ReconnectWait env |}])%list.
Proof.
  intros Hrec Hlt Hp He Hc s'. subst s'.
  assert (E1 : (reconnectAttempts env + 1 <? 3) = true) by now apply Nat.ltb_lt.
  assert (E2 : (3 <=? reconnectAttempts env) = false) by (apply Nat.leb_gt; lia).
  destruct s as [l h r ts n tr c rc].
  unfold onReconnectWait, handleReconnection, ipc_connect, ipc_disconnect.
  rewrite He, Hrec, Hp, E1, E2.
  cbn [transport] in *.
  destruct (Api.serialConnect api (lastPortPath env) (lastBaudRate env) tr) as [res t'].
  cbn [fst] in Hc. rewrite Hc. cbn [orb].
  cbn [transport with_live with_transport].
  destruct (Api.serialDisconnect api t') as [res2 t'']. simpl. auto.
Qed.


End SessionProperties.

(** ** The session on concrete transports *)

Open Scope nat_scope.



(** C2 on a transport that never opens again.  The device answers [OK]
    once and falls silent; the response timeout starts the reconnection,
    whose closure saw [reconnectAttempts = 0].  Twelve seconds after the
    [OK] the port has been reopened ten times without success, the live
    counter stands at ten, the terminal error has not been raised and
    the next attempt is pending.  The same happens when every probe
    fails: four reopenings in fourteen seconds, on the scripted transport
    and behind the main process of public/electron.js with a port that
    opens and rejects every write. *)
Theorem C2_retries_are_not_bounded :
  (let s := Session.run Scenario.reopen_fails
              (Scenario.silence_after_ok (12 * 1000)) Scenario.fresh in
   Session.reconnections s = 1
   /\ Scenario.connect_calls (Session.calls s) = 1 + 10
   /\ Session.reconnectAttempts (Session.live s) = 10
   /\ Session.error (Session.live s) = Some "Device stopped responding."
   /\ List.length (Session.timers s) = 1)
  /\ (let s := Session.run Scenario.probe_fails
                 (Scenario.silence_after_ok (14 * 1000)) Scenario.fresh in
      Session.reconnections s = 1
      /\ Scenario.connect_calls (Session.calls s) = 1 + 4
      /\ Session.reconnectAttempts (Session.live s) = 4
      /\ Session.error (Session.live s) = Some "Device stopped responding."
      /\ List.length (Session.timers s) = 1)
  /\ (let s := Scenario.run_main Sample.hw_write_fails
                 (Scenario.silence_after_ok (14 * 1000))
                 (Session.initial MainProcess.initial) in
      Session.reconnections s = 1
      /\ Scenario.connect_calls (Session.calls s) = 1 + 4
      /\ Session.reconnectAttempts (Session.live s) = 4
      /\ Session.error (Session.live s) = Some "Device disconnected"
      /\ List.length (Session.timers s) = 1).
Proof. vm_compute. repeat split. Qed.



(** C10.  With no open port the [serial-write] handler answers
    [success: true] and leaves the main process as it was; so when the
    serialport module is missing or the port cannot be opened,
    [connect()] succeeds, and at the end of its grace period the probe
    marks the device responding although nothing was written to any
    device. *)
Theorem C10_mock_write_reports_alive (hw : MainProcess.Hardware) :
  (forall (data : string) (g : MainProcess.Global),
      MainProcess.port_open g = false ->
      MainProcess.serial_write hw data g = (Api.ok, g))
  /\ (forall (s : Session.Session MainProcess.Global) (p : option string)
             (b : option number),
         Session.timers s = [] ->
         Session.isElectron (Session.live s) = true ->
         is_empty (Session.targetPort (Session.live s) p) = false ->
         MainProcess.port_open (Session.transport s) = false ->
         MainProcess.module_available hw = false
           \/ MainProcess.open_error hw (Session.targetPort (Session.live s) p) <> None ->
         let s2 := Session.run (MainProcess.bridge hw) (repeat Session.Tick 2000)
                     (Session.step (MainProcess.bridge hw) (Session.Connect p b) s) in
         Session.isConnected (Session.live s2) = true
         /\ Session.isDeviceResponding (Session.live s2) = true
         /\ Session.error (Session.live s2) = None
         /\ MainProcess.port_open (Session.transport s2) = false
         /\ MainProcess.wire (Session.transport s2)
            = MainProcess.wire (Session.transport s)).
Proof.
  split; [intros data g; apply serial_write_closed|].
  intros s p b Ht He Hp Hclosed Hno s2.
  pose proof (serial_connect_succeeds hw (Session.targetPort (Session.live s) p)
                (Session.targetBaudRate (Session.live s) b) (Session.transport s)) as Hc.
  destruct (connect_starts_grace (MainProcess.bridge hw) s p b Ht He Hp Hc)
    as (_ & _ & _ & _ & _ & _ & _ & _ & _ & _ & Htr).
  destruct (connect_then_grace (MainProcess.bridge hw) s p b Ht He Hp Hc)
    as (_ & Hresp & Herr & Hconn & Htr2).
  fold s2 in Hresp, Herr, Hconn, Htr2.
  destruct (serial_connect_no_device hw (Session.targetPort (Session.live s) p)
              (Session.targetBaudRate (Session.live s) b) (Session.transport s)
              Hclosed Hno) as (Hclosed1 & Hwire1).
  cbn [Api.serialConnect MainProcess.bridge] in Htr.
  rewrite <- Htr in Hclosed1, Hwire1.
  cbn [Api.serialWrite MainProcess.bridge] in Hresp, Herr, Htr2.
  rewrite (serial_write_closed hw _ _ Hclosed1) in Hresp, Herr, Htr2.
  cbn [fst snd Api.success Api.ok] in Hresp, Herr, Htr2.
  rewrite Htr2. auto.
Qed.

(** The claim on the machine without the serialport module. *)
Lemma C10_mock_write_reports_alive_witness :
  Session.isDeviceResponding
    (Session.live
       (Session.run (MainProcess.bridge Sample.hw_absent) (repeat Session.Tick 2000)
          (Session.step (MainProcess.bridge Sample.hw_absent)
             (Session.Connect None None) Scenario.no_device)))
  = true.
Proof.
  exact (proj1 (proj2 (proj2 (C10_mock_write_reports_alive Sample.hw_absent)
                         Scenario.no_device None None
                         eq_refl eq_refl eq_refl eq_refl (or_introl eq_refl)))).
Defined.

(* ================================================================== *)
(** ** The control panel *)

(** *** The mode table *)

Lemma Object_is_refl (x : number) : JSArith.Object_is x x = true.
Proof.
  destruct x as [|q|b]; simpl.
  - reflexivity.
  - apply Qeq_bool_iff. reflexivity.
  - now destruct b.
Qed.

(** After the device type is changed to one of the two device types, the
    mode of the panel is one the new device offers: the mode of the
    render when the device offers it, [none] otherwise. *)
Theorem device_type_change_keeps_mode_offered (state prev : TFDState)
    (newDeviceType : string) :
  In newDeviceType Modes.DeviceType ->
  let next := updateState (payload (Modes.handleDeviceTypeChange state newDeviceType)) prev in
  deviceType next = newDeviceType
  /\ Modes.mode_offered next
  /\ (existsb (fun m => (Modes.id m =? mode state)%string)
              (Modes.getAvailableModes newDeviceType) = true ->
      mode next = mode state)
  /\ (existsb (fun m => (Modes.id m =? mode state)%string)
              (Modes.getAvailableModes newDeviceType) = false ->
      mode next = "none").
Proof.
  intros Hd next. subst next.
  unfold Modes.handleDeviceTypeChange, Modes.mode_offered.
  destruct (existsb (fun m => (Modes.id m =? mode state)%string)
              (Modes.getAvailableModes newDeviceType)) eqn:E; simpl.
  - repeat split; auto. discriminate.
  - repeat split; auto; try discriminate.
    destruct Hd as [<-|[<-|[]]]; reflexivity.
Qed.

(** The claim when the steering wheel is selected in a mode only the knob
    offers, and when the knob is selected in a mode both offer. *)
Lemma device_type_change_keeps_mode_offered_witness :
  mode (updateState (payload (Modes.handleDeviceTypeChange
                                (Sample.with_mode "lock" initialState)
                                "steering-wheel"))
          (Sample.with_mode "lock" initialState)) = "none"
  /\ mode (updateState (payload (Modes.handleDeviceTypeChange
                                   (Sample.with_mode "endstops" initialState)
                                   "steering-wheel"))
             (Sample.with_mode "endstops" initialState)) = "endstops".
Proof.
  split.
  - exact (proj2 (proj2 (proj2 (device_type_change_keeps_mode_offered
             (Sample.with_mode "lock" initialState)
             (Sample.with_mode "lock" initialState) "steering-wheel"
             (or_intror (or_introl eq_refl))))) eq_refl).
  - exact (proj1 (proj2 (proj2 (device_type_change_keeps_mode_offered
             (Sample.with_mode "endstops" initialState)
             (Sample.with_mode "endstops" initialState) "steering-wheel"
             (or_intror (or_introl eq_refl))))) eq_refl).
Defined.

(** *** Sending the configuration *)

Section PanelProperties.

Context {T : Type} (api : Api.Bridge T).
Variable Number_toString : Q -> string.

Import Session.

Local Open Scope nat_scope.

Lemma written_app (a b : list call) :
  Panel.written (a ++ b) = (Panel.written a ++ Panel.written b)%list.
Proof. unfold Panel.written. apply flat_map_app. Qed.

Lemma commit_state (s : Session T) :
  state (live (commit s)) = state (live s)
  /\ isElectron (live (commit s)) = isElectron (live s).
Proof.
  unfold commit. destruct (same_deps _ _); [auto|].
  destruct (isElectron (handlers s)); unfold clearResponseTimeout;
    destruct (deviceResponseTimeoutRef s); simpl;
    destruct (isElectron (live s)) eqn:E; simpl; auto.
Qed.

(** [sendTFDConfig] of the panel acts on the session as the encoder's
    [sendTFDConfig] says: the same lines, the same value left in [error],
    the same transport; nothing else of the session changes. *)
Lemma sendTFDConfig_agrees (env : View) (s : Session T) :
  let r := Encoder.sendTFDConfig Number_toString api (isConnected env)
             (state env) (transport s) in
  let s' := Panel.sendTFDConfig api Number_toString env s in
  Panel.written (calls s') = (Panel.written (calls s) ++ fst (fst r))%list
  /\ error (live s') = snd (fst r)
  /\ transport s' = snd r
  /\ state (live s') = state (live s)
  /\ isConnected (live s') = isConnected (live s)
  /\ isElectron (live s') = isElectron (live s)
  /\ hasAttemptedReconnect (live s') = hasAttemptedReconnect (live s)
  /\ handlers s' = handlers s
  /\ timers s' = timers s
  /\ deviceResponseTimeoutRef s' = deviceResponseTimeoutRef s.
Proof.
  destruct s as [l h r ts n tr c rc].
  unfold Panel.sendTFDConfig, Encoder.sendTFDConfig, ipc_write.
  cbn [transport].
  destruct (isConnected env); cbn [negb].
  - destruct (Api.serialWrite api (Encoder.formatTFDCommand Number_toString (state env)) tr)
      as [res t1]. cbn [transport with_transport calls].
    destruct (Api.success res) eqn:Es; cbn [negb].
    + destruct (mode (state env) =? "endstops")%string.
      * destruct (Api.serialWrite api (Encoder.stickyCommand (state env)) t1)
          as [res2 t2].
        destruct (Api.success res2) eqn:Es2; cbn [negb]; simpl;
          rewrite !written_app; simpl; rewrite <- ?app_assoc; simpl; auto 12.
      * simpl. rewrite written_app. simpl. auto 12.
    + simpl. rewrite written_app. simpl. auto 12.
  - simpl. rewrite app_nil_r. auto 12.
Qed.

Lemma apply_update_spec (c : update_call) (s : Session T) :
  state (live (Panel.apply_update c s)) = updateState (payload c) (state (live s))
  /\ isConnected (live (Panel.apply_update c s)) = isConnected (live s)
  /\ calls (Panel.apply_update c s) = calls s
  /\ transport (Panel.apply_update c s) = transport s
  /\ error (live (Panel.apply_update c s)) = error (live s).
Proof. destruct s; simpl; auto. Qed.

(** Selecting an endstop mode on a connected panel writes the
    configuration of the render in which the click happened, which still
    holds the endstop mode shown before: the lines are those
    [sendTFDConfig] produces for the state before the update, starting
    with its [formatTFDCommand].  The effect that sends the configuration
    does not run, [endstopMode] not being one of its dependencies, so the
    selected endstop mode is not transmitted. *)
Theorem endstop_mode_select_sends_previous_config (s : Session T)
    (newMode : string) :
  isConnected (live s) = true ->
  let s' := Panel.step api Number_toString (Panel.EndstopModeSelect newMode) s in
  let sent := Encoder.sendTFDConfig Number_toString api true (state (live s))
                (transport s) in
  endstopMode (state (live s')) = newMode
  /\ Panel.written (calls s')
     = (Panel.written (calls s) ++ fst (fst sent))%list
  /\ (exists rest,
        fst (fst sent)
        = Encoder.formatTFDCommand Number_toString (state (live s)) :: rest)
  /\ error (live s') = snd (fst sent).
Proof.
  intros Hc s' sent. subst s' sent.
  unfold Panel.step, Panel.dispatch. rewrite Hc.
  set (s1 := Panel.apply_update (call_endstopMode newMode) s).
  destruct (apply_update_spec (call_endstopMode newMode) s)
    as (Hst & Hcon & Hcalls & Htr & _). fold s1 in Hst, Hcon, Hcalls, Htr.
  destruct (sendTFDConfig_agrees (live s) s1)
    as (Hw & He & _ & Hst2 & Hcon2 & _).
  rewrite Hc, Htr, Hcalls in *.
  set (s2 := Panel.sendTFDConfig api Number_toString (live s) s1) in *.
  assert (Hdeps : Panel.same_config_deps (live s) (live s2) = true).
  { unfold Panel.same_config_deps. rewrite Hst2, Hst, Hcon2, Hcon.
    simpl. rewrite Hc, String.eqb_refl, !Object_is_refl. reflexivity. }
  unfold Panel.render. rewrite Hdeps.
  destruct (commit_keeps s2) as (_ & Hc2 & _ & _ & He2 & _).
  destruct (commit_state s2) as (Hs3 & _).
  rewrite Hs3, Hst2, Hst, Hc2, He2, Hw, He.
  repeat split.
  unfold Encoder.sendTFDConfig. cbn [negb].
  destruct (Api.serialWrite api _ (transport s)) as [res t1].
  destruct (Api.success res); cbn [negb]; [|eexists; reflexivity].
  destruct (mode (state (live s)) =? "endstops")%string; [|eexists; reflexivity].
  destruct (Api.serialWrite api _ t1) as [res2 t2].
  destruct (Api.success res2); eexists; reflexivity.
Qed.


(** Selecting a mode on a connected panel: the effect writes the
    configuration of the new state, with the stiffness the mode presets,
    when the mode differs from the one shown; selecting the mode shown,
    with the stiffness unchanged, writes nothing. *)
Theorem mode_select_sends_new_config (s : Session T) (newMode : string) :
  isConnected (live s) = true ->
  let old := state (live s) in
  let new := updateState (payload (Modes.handleModeChange old newMode)) old in
  let s' := Panel.step api Number_toString (Panel.ModeSelect newMode) s in
  let sent := Encoder.sendTFDConfig Number_toString api true new (transport s) in
  state (live s') = new
  /\ mode new = newMode
  /\ stiffness new
     = (if (newMode =? "inertial-control")%string then Num (25 # 100)
        else if (newMode =? "proportional-control")%string then Num (4 # 10)
        else stiffness old)
  /\ (mode old <> newMode ->
      Panel.written (calls s') = (Panel.written (calls s) ++ fst (fst sent))%list
      /\ error (live s') = snd (fst sent)
      /\ exists rest,
           fst (fst sent) = Encoder.formatTFDCommand Number_toString new :: rest)
  /\ (mode old = newMode ->
      JSArith.Object_is (stiffness old) (stiffness new) = true ->
      calls s' = calls s).
Proof.
  intros Hc old new s' sent. subst s' sent.
  unfold Panel.step, Panel.dispatch.
  set (c := Modes.handleModeChange (state (live s)) newMode).
  set (s1 := Panel.apply_update c s).
  destruct (apply_update_spec c s) as (Hst & Hcon & Hcalls & Htr & Herr).
  fold s1 in Hst, Hcon, Hcalls, Htr, Herr. fold old in Hst.
  change (updateState (payload c) old) with new in Hst.
  destruct (commit_keeps s1) as (_ & Hc2 & _ & Hcon3 & He3 & _ & Htr3).
  destruct (commit_state s1) as (Hs3 & _).
  assert (Hmode : mode new = newMode) by reflexivity.
  assert (Hdeps : Panel.same_config_deps (live s) (live s1)
                  = ((mode old =? newMode)%string
                     && JSArith.Object_is (stiffness old) (stiffness new))%bool).
  { unfold Panel.same_config_deps. rewrite Hst, Hcon. fold old.
    subst new c. simpl.
    rewrite !Object_is_refl, Bool.eqb_reflx. now rewrite !andb_true_r. }
  unfold Panel.render. rewrite Hdeps, Hcon, Hc.
  split; [|split; [reflexivity|split; [reflexivity|split]]].
  - destruct (_ && _)%bool; [now rewrite Hs3|].
    destruct (sendTFDConfig_agrees (live s1) (commit s1)) as (_ & _ & _ & -> & _).
    now rewrite Hs3.
  - intros Hne. apply String.eqb_neq in Hne. rewrite Hne. cbn [andb].
    destruct (sendTFDConfig_agrees (live s1) (commit s1)) as (Hw & He & _).
    rewrite Hw, He, Hc2, Hcalls, Htr3, Htr, Hst, Hcon, Hc.
    repeat split.
    unfold Encoder.sendTFDConfig. cbn [negb].
    destruct (Api.serialWrite api _ (transport s)) as [res t1].
    destruct (Api.success res); cbn [negb]; [|eexists; reflexivity].
    destruct (mode new =? "endstops")%string; [|eexists; reflexivity].
    destruct (Api.serialWrite api _ t1) as [res2 t2].
    destruct (Api.success res2); eexists; reflexivity.
  - intros He Hs. apply String.eqb_eq in He. rewrite He, Hs. cbn [andb].
    now rewrite Hc2.
Qed.

(** The sticky button of a connected panel writes the line for the value
    the state then holds, and nothing else. *)
Theorem sticky_click_writes_new_value (s : Session T) :
  isConnected (live s) = true ->
  let s' := Panel.step api Number_toString Panel.StickyClick s in
  isSticky (state (live s')) = negb (isSticky (state (live s)))
  /\ Panel.written (calls s')
     = (Panel.written (calls s) ++ [Encoder.stickyCommand (state (live s'))])%list.
Proof.
  intros Hc s'. subst s'.
  unfold Panel.step, Panel.dispatch. rewrite Hc.
  set (b := negb (isSticky (state (live s)))).
  set (s1 := Panel.apply_update (call_isSticky b) s).
  destruct (apply_update_spec (call_isSticky b) s) as (Hst & Hcon & Hcalls & Htr & _).
  fold s1 in Hst, Hcon, Hcalls, Htr.
  set (line := "set sticky:" ++ (if b then "on" else "off") ++ Encoder.nl).
  assert (Hw : let s2 := snd (ipc_write api line s1) in
               calls s2 = (calls s1 ++ [CallWrite line (Api.success (fst (Api.serialWrite api line (transport s1))))])%list
               /\ live s2 = live s1).
  { unfold ipc_write. destruct (Api.serialWrite api line (transport s1)) as [res t1].
    destruct s1; simpl; auto. }
  cbv zeta in Hw. destruct Hw as (Hw1 & Hw2).
  set (s2 := snd (ipc_write api line s1)) in *.
  assert (Hdeps : Panel.same_config_deps (live s) (live s2) = true).
  { unfold Panel.same_config_deps. rewrite Hw2, Hst, Hcon. simpl.
    rewrite String.eqb_refl, !Object_is_refl, Bool.eqb_reflx. reflexivity. }
  unfold Panel.render. rewrite Hdeps.
  destruct (commit_keeps s2) as (_ & Hc2 & _).
  destruct (commit_state s2) as (Hs3 & _).
  rewrite Hs3, Hw2, Hst, Hc2, Hw1, Hcalls, written_app.
  split; [reflexivity|]. simpl. reflexivity.
Qed.

End PanelProperties.

(** *** Requests, scanning and auto-connect *)

Section DeskProperties.

Context {T : Type} (api : Api.Bridge T).
Variable serialListPorts : T -> option (list Ports.SerialPortInfo) * T.

Import Session.

Local Open Scope nat_scope.

Lemma ipc_write_spec (data : string) (s : Session T) :
  calls (snd (ipc_write api data s))
  = (calls s ++ [CallWrite data (Api.success (fst (Api.serialWrite api data (transport s))))])%list
  /\ live (snd (ipc_write api data s)) = live s
  /\ fst (ipc_write api data s) = fst (Api.serialWrite api data (transport s)).
Proof.
  unfold ipc_write. destruct (Api.serialWrite api data (transport s)) as [r t].
  destruct s; simpl; auto.
Qed.

(** The three requests resolve to [null] whatever the device does, so
    the buttons that ask for the angle and the velocity never change the
    state: telemetry enters it through the serial data handler only.  A
    connected panel in Electron writes one line per request, [get all]
    for the angle and [get vel] for the velocity. *)
Theorem requests_never_update_state (env : Panel.Render) (d : Panel.Desk T) :
  fst (Panel.getCurrentAngle api env d) = None
  /\ fst (Panel.getCurrentVelocity api env d) = None
  /\ fst (Panel.getCurrentTorque api env d) = None
  /\ state (live (Panel.session (Panel.requestCurrentAngle api env d)))
     = state (live (Panel.session d))
  /\ state (live (Panel.session (Panel.requestCurrentVelocity api env d)))
     = state (live (Panel.session d))
  /\ Panel.written (calls (Panel.session (Panel.requestCurrentAngle api env d)))
     = List.app (Panel.written (calls (Panel.session d)))
         (if isConnected (Panel.view env) && isElectron (Panel.view env)
          then ["get all" ++ Encoder.nl] else [])
  /\ Panel.written (calls (Panel.session (Panel.requestCurrentVelocity api env d)))
     = List.app (Panel.written (calls (Panel.session d)))
         (if isConnected (Panel.view env) && isElectron (Panel.view env)
          then ["get vel" ++ Encoder.nl] else []).
Proof.
  destruct d as [s e st].
  unfold Panel.requestCurrentAngle, Panel.requestCurrentVelocity,
    Panel.getCurrentAngle, Panel.getCurrentVelocity, Panel.getCurrentTorque.
  cbn [Panel.session Panel.on_extra Panel.on_session Panel.set_live Panel.extra
         Panel.localStorage].
  destruct (isElectron (Panel.view env)), (isConnected (Panel.view env));
    cbn [negb andb];
    repeat match goal with
    | |- context [ipc_write api ?data s] =>
        let H1 := fresh in let H2 := fresh in let H3 := fresh in
        destruct (ipc_write_spec data s) as (H1 & H2 & H3);
        destruct (ipc_write api data s) as [? ?]; cbn [fst snd] in H1, H2, H3
    end;
    repeat match goal with
    | |- context [Api.success ?r] => destruct (Api.success r)
    end;
    cbn [negb fst snd Panel.session Panel.on_extra Panel.on_session Panel.set_live
           Panel.extra Panel.localStorage with_live live calls];
    repeat match goal with
    | H : calls _ = _ |- _ => rewrite H
    | H : live _ = _ |- _ => rewrite H
    end;
    rewrite ?written_app; simpl; rewrite ?app_nil_r; auto 10.
Qed.

(** Reset and Calibrate put the same line on the wire, [set zero], and
    only on a connected panel in Electron; a write that succeeds leaves
    the error as it was.  They differ in the message shown when the
    write fails without one of its own. *)
Theorem reset_and_calibrate_write_set_zero (env : View) (s : Session T) :
  calls (Panel.reset api env s) = calls (Panel.calibrate api env s)
  /\ transport (Panel.reset api env s) = transport (Panel.calibrate api env s)
  /\ Panel.written (calls (Panel.reset api env s))
     = List.app (Panel.written (calls s))
         (if isConnected env && isElectron env then ["set zero" ++ Encoder.nl] else [])
  /\ (isConnected env = false ->
      Panel.reset api env s = with_live (setError (Some "Not connected to device")) s)
  /\ (Api.success (fst (Api.serialWrite api ("set zero" ++ Encoder.nl) (transport s))) = true ->
      error (live (Panel.reset api env s))
      = (if isConnected env
         then if isElectron env then error (live s)
              else Some "Serial communication not available in browser"
         else Some "Not connected to device")
      /\ error (live (Panel.calibrate api env s))
         = error (live (Panel.reset api env s))).
Proof.
  unfold Panel.reset, Panel.calibrate, Panel.zero_command.
  destruct (isConnected env), (isElectron env); cbn [negb andb];
    try (destruct s; simpl; rewrite ?app_nil_r; repeat split; auto; discriminate).
  destruct (ipc_write_spec ("set zero" ++ Encoder.nl) s) as (H1 & H2 & H3).
  destruct (ipc_write api ("set zero" ++ Encoder.nl) s) as [r s1].
  cbn [fst snd] in H1, H2, H3. rewrite H3.
  destruct (Api.success (fst (Api.serialWrite api _ (transport s)))) eqn:E;
    cbn [negb].
  - rewrite H1, written_app, H2. simpl. repeat split; auto; discriminate.
  - destruct s1; simpl in *. rewrite H1, written_app. simpl.
    repeat split; auto; discriminate.
Qed.

(** *** Auto-connect *)

Lemma find_filter {A : Type} (f g : A -> bool) (l : list A) :
  (forall x, g x = true -> f x = true) ->
  find g (filter f l) = find g l.
Proof.
  intros H. induction l as [|a l IH]; [reflexivity|]. simpl.
  destruct (f a) eqn:Ef; simpl.
  - now rewrite IH.
  - destruct (g a) eqn:Eg; [|exact IH]. apply H in Eg. congruence.
Qed.

Lemma find_some_filter_length {A : Type} (f g : A -> bool) (l : list A) (x : A) :
  (forall y, g y = true -> f y = true) ->
  find g l = Some x ->
  (List.length (filter f l) =? 0) = false /\ (List.length l =? 0) = false.
Proof.
  intros H Hf. apply find_some in Hf. destruct Hf as (Hin & Hg).
  assert (Hin' : In x (filter f l)) by (apply filter_In; auto).
  split; [destruct (filter f l)|destruct l]; simpl in *; tauto.
Qed.

Lemma connect_calls_spec (env : View) (p : option string) (b : option number)
    (s : Session T) :
  calls (Session.connect api env p b s)
  = (calls s
     ++ (if is_empty (targetPort env p) then []
         else if isElectron env
              then [CallConnect (targetPort env p) (targetBaudRate env b)
                      (Api.success (fst (Api.serialConnect api (targetPort env p)
                                           (targetBaudRate env b) (transport s))))]
              else []))%list.
Proof.
  destruct s as [l h r ts n tr c rc].
  unfold Session.connect.
  destruct (is_empty (targetPort env p)); [simpl; now rewrite app_nil_r|].
  unfold ipc_connect. cbn [deviceResponseTimeoutRef with_live].
  destruct (isElectron env).
  - destruct r as [i|]; simpl;
      destruct (Api.serialConnect api _ _ tr) as [res t1]; simpl;
      destruct (Api.success res); reflexivity.
  - destruct r as [i|]; simpl; now rewrite app_nil_r.
Qed.

Lemma connect_session_spec (env : Panel.Render) (p : option string)
    (b : option number) (d : Panel.Desk T) :
  Panel.session (Panel.connect api env p b d)
  = Session.connect api (Panel.view env) p b (Panel.session d).
Proof.
  unfold Panel.connect.
  destruct (is_empty _); [reflexivity|].
  destruct (find _ _) as [port|]; [|reflexivity].
  destruct (Ports.productId port) as [pid|]; [|reflexivity].
  destruct (is_empty pid); reflexivity.
Qed.

(** [connect] remembers the product id of the port it targets as soon as
    it is called, whether or not the port then opens, provided the render
    lists a port with that path and a product id; otherwise what
    [localStorage] holds is left as it was. *)
Theorem connect_remembers_product_id (env : Panel.Render) (p : option string)
    (b : option number) (d : Panel.Desk T) :
  let target := targetPort (Panel.view env) p in
  let d' := Panel.connect api env p b d in
  Panel.session d' = Session.connect api (Panel.view env) p b (Panel.session d)
  /\ (forall port productId,
        is_empty target = false ->
        find (fun q => (Ports.path q =? target)%string)
             (Panel.availablePorts (Panel.more env)) = Some port ->
        Ports.productId port = Some productId ->
        is_empty productId = false ->
        Panel.localStorage d' = Some productId
        /\ Ports.getLastProductId (Panel.localStorage d') = productId)
  /\ (find (fun q => (Ports.path q =? target)%string)
           (Panel.availablePorts (Panel.more env)) = None ->
      Panel.localStorage d' = Panel.localStorage d)
  /\ (Ports.getLastProductId None = "1002"
      /\ Ports.getLastProductId (Some "") = "1002").
Proof.
  intros target d'. subst target d'. unfold Panel.connect.
  split; [|split; [|split; [|split; reflexivity]]].
  - apply connect_session_spec.
  - intros port pid Ht Hf Hp He. rewrite Ht, Hf, Hp, He. simpl.
    split; [reflexivity|]. unfold Session.str_or. now rewrite He.
  - intros Hf. rewrite Hf. destruct (is_empty _); reflexivity.
Qed.

Lemma listAvailablePorts_spec (env : Panel.Render) (d : Panel.Desk T) :
  isElectron (Panel.view env) = true ->
  let answer := serialListPorts (transport (Panel.session d)) in
  let r := Panel.listAvailablePorts serialListPorts env d in
  fst r = match fst answer with Some ports => ports | None => [] end
  /\ calls (Panel.session (snd r)) = calls (Panel.session d)
  /\ transport (Panel.session (snd r)) = snd answer
  /\ Panel.localStorage (snd r) = Panel.localStorage d
  /\ error (live (Panel.session (snd r)))
     = match fst answer with
       | Some _ => None
       | None => Some "Failed to scan for serial ports"
       end
  /\ isConnected (live (Panel.session (snd r))) = isConnected (live (Panel.session d))
  /\ Panel.availablePorts (Panel.extra (snd r))
     = match fst answer with
       | Some ports => ports
       | None => Panel.availablePorts (Panel.extra d)
       end
  /\ Panel.isScanning (Panel.extra (snd r)) = false.
Proof.
  intros He. destruct d as [s e st]. destruct s as [l h rf ts n tr c rc].
  unfold Panel.listAvailablePorts. rewrite He. simpl.
  destruct (serialListPorts tr) as [[ports|] t1]; simpl; auto 10.
Qed.

Lemma handleAutoConnect_spec (d : Panel.Desk T) :
  isElectron (live (Panel.session d)) = true ->
  Panel.isAutoConnecting (Panel.extra d) = false ->
  let env := Panel.rendered d in
  let d0 := if isConnected (Panel.view env)
            then Panel.on_session (Session.disconnect api (Panel.view env)) d
            else d in
  let answer := serialListPorts (transport (Panel.session d0)) in
  let ports := match fst answer with Some ports => ports | None => [] end in
  let wanted := Ports.getLastProductId (Panel.localStorage d) in
  let d' := Panel.handleAutoConnect api serialListPorts env d in
  Panel.isAutoConnecting (Panel.extra d') = false
  /\ Panel.availablePorts (Panel.extra d') = ports
  /\ match find (Panel.productId_is wanted) ports with
     | Some port =>
         let target := targetPort (Panel.view env) (Some (Ports.path port)) in
         let baud := targetBaudRate (Panel.view env)
                       (Some (baudRate (state (Panel.view env)))) in
         Ports.productId port = Some wanted
         /\ calls (Panel.session d')
            = (calls (Panel.session d0)
               ++ (if is_empty target then []
                   else [CallConnect target baud
                           (Api.success (fst (Api.serialConnect api target baud
                                                (snd answer))))]))%list
     | None =>
         calls (Panel.session d') = calls (Panel.session d0)
         /\ isConnected (live (Panel.session d'))
            = isConnected (live (Panel.session d0))
         /\ error (live (Panel.session d'))
            = (if (List.length ports =? 0) then Some "No serial ports found."
               else if (List.length (filter Panel.has_productId ports) =? 0)
                    then Some "No compatible devices with Product ID found."
                    else None)
     end.
Proof.
  intros He Ha env d0 answer ports wanted d'.
  assert (Himp : forall y, Panel.productId_is wanted y = true ->
                           Panel.has_productId y = true).
  { intros y. unfold Panel.productId_is, Panel.has_productId.
    destruct (Ports.productId y); [reflexivity|discriminate]. }
  subst d'. unfold Panel.handleAutoConnect.
  change (isElectron (Panel.view env)) with (isElectron (live (Panel.session d))).
  change (Panel.isAutoConnecting (Panel.more env))
    with (Panel.isAutoConnecting (Panel.extra d)).
  rewrite He, Ha. cbn [negb]. fold d0.
  set (d1 := Panel.on_session (Panel.apply_update (call_selectedPort "")) _).
  assert (H1 : calls (Panel.session d1) = calls (Panel.session d0)
               /\ transport (Panel.session d1) = transport (Panel.session d0)
               /\ Panel.localStorage d1 = Panel.localStorage d
               /\ isConnected (live (Panel.session d1))
                  = isConnected (live (Panel.session d0))
               /\ Panel.availablePorts (Panel.extra d1) = []).
  { subst d1 d0. destruct (isConnected (Panel.view env));
      destruct d as [s e st]; simpl;
      [destruct (Session.disconnect api _ s)|destruct s]; simpl; auto. }
  destruct H1 as (Hc1 & Ht1 & Hs1 & Hi1 & Hv1).
  destruct (listAvailablePorts_spec env d1 He)
    as (Hp & Hc2 & Ht2 & Hs2 & He2 & Hi2 & Hv2 & _).
  assert (Hv : Panel.availablePorts
                 (Panel.extra (snd (Panel.listAvailablePorts serialListPorts env d1)))
               = ports).
  { rewrite Hv2, Ht1. fold answer. subst ports.
    destruct (fst answer); [reflexivity|exact Hv1]. }
  clear Hv2.
  rewrite Hi1 in Hi2.
  rewrite Ht1 in *. fold answer in Hp, Ht2, He2. fold ports in Hp.
  destruct (Panel.listAvailablePorts serialListPorts env d1) as [ps d2].
  cbn [fst snd] in *. subst ps.
  rewrite Hs2, Hs1. fold wanted.
  rewrite (find_filter Panel.has_productId); [|exact Himp].
  destruct (find (Panel.productId_is wanted) ports) as [port|] eqn:Ef.
  - destruct (find_some_filter_length Panel.has_productId _ ports port Himp Ef)
      as (-> & ->).
    split; [reflexivity|].
    split.
    { unfold Panel.connect.
      repeat match goal with
             | |- context [match ?x with _ => _ end] => destruct x
             end; destruct d2; exact Hv. }
    split.
    + apply find_some in Ef. destruct Ef as (_ & Ef).
      unfold Panel.productId_is in Ef.
      destruct (Ports.productId port) as [x|]; [|discriminate].
      apply String.eqb_eq in Ef. now subst x.
    + cbn [Panel.session Panel.on_extra].
      rewrite (connect_session_spec env (Some (Ports.path port))
                 (Some (baudRate (state (Panel.view env))))
                 (Panel.on_session
                    (Panel.apply_update (call_selectedPort (Ports.path port))) d2)).
      rewrite connect_calls_spec.
      change (isElectron (Panel.view env)) with (isElectron (live (Panel.session d))).
      rewrite He.
      destruct d2 as [s2 e2 st2]. cbn [Panel.session Panel.on_session] in *.
      destruct s2; simpl in *. now subst.
  - destruct (List.length ports =? 0).
    + destruct d2 as [s2 e2 st2]. destruct s2; simpl in *.
      subst. auto.
    + destruct (List.length (filter Panel.has_productId ports) =? 0) eqn:El.
      * destruct d2 as [s2 e2 st2]. destruct s2; simpl in *.
        subst. auto.
      * destruct d2 as [s2 e2 st2]. simpl in *. rewrite Hc2, He2.
        repeat split; auto.
        subst ports. destruct (fst answer); [reflexivity|discriminate].
Qed.

(** Auto-connect on a panel at rest in Electron.  It opens at most one
    port: the first listed port whose product id is the remembered one
    ([1002] when none is remembered).  Ports without a product id are not
    considered, and when no listed port matches, no port is opened: the
    error names the reason when nothing is listed or no port carries a
    product id.  In every case the panel leaves the auto-connecting state. *)
Theorem auto_connect_prefers_remembered_product (d : Panel.Desk T) :
  isElectron (live (Panel.session d)) = true ->
  Panel.isAutoConnecting (Panel.extra d) = false ->
  let env := Panel.rendered d in
  let d0 := if isConnected (Panel.view env)
            then Panel.on_session (Session.disconnect api (Panel.view env)) d
            else d in
  let answer := serialListPorts (transport (Panel.session d0)) in
  let ports := match fst answer with Some ports => ports | None => [] end in
  let wanted := Ports.getLastProductId (Panel.localStorage d) in
  let d' := Panel.handleAutoConnect api serialListPorts env d in
  Panel.isAutoConnecting (Panel.extra d') = false
  /\ Panel.availablePorts (Panel.extra d') = ports
  /\ match find (Panel.productId_is wanted) ports with
     | Some port =>
         let target := targetPort (Panel.view env) (Some (Ports.path port)) in
         let baud := targetBaudRate (Panel.view env)
                       (Some (baudRate (state (Panel.view env)))) in
         Ports.productId port = Some wanted
         /\ calls (Panel.session d')
            = (calls (Panel.session d0)
               ++ (if is_empty target then []
                   else [CallConnect target baud
                           (Api.success (fst (Api.serialConnect api target baud
                                                (snd answer))))]))%list
     | None =>
         calls (Panel.session d') = calls (Panel.session d0)
         /\ isConnected (live (Panel.session d'))
            = isConnected (live (Panel.session d0))
         /\ error (live (Panel.session d'))
            = (if (List.length ports =? 0) then Some "No serial ports found."
               else if (List.length (filter Panel.has_productId ports) =? 0)
                    then Some "No compatible devices with Product ID found."
                    else None)
     end.
Proof. exact (handleAutoConnect_spec d). Qed.

Lemma connect_success_spec (env : View) (p : option string) (b : option number)
    (s : Session T) :
  isElectron env = true ->
  is_empty (targetPort env p) = false ->
  Api.success (fst (Api.serialConnect api (targetPort env p)
                      (targetBaudRate env b) (transport s))) = true ->
  let s' := Session.connect api env p b s in
  state (live s') = state (live s)
  /\ isConnected (live s') = true
  /\ isElectron (live s') = isElectron (live s)
  /\ transport s' = snd (Api.serialConnect api (targetPort env p)
                           (targetBaudRate env b) (transport s)).
Proof.
  intros He Hp Hc. destruct s as [l h r ts n tr c rc].
  unfold Session.connect. rewrite Hp, He. unfold ipc_connect.
  cbn [transport] in Hc.
  destruct r as [i|]; simpl;
    destruct (Api.serialConnect api _ _ tr) as [res t1]; cbn [fst] in Hc;
    rewrite Hc; simpl; auto.
Qed.

(** Pressing Connect on a panel at rest in Electron with a port
    selected: when the port opens, the effect sends the configuration
    the panel shows at once, before the grace period has run, so the
    first line on the wire after connecting is its [formatTFDCommand]. *)
Theorem connecting_sends_the_configuration (Number_toString : Q -> string)
    (d : Panel.Desk T) :
  let s := Panel.session d in
  let port := selectedPort (state (live s)) in
  let baud := targetBaudRate (live s) None in
  isElectron (live s) = true ->
  isConnected (live s) = false ->
  is_empty port = false ->
  Api.success (fst (Api.serialConnect api port baud (transport s))) = true ->
  let d' := Panel.pressConnect api Number_toString d in
  let sent := Encoder.sendTFDConfig Number_toString api true (state (live s))
                (snd (Api.serialConnect api port baud (transport s))) in
  isConnected (live (Panel.session d')) = true
  /\ Panel.written (calls (Panel.session d'))
     = (Panel.written (calls s) ++ fst (fst sent))%list
  /\ exists rest,
       fst (fst sent)
       = Encoder.formatTFDCommand Number_toString (state (live s)) :: rest.
Proof.
  intros s port baud He Hn Hp Hc d' sent. subst d' sent.
  unfold Panel.pressConnect, Panel.handleConnect.
  cbn [Panel.view Panel.rendered]. fold s. rewrite Hn.
  pose proof (connect_session_spec (Panel.rendered d) None None d) as Hs.
  assert (Hs' : Panel.session
                  (Panel.on_session (Panel.render api Number_toString (live s))
                     (Panel.connect api (Panel.rendered d) None None d))
                = Panel.render api Number_toString (live s)
                    (Session.connect api (live s) None None s)).
  { cbn [Panel.session Panel.on_session]. now rewrite Hs. }
  rewrite Hs'. clear Hs Hs'.
  destruct (connect_success_spec (live s) None None s He Hp Hc)
    as (Hst & Hcon & _ & Htr).
  pose proof (connect_calls_spec (live s) None None s) as Hcalls.
  change (targetPort (live s) None) with port in Hcalls, Htr.
  change (targetBaudRate (live s) None) with baud in Hcalls, Htr.
  rewrite Hp, He in Hcalls.
  set (s1 := Session.connect api (live s) None None s) in *.
  unfold Panel.render.
  assert (Hdeps : Panel.same_config_deps (live s) (live s1) = false).
  { unfold Panel.same_config_deps. rewrite Hcon, Hn. simpl.
    now rewrite !andb_false_r. }
  rewrite Hdeps, Hcon.
  destruct (commit_keeps s1) as (_ & Hc2 & _ & _ & _ & _ & Htr2).
  destruct (sendTFDConfig_agrees api Number_toString (live s1) (commit s1))
    as (Hw & _ & _ & _ & Hcon3 & _).
  rewrite Hw, Hcon3, Hc2, Hcalls, Htr2, Htr, Hcon, Hst.
  destruct (commit_keeps s1) as (_ & _ & _ & -> & _).
  rewrite written_app. cbn [Panel.written flat_map app]. rewrite app_nil_r, Hcon.
  repeat split.
  unfold Encoder.sendTFDConfig. cbn [negb].
  destruct (Api.serialWrite api _ _) as [res t1].
  destruct (Api.success res); cbn [negb]; [|eexists; reflexivity].
  destruct (mode (state (live s)) =? "endstops")%string; [|eexists; reflexivity].
  destruct (Api.serialWrite api _ t1) as [res2 t2].
  destruct (Api.success res2); eexists; reflexivity.
Qed.

End DeskProperties.

(** The claim on the panel with COM3 selected. *)
Lemma connecting_sends_the_configuration_witness :
  Panel.written
    (Session.calls
       (Panel.session (Panel.pressConnect Scenario.always_ok Sample.no_printer
                         Bench.ready)))
  = ["set normal" ++ Encoder.nl].
Proof.
  exact (proj1 (proj2 (connecting_sends_the_configuration Scenario.always_ok
                         Sample.no_printer Bench.ready
                         eq_refl eq_refl eq_refl eq_refl))).
Defined.

Lemma main_disconnect_spec (hw : MainProcess.Hardware) (env : Session.View)
    (s : Session.Session MainProcess.Global) :
  Session.isElectron env = true ->
  Session.calls (Session.disconnect (MainProcess.bridge hw) env s)
  = (Session.calls s ++ [Session.CallDisconnect])%list
  /\ Session.isConnected (Session.live (Session.disconnect (MainProcess.bridge hw) env s))
     = false.
Proof.
  intros He. destruct s. unfold Session.disconnect. rewrite He.
  unfold Session.ipc_disconnect. cbn [Session.transport].
  cbn [Api.serialDisconnect MainProcess.bridge].
  unfold MainProcess.serial_disconnect.
  destruct (MainProcess.port_open transport); simpl; auto.
Qed.

(** Behind a main process that cannot list real ports (the serialport
    module is missing, or listing fails), the panel is shown the three
    invented ports; they carry no product id, so auto-connect opens none
    of them and ends disconnected with the error about product ids. *)
Theorem auto_connect_opens_no_invented_port (hw : MainProcess.Hardware)
    (listed : option (list Ports.SerialPortInfo))
    (d : Panel.Desk MainProcess.Global) :
  MainProcess.module_available hw = false \/ listed = None ->
  Session.isElectron (Session.live (Panel.session d)) = true ->
  Panel.isAutoConnecting (Panel.extra d) = false ->
  let d' := Panel.handleAutoConnect (MainProcess.bridge hw)
              (Panel.main_lister hw listed) (Panel.rendered d) d in
  Panel.availablePorts (Panel.extra d') = Ports.mock_ports
  /\ Scenario.connect_calls (Session.calls (Panel.session d'))
     = Scenario.connect_calls (Session.calls (Panel.session d))
  /\ Session.isConnected (Session.live (Panel.session d')) = false
  /\ Session.error (Session.live (Panel.session d'))
     = Some "No compatible devices with Product ID found.".
Proof.
  intros Hno He Ha d'.
  pose proof (handleAutoConnect_spec (MainProcess.bridge hw)
                (Panel.main_lister hw listed) d He Ha) as H.
  cbv zeta in H. fold d' in H.
  assert (Hports : Ports.serial_list_ports hw listed = Ports.mock_ports).
  { unfold Ports.serial_list_ports. destruct Hno as [->| ->]; [reflexivity|].
    now destruct (MainProcess.module_available hw). }
  unfold Panel.main_lister in H. cbn [fst snd] in H. rewrite Hports in H.
  destruct H as (_ & Hv & H).
  assert (Hfind : forall w, find (Panel.productId_is w) Ports.mock_ports = None)
    by reflexivity.
  rewrite Hfind in H. destruct H as (Hc & Hi & Herr).
  cbn [Panel.view Panel.rendered] in Hc, Hi.
  destruct (main_disconnect_spec hw (Session.live (Panel.session d))
              (Panel.session d) He) as (Dc & Di).
  split; [exact Hv|]. split; [|split; [|exact Herr]].
  - rewrite Hc.
    destruct (Session.isConnected (Session.live (Panel.session d))); [|reflexivity].
    destruct d as [s e st]. cbn [Panel.session Panel.on_session] in *.
    rewrite Dc. unfold Scenario.connect_calls. rewrite filter_app. simpl.
    now rewrite app_nil_r.
  - rewrite Hi.
    destruct (Session.isConnected (Session.live (Panel.session d))) eqn:Ec;
      [|exact Ec].
    destruct d as [s e st]. cbn [Panel.session Panel.on_session] in *.
    exact Di.
Qed.

(** The claim on a machine without the serialport module, at the panel
    that has just detected Electron. *)
Lemma auto_connect_opens_no_invented_port_witness :
  let d := {| Panel.session := Scenario.no_device;
              Panel.extra := Panel.initialExtra;
              Panel.localStorage := None |} in
  Session.error
    (Session.live
       (Panel.session
          (Panel.handleAutoConnect (MainProcess.bridge Sample.hw_absent)
             (Panel.main_lister Sample.hw_absent None) (Panel.rendered d) d)))
  = Some "No compatible devices with Product ID found.".
Proof.
  exact (proj2 (proj2 (proj2
           (auto_connect_opens_no_invented_port Sample.hw_absent None
              {| Panel.session := Scenario.no_device;
                 Panel.extra := Panel.initialExtra;
                 Panel.localStorage := None |}
              (or_introl eq_refl) eq_refl eq_refl)))).
Defined.

(* ================================================================== *)
(** ** The dials *)

Section DialProperties.

Local Open Scope Q_scope.

Lemma Qdiv_360 (a : Q) : a / 360 == a * (1 # 360).
Proof. reflexivity. Qed.

Lemma Qtrunc_nonneg (q : Q) :
  0 <= q ->
  inject_Z (JSArith.Qtrunc q) <= q /\ q < inject_Z (JSArith.Qtrunc q) + 1.
Proof.
  intros H. unfold JSArith.Qtrunc.
  apply Qle_bool_iff in H. rewrite H.
  split; [apply Qfloor_le|].
  rewrite <- (inject_Z_plus _ 1). apply Qlt_floor.
Qed.

Lemma Qtrunc_nonpos (q : Q) :
  q <= 0 ->
  q <= inject_Z (JSArith.Qtrunc q) /\ inject_Z (JSArith.Qtrunc q) - 1 < q.
Proof.
  intros H. unfold JSArith.Qtrunc.
  destruct (Qle_bool 0 q) eqn:E.
  - apply Qle_bool_iff in E.
    assert (Hq : q == 0) by lra.
    rewrite (Qfloor_comp _ _ Hq). change (Qfloor 0) with 0%Z.
    change (inject_Z 0) with 0. lra.
  - split; [apply Qle_ceiling|].
    pose proof (Qceiling_lt q) as H2. unfold Z.sub in H2.
    rewrite inject_Z_plus, inject_Z_opp in H2.
    change (inject_Z 1) with 1 in H2. lra.
Qed.

Lemma Qtrunc_comp (a b : Q) : a == b -> JSArith.Qtrunc a = JSArith.Qtrunc b.
Proof.
  intros H. unfold JSArith.Qtrunc.
  rewrite (Qleb_comp 0 0 (Qeq_refl 0) a b H).
  now rewrite (Qfloor_comp _ _ H), (Qceiling_comp _ _ H).
Qed.

Lemma rem_360 (a : Q) : JSArith.rem (Num a) (Num 360) = Num (Dial.rem360 a).
Proof. reflexivity. Qed.

Lemma rem360_comp (a b : Q) : a == b -> Dial.rem360 a == Dial.rem360 b.
Proof.
  intros H. unfold Dial.rem360.
  assert (Hd : a / 360 == b / 360) by (now rewrite H).
  rewrite (Qtrunc_comp _ _ Hd). now rewrite H.
Qed.

Lemma rem360_nonneg (a : Q) : 0 <= a -> 0 <= Dial.rem360 a /\ Dial.rem360 a < 360.
Proof.
  intros H. unfold Dial.rem360.
  pose proof (Qdiv_360 a) as E. set (x := a / 360) in *.
  assert (Hd : 0 <= x) by lra.
  destruct (Qtrunc_nonneg _ Hd) as (H1 & H2).
  set (k := inject_Z (JSArith.Qtrunc x)) in *. lra.
Qed.

Lemma rem360_nonpos (a : Q) : a <= 0 -> - 360 < Dial.rem360 a /\ Dial.rem360 a <= 0.
Proof.
  intros H. unfold Dial.rem360.
  pose proof (Qdiv_360 a) as E. set (x := a / 360) in *.
  assert (Hd : x <= 0) by lra.
  destruct (Qtrunc_nonpos _ Hd) as (H1 & H2).
  set (k := inject_Z (JSArith.Qtrunc x)) in *. lra.
Qed.

Lemma rem360_range (a : Q) : - 360 < Dial.rem360 a /\ Dial.rem360 a < 360.
Proof.
  destruct (Qlt_le_dec a 0) as [H|H].
  - destruct (rem360_nonpos a) as (H1 & H2); lra.
  - destruct (rem360_nonneg a H) as (H1 & H2); lra.
Qed.

Lemma rem360_turns (a : Q) : exists k : Z, a - Dial.rem360 a == 360 * inject_Z k.
Proof. exists (JSArith.Qtrunc (a / 360)). unfold Dial.rem360. ring. Qed.

Lemma whole_in_open_unit (k : Z) : - 1 < inject_Z k -> inject_Z k < 1 -> k = 0%Z.
Proof.
  intros H1 H2.
  change (- 1) with (inject_Z (- 1)) in H1. change 1 with (inject_Z 1) in H2.
  rewrite <- Zlt_Qlt in H1, H2. lia.
Qed.

Lemma rem360_small (a : Q) : 0 <= a -> a < 360 -> Dial.rem360 a == a.
Proof.
  intros H1 H2. destruct (rem360_nonneg a H1) as (H3 & H4).
  unfold Dial.rem360 in *.
  set (k := JSArith.Qtrunc (a / 360)) in *.
  assert (Hk : k = 0%Z) by (apply whole_in_open_unit; lra).
  rewrite Hk. change (inject_Z 0) with 0. ring.
Qed.

Lemma rem360_after_turn (a : Q) : 0 <= a -> a < 360 -> Dial.rem360 (a + 360) == a.
Proof.
  intros H1 H2.
  assert (H0 : 0 <= a + 360) by lra.
  destruct (rem360_nonneg _ H0) as (H3 & H4).
  unfold Dial.rem360 in *.
  set (k := JSArith.Qtrunc ((a + 360) / 360)) in *.
  assert (Hk : (k - 1)%Z = 0%Z).
  { apply whole_in_open_unit; unfold Z.sub; rewrite inject_Z_plus;
      change (inject_Z (- (1))) with (- (1)); lra. }
  assert (Hk' : k = 1%Z) by lia.
  rewrite Hk'. change (inject_Z 1) with 1. ring.
Qed.

Lemma endstopDisplayAngle_num (a : Q) :
  Dial.endstopDisplayAngle (Num a) = Num (Dial.marker a).
Proof. reflexivity. Qed.

Lemma marker_range (a : Q) : 0 <= Dial.marker a /\ Dial.marker a < 360.
Proof.
  unfold Dial.marker.
  destruct (rem360_range a) as (H1 & H2).
  assert (H3 : 0 <= Dial.rem360 a + 540) by lra.
  destruct (rem360_nonneg _ H3) as (H4 & H5).
  apply rem360_nonneg. lra.
Qed.

(** Outside endstops mode the needle shows the direction of the angle:
    a value from 0 (included) to 360 that differs from the angle by
    whole turns. *)
Theorem display_angle_is_the_direction (mode : string) (q : Q)
    (endstopMinAngle endstopMaxAngle : number) :
  (mode =? "endstops")%string = false ->
  let shown := Dial.getDisplayAngle mode (Num q) endstopMinAngle endstopMaxAngle in
  Dial.within 0 360 shown /\ Dial.same_direction shown (Num q).
Proof.
  intros Hm shown. subst shown. unfold Dial.getDisplayAngle. rewrite Hm.
  rewrite rem_360. cbn [JSArith.add]. rewrite rem_360.
  destruct (rem360_range q) as (H1 & H2).
  assert (H3 : 0 <= Dial.rem360 q + 360) by lra.
  split.
  - apply rem360_nonneg. exact H3.
  - destruct (rem360_turns q) as (k1 & E1).
    destruct (rem360_turns (Dial.rem360 q + 360)) as (k2 & E2).
    exists (1 - k1 - k2)%Z. unfold Z.sub.
    rewrite !inject_Z_plus, !inject_Z_opp. change (inject_Z 1) with 1. lra.
Qed.

(** The claim in lock mode at two and a quarter turns backwards. *)
Lemma display_angle_is_the_direction_witness :
  Dial.within 0 360 (Dial.getDisplayAngle "lock" (Num (- (810))) (Num (- (180))) (Num 180)).
Proof.
  exact (proj1 (display_angle_is_the_direction "lock" (- (810)) (Num (- (180)))
                  (Num 180) eq_refl)).
Defined.

(** In endstops mode with a proper range the needle stays on the dial
    and sweeps from the mark drawn for the lower endstop to the mark
    drawn for the upper one: at or below the lower endstop it points at
    the MIN mark, at or above the upper endstop at the MAX mark. *)
Theorem display_angle_sweeps_between_endstops (a mn mx : Q) :
  mn < mx ->
  let shown := Dial.getDisplayAngle "endstops" (Num a) (Num mn) (Num mx) in
  Dial.within 0 360 shown
  /\ (a <= mn -> strict_eq shown (Dial.endstopDisplayAngle (Num mn)) = true)
  /\ (mx <= a -> strict_eq shown (Dial.endstopDisplayAngle (Num mx)) = true).
Proof.
  intros Hlt shown. subst shown. unfold Dial.getDisplayAngle.
  change ("endstops" =? "endstops")%string with true. cbv iota.
  rewrite !endstopDisplayAngle_num.
  destruct (marker_range mn) as (L1 & L2). destruct (marker_range mx) as (U1 & U2).
  set (lo := Dial.marker mn) in *. set (hi := Dial.marker mx) in *.
  clearbody lo hi.
  (* the clamped angle *)
  assert (Hc : exists cq, Math_max (Num mn) (Math_min (Num mx) (Num a)) = Num cq
                          /\ mn <= cq /\ cq <= mx
                          /\ (a <= mn -> cq == mn) /\ (mx <= a -> cq == mx)).
  { unfold Math_min, Math_max.
    destruct (Qle_bool mx a) eqn:E1.
    - apply Qle_bool_iff in E1.
      assert (E2 : Qle_bool mn mx = true) by (apply Qle_bool_iff; lra).
      rewrite E2. exists mx. repeat split; intros; lra.
    - assert (E1' : a < mx).
      { apply Qnot_le_lt. intros H. apply Qle_bool_iff in H. congruence. }
      destruct (Qle_bool mn a) eqn:E2.
      + apply Qle_bool_iff in E2. exists a. repeat split; intros; lra.
      + assert (E2' : a < mn).
        { apply Qnot_le_lt. intros H. apply Qle_bool_iff in H. congruence. }
        exists mn. repeat split; intros; lra. }
  destruct Hc as (cq & -> & C1 & C2 & C3 & C4).
  change (JSArith.sub (Num cq) (Num mn)) with (Num (cq + - mn)).
  change (JSArith.sub (Num mx) (Num mn)) with (Num (mx + - mn)).
  change (JSArith.sub (Num hi) (Num lo)) with (Num (hi + - lo)).
  cbn [div].
  assert (Hd : Qeq_bool (mx + - mn) 0 = false).
  { apply not_true_iff_false. intros H. apply Qeq_bool_iff in H. lra. }
  rewrite Hd.
  set (tq := (cq + - mn) / (mx + - mn)).
  assert (Hw : 0 < mx + - mn) by lra.
  assert (T0 : 0 <= tq).
  { unfold tq. apply Qle_shift_div_l; [exact Hw|lra]. }
  assert (T1 : tq <= 1).
  { unfold tq. apply Qle_shift_div_r; [exact Hw|lra]. }
  assert (Tlo : cq == mn -> tq == 0).
  { intros E. unfold tq. rewrite E. field. lra. }
  assert (Thi : cq == mx -> tq == 1).
  { intros E. unfold tq. rewrite E. field. lra. }
  clearbody tq.
  (* the span swept *)
  assert (Hs : exists S,
             (if strict_eq (Num (hi + - lo)) (Num 0)
              then JSArith.rem (JSArith.add (Num lo) (mul (Num tq) (Num 360))) (Num 360)
              else JSArith.rem
                     (JSArith.add (Num lo)
                        (mul (Num tq)
                           (if JSArith.lt (Num (hi + - lo)) (Num 0)
                            then JSArith.add (Num (hi + - lo)) (Num 360)
                            else Num (hi + - lo))))
                     (Num 360))
             = Num (Dial.rem360 (lo + tq * S))
             /\ 0 < S /\ (lo + S == hi \/ lo + S == hi + 360)).
  { cbn [strict_eq]. destruct (Qeq_bool (hi + - lo) 0) eqn:E0.
    - apply Qeq_bool_iff in E0. exists 360. split; [reflexivity|].
      split; [lra|right; lra].
    - assert (E0' : ~ hi + - lo == 0).
      { intros H. apply Qeq_bool_iff in H. congruence. }
      cbn [JSArith.lt JSArith.le]. destruct (Qle_bool 0 (hi + - lo)) eqn:E1; cbn [negb].
      + apply Qle_bool_iff in E1. exists (hi + - lo). split; [reflexivity|].
        split; [|left; lra].
        destruct (Qlt_le_dec 0 (hi + - lo)) as [H|H]; [exact H|].
        exfalso. apply E0'. lra.
      + assert (E1' : hi + - lo < 0).
        { apply Qnot_le_lt. intros H. apply Qle_bool_iff in H. congruence. }
        exists (hi + - lo + 360). split; [reflexivity|]. split; [lra|right; lra]. }
  destruct Hs as (S & -> & S0 & S1).
  assert (Hp : 0 <= tq * S) by (apply Qmult_le_0_compat; lra).
  split; [|split].
  - apply rem360_nonneg. lra.
  - intros Ha. cbn [strict_eq]. apply Qeq_bool_iff.
    rewrite (rem360_comp (lo + tq * S) lo).
    + now apply rem360_small.
    + rewrite (Tlo (C3 Ha)). ring.
  - intros Ha. cbn [strict_eq]. apply Qeq_bool_iff.
    destruct S1 as [S1|S1].
    + rewrite (rem360_comp (lo + tq * S) hi).
      * now apply rem360_small.
      * rewrite (Thi (C4 Ha)). lra.
    + rewrite (rem360_comp (lo + tq * S) (hi + 360)).
      * now apply rem360_after_turn.
      * rewrite (Thi (C4 Ha)). lra.
Qed.

(** The claim for two and a half turns lock to lock, past the upper
    endstop. *)
Lemma display_angle_sweeps_between_endstops_witness :
  strict_eq (Dial.getDisplayAngle "endstops" (Num 500) (Num (- (450))) (Num 450))
            (Dial.endstopDisplayAngle (Num 450)) = true.
Proof.
  refine (proj2 (proj2 (display_angle_sweeps_between_endstops 500 (- (450)) 450 _)) _).
  - reflexivity.
  - unfold Qle. simpl. lia.
Defined.

End DialProperties.

(** *** Wrapping the angle *)

Section WrapProperties.

Local Open Scope Q_scope.







(** The needles of the torque and velocity dials stay within the sweep
    from -135 to 135 degrees for every reading that is a number, the
    infinities included.  The torque needle rests at -135 at zero torque
    and below and at 135 from 2 Nm on; the velocity dial shows 0, with
    the needle upright, for every velocity of at most 4 RPM either way. *)
Theorem dial_needles_stay_within_the_sweep (reading : number) :
  isNaN reading = false ->
  Dial.between (- 135) 135 (Dial.torquePointerAngle reading)
  /\ Dial.between (- 135) 135 (Dial.velocityPointerAngle reading)
  /\ (JSArith.le reading (Num 0) = true ->
      strict_eq (Dial.torquePointerAngle reading) (Num (- 135)) = true)
  /\ (JSArith.le (Num 2) reading = true ->
      strict_eq (Dial.torquePointerAngle reading) (Num 135) = true)
  /\ (JSArith.le (JSArith.Math_abs reading) (Num 4) = true ->
      Dial.clampedVelocity reading = Num 0
      /\ strict_eq (Dial.velocityPointerAngle reading) (Num 0) = true).
Proof.
  intros Hn.
  assert (Ht : exists c, Math_max (Num 0) (Math_min (Num 2) reading) = Num c
                         /\ 0 <= c /\ c <= 2
                         /\ (JSArith.le reading (Num 0) = true -> c == 0)
                         /\ (JSArith.le (Num 2) reading = true -> c == 2)).
  { destruct reading as [|q|[|]]; [discriminate| | |].
    - cbn [Math_min Math_max JSArith.le].
      destruct (Qle_bool 2 q) eqn:E1.
      + apply Qle_bool_iff in E1. exists 2. split; [reflexivity|].
        repeat split; try lra; intros H; try apply Qle_bool_iff in H; lra.
      + assert (E1' : q < 2).
        { apply Qnot_le_lt. intros H. apply Qle_bool_iff in H. congruence. }
        destruct (Qle_bool 0 q) eqn:E2.
        * apply Qle_bool_iff in E2. exists q. split; [reflexivity|].
          repeat split; try lra; intros H; try apply Qle_bool_iff in H;
            try discriminate; lra.
        * assert (E2' : q < 0).
          { apply Qnot_le_lt. intros H. apply Qle_bool_iff in H. congruence. }
          exists 0. split; [reflexivity|].
          repeat split; try lra; intros H; try discriminate; lra.
    - exists 0. split; [reflexivity|]. repeat split; try lra; intros H;
        try discriminate; lra.
    - exists 2. split; [reflexivity|]. repeat split; try lra; intros H;
        try discriminate; lra. }
  assert (Hv : exists c, Dial.clampedVelocity reading = Num c
                         /\ - 200 <= c /\ c <= 200
                         /\ (JSArith.le (JSArith.Math_abs reading) (Num 4) = true ->
                             Dial.clampedVelocity reading = Num 0)).
  { unfold Dial.clampedVelocity.
    destruct reading as [|q|[|]]; [discriminate| | |].
    - cbn [Math_min Math_max JSArith.le JSArith.Math_abs].
      destruct (Qle_bool 200 q) eqn:E1.
      + apply Qle_bool_iff in E1.
        exists 200. split; [reflexivity|]. repeat split; try lra;
          intros H; apply Qle_bool_iff in H;
          apply Qabs_Qle_condition in H; lra.
      + assert (E1' : q < 200).
        { apply Qnot_le_lt. intros H. apply Qle_bool_iff in H. congruence. }
        destruct (Qle_bool (- 200) q) eqn:E2.
        * apply Qle_bool_iff in E2. cbn [JSArith.Math_abs JSArith.le].
          destruct (Qle_bool (Qabs q) 4) eqn:E3.
          -- exists 0. split; [reflexivity|]. repeat split; try lra; auto.
          -- exists q. split; [reflexivity|]. repeat split; try lra;
               intros H; congruence.
        * assert (E2' : q < - 200).
          { apply Qnot_le_lt. intros H. apply Qle_bool_iff in H. congruence. }
          exists (- 200). split; [reflexivity|]. repeat split; try lra;
            intros H; apply Qle_bool_iff in H;
            apply Qabs_Qle_condition in H; lra.
    - exists (- 200). split; [reflexivity|]. repeat split; try lra;
        intros H; discriminate.
    - exists 200. split; [reflexivity|]. repeat split; try lra;
        intros H; discriminate. }
  destruct Ht as (c & Ec & C1 & C2 & C3 & C4).
  destruct Hv as (v & Ev & V1 & V2 & V3).
  unfold Dial.torquePointerAngle, Dial.velocityPointerAngle.
  rewrite Ec.
  assert (Tq : forall x, JSArith.add (Num (- 135))
                 (mul (div (JSArith.sub (Num x) (Num 0))
                           (JSArith.sub (Num 2) (Num 0)))
                      (JSArith.sub (Num 135) (Num (- 135))))
               = Num (- 135 + (x + - 0) / (2 + - 0) * (135 + - - 135)))
    by reflexivity.
  assert (Vq : forall x, JSArith.add (Num (- 135))
                 (mul (div (JSArith.sub (Num x) (Num (- 200)))
                           (JSArith.sub (Num 200) (Num (- 200))))
                      (JSArith.sub (Num 135) (Num (- 135))))
               = Num (- 135 + (x + - - 200) / (200 + - - 200) * (135 + - - 135)))
    by reflexivity.
  rewrite Tq.
  assert (Tq' : - 135 + (c + - 0) / (2 + - 0) * (135 + - - 135) == - 135 + 135 * c)
    by field.
  split; [|split; [|split; [|split]]].
  - cbn [Dial.between]. lra.
  - rewrite Ev, Vq.
    assert (Vq' : - 135 + (v + - - 200) / (200 + - - 200) * (135 + - - 135)
                  == (27 # 40) * v) by field.
    cbn [Dial.between]. lra.
  - intros H. cbn [strict_eq]. apply Qeq_bool_iff. rewrite Tq', (C3 H). ring.
  - intros H. cbn [strict_eq]. apply Qeq_bool_iff. rewrite Tq', (C4 H). ring.
  - intros H. rewrite (V3 H). split; [reflexivity|]. reflexivity.
Qed.

(** The claim at a torque of 3 Nm and a velocity of -2.5 RPM. *)
Lemma dial_needles_stay_within_the_sweep_witness :
  strict_eq (Dial.torquePointerAngle (Num 3)) (Num 135) = true
  /\ Dial.clampedVelocity (Num (- (5 # 2))) = Num 0.
Proof.
  split.
  - exact (proj1 (proj2 (proj2 (proj2 (dial_needles_stay_within_the_sweep (Num 3)
                                          eq_refl)))) eq_refl).
  - exact (proj1 (proj2 (proj2 (proj2 (proj2 (dial_needles_stay_within_the_sweep
                                                 (Num (- (5 # 2))) eq_refl))))
                    eq_refl)).
Defined.

End WrapProperties.

(** *** The panel on concrete input *)

(** The claim when Soft Detents is chosen as endstop mode on the
    connected panel in endstops mode: the line sent is the one of the
    endstop mode shown before, [none]. *)
Lemma endstop_mode_select_sends_previous_config_witness :
  let s' := Panel.step Scenario.always_ok Sample.no_printer
              (Panel.EndstopModeSelect "soft") Bench.in_endstops in
  Panel.written (Session.calls s')
  = List.app (Panel.written (Session.calls Bench.in_endstops))
      ["set endstops:1.0" ++ Encoder.nl; "set sticky:off" ++ Encoder.nl]
  /\ Encoder.formatTFDCommand Sample.no_printer (Session.state (Session.live s'))
     = "set endstops-ultra:1.0" ++ Encoder.nl.
Proof.
  split.
  - exact (proj1 (proj2 (endstop_mode_select_sends_previous_config
                           Scenario.always_ok Sample.no_printer Bench.in_endstops
                           "soft" eq_refl))).
  - reflexivity.
Defined.


(** The claim when Inertial Control is selected on the connected panel. *)
Lemma mode_select_sends_new_config_witness :
  Panel.written
    (Session.calls
       (Panel.step Scenario.always_ok Sample.no_printer
          (Panel.ModeSelect "inertial-control") Bench.connected))
  = List.app (Panel.written (Session.calls Bench.connected))
      ["set inertial:0.3" ++ Encoder.nl].
Proof.
  exact (proj1 (proj1 (proj2 (proj2 (proj2
           (mode_select_sends_new_config Scenario.always_ok Sample.no_printer
              Bench.connected "inertial-control" eq_refl))))
           ltac:(discriminate))).
Defined.

(** The claim on the connected panel in endstops mode. *)
Lemma sticky_click_writes_new_value_witness :
  Panel.written
    (Session.calls
       (Panel.step Scenario.always_ok Sample.no_printer Panel.StickyClick
          Bench.in_endstops))
  = List.app (Panel.written (Session.calls Bench.in_endstops))
      ["set sticky:on" ++ Encoder.nl].
Proof.
  exact (proj2 (sticky_click_writes_new_value Scenario.always_ok Sample.no_printer
                  Bench.in_endstops eq_refl)).
Defined.

(** The claim on the connected panel, whose write succeeds. *)
Lemma reset_and_calibrate_write_set_zero_witness :
  Session.error
    (Session.live
       (Panel.calibrate Scenario.always_ok (Session.live Bench.connected)
          Bench.connected))
  = Session.error
      (Session.live
         (Panel.reset Scenario.always_ok (Session.live Bench.connected)
            Bench.connected)).
Proof.
  exact (proj2 (proj2 (proj2 (proj2 (proj2
           (reset_and_calibrate_write_set_zero Scenario.always_ok
              (Session.live Bench.connected) Bench.connected)))) eq_refl)).
Defined.

(** The claim when the panel that lists the knob on COM7 connects to it,
    on a transport that refuses to open the port. *)
Lemma connect_remembers_product_id_witness :
  let env := {| Panel.view := Session.live (Panel.session Bench.idle);
                Panel.more := Panel.setAvailablePorts
                                [Bench.adapter_port; Bench.knob_port]
                                Panel.initialExtra |} in
  let d' := Panel.connect
              (Session.scripted (fun _ => Api.failed "Access denied") (fun _ => Api.ok))
              env (Some "COM7") None Bench.idle in
  Session.isConnected (Session.live (Panel.session d')) = false
  /\ Ports.getLastProductId (Panel.localStorage d') = "1002".
Proof.
  split; [reflexivity|].
  exact (proj2 (proj1 (proj2
           (connect_remembers_product_id
              (Session.scripted (fun _ => Api.failed "Access denied") (fun _ => Api.ok))
              {| Panel.view := Session.live (Panel.session Bench.idle);
                 Panel.more := Panel.setAvailablePorts
                                 [Bench.adapter_port; Bench.knob_port]
                                 Panel.initialExtra |}
              (Some "COM7") None Bench.idle))
           Bench.knob_port "1002" eq_refl eq_refl eq_refl eq_refl)).
Defined.

(** The claim on the idle panel: of the adapter on COM4 and the knob on
    COM7, the knob is opened. *)
Lemma auto_connect_prefers_remembered_product_witness :
  Session.calls
    (Panel.session
       (Panel.handleAutoConnect Scenario.always_ok Bench.lister
          (Panel.rendered Bench.idle) Bench.idle))
  = [Session.CallConnect "COM7" (Num 115200) true].
Proof.
  exact (proj2 (proj2 (proj2
           (auto_connect_prefers_remembered_product Scenario.always_ok
              Bench.lister Bench.idle eq_refl eq_refl)))).
Defined.

(* ================================================================== *)
(** ** The [useHapticSerial] hook *)

(** Every command of the hook is guarded by the [isConnected] of its
    render: connected and in Electron it writes exactly its one line,
    otherwise nothing reaches the bridge and only [sendHapticConfig]
    says so, the other commands leaving the hook as it was.  No
    command changes [isConnected]. *)
Theorem hook_commands_write_one_line {T : Type} (api : Api.Bridge T)
    (Number_toString : Q -> string) (isElectron : bool) (c : Hook.command)
    (env : Hook.State) (w : Hook.World T) :
  let w' := Hook.run_command api Number_toString isElectron c env w in
  Hook.written w'
  = List.app (Hook.written w)
      (if Hook.isConnected env && isElectron
       then [Hook.line Number_toString c] else [])
  /\ Hook.isConnected (Hook.hook w') = Hook.isConnected (Hook.hook w)
  /\ (Hook.isConnected env && isElectron = false ->
      Hook.transport w' = Hook.transport w
      /\ Hook.hook w'
         = match c with
           | Hook.SendHapticConfig _ =>
               Hook.setError (Some "Not connected to device") (Hook.hook w)
           | _ => Hook.hook w
           end)
  /\ (Hook.isConnected env && isElectron = true ->
      Api.success (fst (Api.serialWrite api (Hook.line Number_toString c)
                          (Hook.transport w))) = true ->
      Hook.error (Hook.hook w') = None).
Proof.
  intros w'. subst w'. destruct w as [h t wr].
  destruct c; unfold Hook.run_command, Hook.sendHapticConfig, Hook.setAngle,
    Hook.getStatus, Hook.getCurrentAngle, Hook.reset, Hook.calibrate,
    Hook.serialWrite, Hook.line;
    destruct (Hook.isConnected env), isElectron; cbn [negb orb andb];
    try (cbn [snd Hook.written Hook.hook Hook.transport Hook.with_hook];
         rewrite ?app_nil_r; repeat split; try reflexivity; discriminate);
    cbn [Hook.transport Hook.written Hook.hook];
    destruct (Api.serialWrite api _ t) as [res t1];
    destruct (Api.success res) eqn:E; simpl;
    repeat split; try reflexivity; try discriminate;
    intros _ H; rewrite E in H; discriminate.
Qed.

(** The claim for Reset on a connected render, and for a configuration
    sent from a render that is not connected. *)
Lemma hook_commands_write_one_line_witness :
  let env := Hook.setIsConnected true Hook.initialState in
  let w := {| Hook.hook := env;
              Hook.transport := {| Session.connects := 1; Session.writes := 0 |};
              Hook.written := [] |} in
  Hook.written (Hook.run_command Scenario.always_ok Sample.no_printer true
                  Hook.Reset env w)
  = ["RESET" ++ Encoder.nl]
  /\ Hook.error (Hook.hook (Hook.run_command Scenario.always_ok Sample.no_printer
                              true Hook.Reset env w)) = None.
Proof.
  split.
  - exact (proj1 (hook_commands_write_one_line Scenario.always_ok Sample.no_printer
                    true Hook.Reset (Hook.setIsConnected true Hook.initialState)
                    {| Hook.hook := Hook.setIsConnected true Hook.initialState;
                       Hook.transport := {| Session.connects := 1;
                                            Session.writes := 0 |};
                       Hook.written := [] |})).
  - exact (proj2 (proj2 (proj2
             (hook_commands_write_one_line Scenario.always_ok Sample.no_printer
                true Hook.Reset (Hook.setIsConnected true Hook.initialState)
                {| Hook.hook := Hook.setIsConnected true Hook.initialState;
                   Hook.transport := {| Session.connects := 1;
                                        Session.writes := 0 |};
                   Hook.written := [] |}))) eq_refl eq_refl).
Defined.

(* ================================================================== *)
(** ** Disconnecting during the grace period *)

Section GraceProperties.

Context {T : Type} (api : Api.Bridge T).

Import Session.

Local Open Scope nat_scope.




End GraceProperties.


(* ================================================================== *)
(** ** What a numeric field of a command reads back as *)

Section FixedProperties.

Variable Number_toString : Q -> string.

Lemma digits_value_app (a b : string) (acc : Z) :
  digits_value acc (a ++ b) = digits_value (digits_value acc a) b.
Proof. revert acc. induction a as [|c a IH]; intros acc; simpl; auto. Qed.

Lemma uint_digits (d : Decimal.uint) :
  all_chars is_digit (NilEmpty.string_of_uint d) = true.
Proof. induction d; simpl; auto. Qed.

Lemma uint_value_acc (d : Decimal.uint) (acc : positive) :
  digits_value (Z.pos acc) (NilEmpty.string_of_uint d)
  = Z.pos (Pos.of_uint_acc d acc).
Proof.
  revert acc.
  induction d; intros acc; cbn [NilEmpty.string_of_uint digits_value Pos.of_uint_acc];
    [reflexivity|..].
  all: match goal with
       | |- digits_value _ ?s = Z.pos (Pos.of_uint_acc _ ?a) =>
           transitivity (digits_value (Z.pos a) s); [f_equal|apply IHd]
       end.
  all: match goal with
       | |- context [digit_value ?c] =>
           let v := eval vm_compute in (digit_value c) in
           change (digit_value c) with v
       end; lia.
Qed.

Lemma uint_value (d : Decimal.uint) :
  digits_value 0 (NilEmpty.string_of_uint d) = Z.of_N (Pos.of_uint d).
Proof.
  induction d; cbn [NilEmpty.string_of_uint digits_value Pos.of_uint];
    [reflexivity|exact IHd|..].
  all: match goal with
       | |- digits_value _ ?s = Z.of_N (N.pos (Pos.of_uint_acc _ ?a)) =>
           change (digits_value (Z.pos a) s = Z.pos (Pos.of_uint_acc d a));
           apply uint_value_acc
       end.
Qed.

Lemma N_to_uint_nonnil (n : N) : N.to_uint n <> Decimal.Nil.
Proof.
  destruct n; [discriminate|apply DecimalPos.Unsigned.to_uint_nonnil].
Qed.

Lemma string_of_Z_spec (n : Z) :
  (0 <= n)%Z ->
  all_chars is_digit (string_of_Z n) = true
  /\ string_of_Z n <> EmptyString
  /\ digits_value 0 (string_of_Z n) = n.
Proof.
  intros Hn. unfold string_of_Z.
  assert (E : NilZero.string_of_uint (N.to_uint (Z.to_N n))
              = NilEmpty.string_of_uint (N.to_uint (Z.to_N n))).
  { pose proof (N_to_uint_nonnil (Z.to_N n)) as H.
    destruct (N.to_uint (Z.to_N n)); [contradiction|reflexivity..]. }
  rewrite E. split; [apply uint_digits|]. split.
  - pose proof (N_to_uint_nonnil (Z.to_N n)) as H.
    destruct (N.to_uint (Z.to_N n)); [contradiction|discriminate..].
  - rewrite uint_value.
    change (Pos.of_uint (N.to_uint (Z.to_N n))) with (N.of_uint (N.to_uint (Z.to_N n))).
    rewrite DecimalN.Unsigned.of_to. apply Z2N.id, Hn.
Qed.

Lemma zeros_spec (j : nat) (s : string) :
  all_chars is_digit (String.concat "" (repeat "0" j) ++ s) = all_chars is_digit s
  /\ digits_value 0 (String.concat "" (repeat "0" j) ++ s) = digits_value 0 s
  /\ String.length (String.concat "" (repeat "0" j) ++ s) = j + String.length s.
Proof.
  induction j as [|j IH]; [now simpl|].
  assert (E : String.concat "" (repeat "0" (S j))
              = String "0" (String.concat "" (repeat "0" j))).
  { simpl. destruct (repeat "0" j) eqn:R; [|reflexivity].
    destruct j; [reflexivity|discriminate]. }
  rewrite E. destruct IH as (A & B & C).
  cbn [append all_chars digits_value String.length].
  change (digit_value "0") with 0%Z. change (10 * 0 + 0)%Z with 0%Z.
  change (is_digit "0") with true. now rewrite A, B, C.
Qed.

Lemma length_app (a b : string) :
  String.length (a ++ b) = String.length a + String.length b.
Proof. induction a as [|c a IH]; simpl; [reflexivity|now rewrite IH]. Qed.

Lemma substring_whole (s : string) : String.substring 0 (String.length s) s = s.
Proof. induction s as [|c s IH]; simpl; [reflexivity|now rewrite IH]. Qed.

Lemma substring_split (s : string) (i : nat) :
  i <= String.length s ->
  String.substring 0 i s ++ String.substring i (String.length s - i) s = s
  /\ String.length (String.substring 0 i s) = i.
Proof.
  revert i. induction s as [|c s IH]; intros i Hi; simpl in Hi.
  - assert (i = 0) as -> by lia. now simpl.
  - destruct i as [|i].
    + rewrite Nat.sub_0_r, substring_whole. now simpl.
    + cbn [String.substring String.length Nat.sub].
      destruct (IH i ltac:(lia)) as [A B]. simpl. now rewrite A, B.
Qed.

(** The text after the sign: an integer part, a point, [f] digits. *)
Lemma toFixed_shape (f : nat) (q : Q) :
  f <> 0 ->
  Qle_bool (inject_Z (10 ^ 21)) (Qabs q) = false ->
  exists ip fp,
    toFixed Number_toString f (Num q)
    = (if Qneg_bool q then "-" else "") ++ ip ++ "." ++ fp
    /\ all_chars is_digit ip = true /\ ip <> EmptyString
    /\ all_chars is_digit fp = true /\ String.length fp = f
    /\ digits_value 0 (ip ++ fp)
       = Qfloor (Qabs q * inject_Z (10 ^ Z.of_nat f) + (1 # 2)).
Proof.
  intros Hf Hq. unfold toFixed. rewrite Hq.
  set (n := Qfloor (Qabs q * inject_Z (10 ^ Z.of_nat f) + (1 # 2))).
  assert (Hn : (0 <= n)%Z).
  { subst n. apply Qfloor_resp_le with (x := 0%Q).
    pose proof (Qabs_nonneg q) as Ha.
    assert (0 <= inject_Z (10 ^ Z.of_nat f))%Q.
    { change 0%Q with (inject_Z 0). rewrite <- Zle_Qle. apply Z.pow_nonneg. lia. }
    pose proof (Qmult_le_0_compat _ _ Ha H). lra. }
  destruct (string_of_Z_spec n Hn) as (Hd & Hne & Hv).
  destruct (Nat.eqb_spec f 0) as [|_]; [contradiction|].
  set (m := if (String.length (string_of_Z n) <=? f)%nat
            then String.concat "" (repeat "0" (f + 1 - String.length (string_of_Z n)))
                 ++ string_of_Z n
            else string_of_Z n).
  assert (Hm : all_chars is_digit m = true /\ digits_value 0 m = n
               /\ f + 1 <= String.length m).
  { subst m. destruct (Nat.leb_spec (String.length (string_of_Z n)) f) as [L|L].
    - destruct (zeros_spec (f + 1 - String.length (string_of_Z n)) (string_of_Z n))
        as (A & B & C).
      rewrite A, B, C. repeat split; auto. lia.
    - repeat split; auto. lia. }
  destruct Hm as (Md & Mv & Ml).
  destruct (substring_split m (String.length m - f) ltac:(lia)) as [S1 S2].
  replace (String.length m - (String.length m - f)) with f in S1 by lia.
  exists (String.substring 0 (String.length m - f) m),
         (String.substring (String.length m - f) f m).
  split; [reflexivity|].
  rewrite <- S1 in Md. rewrite all_chars_app in Md.
  apply andb_prop in Md. destruct Md as [D1 D2].
  split; [exact D1|]. split.
  { intros E. rewrite E in S2. simpl in S2. lia. }
  split; [exact D2|]. split.
  { apply (f_equal String.length) in S1. rewrite length_app in S1. lia. }
  rewrite S1. exact Mv.
Qed.

Lemma parseFloat_fixed_text (negative : bool) (ip fp : string) :
  all_chars is_digit ip = true -> ip <> EmptyString ->
  all_chars is_digit fp = true ->
  parseFloat ((if negative then "-" else "") ++ ip ++ "." ++ fp)
  = let q := (inject_Z (digits_value 0 (ip ++ fp))
              * Qpower (10 # 1) (0 - Z.of_nat (String.length fp)))%Q in
    Num (Qred (if negative then - q else q)).
Proof.
  intros Hip Hne Hfp.
  destruct ip as [|c ip]; [contradiction|].
  cbn [all_chars] in Hip. apply andb_prop in Hip. destruct Hip as [Hc Hip].
  assert (Hsp : span is_digit (String c ip ++ "." ++ fp) = (String c ip, "." ++ fp)).
  { apply span_digits_then; [cbn [all_chars]; now rewrite Hc, Hip|reflexivity]. }
  assert (Hpre : String.prefix "Infinity" (String c ip ++ "." ++ fp) = false).
  { cbn [append]. apply prefix_head_differs. intros <-. discriminate. }
  assert (Hws : is_ws c = false) by now apply is_digit_not_ws.
  assert (Hm : Ascii.eqb c "-" = false)
    by (apply Ascii.eqb_neq; intros ->; discriminate).
  assert (Hp : Ascii.eqb c "+" = false)
    by (apply Ascii.eqb_neq; intros ->; discriminate).
  unfold parseFloat. destruct negative.
  - change ("-" ++ String c ip ++ "." ++ fp)
      with (String "-" (String c ip ++ "." ++ fp)).
    cbn [trimStart]. change (is_ws "-") with false. cbv iota.
    change (Ascii.eqb "-" "-") with true. cbv iota.
    rewrite Hpre, Hsp. cbn [append]. change (Ascii.eqb "." ".") with true. cbv iota.
    rewrite (span_all is_digit fp Hfp). reflexivity.
  - change ("" ++ String c ip ++ "." ++ fp) with (String c (ip ++ "." ++ fp)).
    cbn [trimStart]. rewrite Hws, Hm, Hp.
    change (String c (ip ++ "." ++ fp)) with (String c ip ++ "." ++ fp).
    rewrite Hpre, Hsp. cbn [append]. change (Ascii.eqb "." ".") with true. cbv iota.
    rewrite (span_all is_digit fp Hfp). reflexivity.
Qed.

Local Open Scope Q_scope.

Lemma round_error (a y P n : Q) :
  0 < P -> y == a * P -> n <= y + (1 # 2) -> y + (1 # 2) < n + 1 ->
  Qabs (n * / P - a) <= (1 # 2) * / P.
Proof.
  intros HP Hy H1 H2.
  assert (HI : 0 < / P) by now apply Qinv_lt_0_compat.
  assert (Ha : a == y * / P).
  { rewrite Hy. field. intros E. rewrite E in HP. now apply Qlt_irrefl in HP. }
  assert (E : n * / P - a == (n - y) * / P) by (rewrite Ha; ring).
  rewrite E, Qabs_Qmult, (Qabs_pos (/ P)) by now apply Qlt_le_weak.
  apply Qmult_le_compat_r; [|now apply Qlt_le_weak].
  apply Qabs_Qle_condition. split; lra.
Qed.

Lemma pow10_inv (f : nat) :
  0 < inject_Z (10 ^ Z.of_nat f)
  /\ Qpower (10 # 1) (0 - Z.of_nat f) == / inject_Z (10 ^ Z.of_nat f).
Proof.
  split.
  - change 0 with (inject_Z 0). rewrite <- Zlt_Qlt. apply Z.pow_pos_nonneg; lia.
  - change (0 - Z.of_nat f)%Z with (- Z.of_nat f)%Z.
    rewrite Qpower_opp. apply Qinv_comp.
    rewrite Zpower_Qpower by lia. reflexivity.
Qed.

(** [parseFloat(x.toFixed(f))] for a finite [x] below [1e21] and
    [f >= 1]: a multiple of [10^-f] at most half a unit of the last
    digit away from [x]. *)
Lemma toFixed_reads_back (f : nat) (q : Q) :
  f <> 0%nat ->
  Qle_bool (inject_Z (10 ^ 21)) (Qabs q) = false ->
  exists r z,
    parseFloat (toFixed Number_toString f (Num q)) = Num r
    /\ Qabs (r - q) <= (1 # 2) * / inject_Z (10 ^ Z.of_nat f)
    /\ r == inject_Z z * / inject_Z (10 ^ Z.of_nat f).
Proof.
  intros Hf Hq.
  destruct (toFixed_shape f q Hf Hq) as (ip & fp & E & D1 & N1 & D2 & L & V).
  rewrite E, (parseFloat_fixed_text _ ip fp D1 N1 D2). cbv zeta.
  rewrite L, V.
  destruct (pow10_inv f) as [HP HI].
  set (P := inject_Z (10 ^ Z.of_nat f)) in *.
  set (n := Qfloor (Qabs q * P + (1 # 2))).
  pose proof (Qfloor_le (Qabs q * P + (1 # 2))) as F1.
  pose proof (Qlt_floor (Qabs q * P + (1 # 2))) as F2.
  fold n in F1, F2. rewrite inject_Z_plus in F2. change (inject_Z 1) with 1 in F2.
  pose proof (round_error (Qabs q) (Qabs q * P) P (inject_Z n) HP
                (Qeq_refl _) F1 F2) as R.
  unfold Qneg_bool. destruct (Qle_bool 0 q) eqn:S; cbn [negb].
  - apply Qle_bool_iff in S.
    exists (Qred (inject_Z n * Qpower (10 # 1) (0 - Z.of_nat f))), n.
    split; [reflexivity|]. rewrite Qred_correct, HI.
    split; [|reflexivity].
    rewrite (Qabs_pos q S) in R. exact R.
  - assert (S' : q < 0).
    { apply Qnot_le_lt. intros H. apply Qle_bool_iff in H. congruence. }
    exists (Qred (- (inject_Z n * Qpower (10 # 1) (0 - Z.of_nat f)))), (- n)%Z.
    split; [reflexivity|]. rewrite Qred_correct, HI.
    split; [|rewrite inject_Z_opp; ring].
    rewrite (Qabs_neg q) in R by now apply Qlt_le_weak.
    rewrite <- Qabs_opp.
    assert (X : - (- (inject_Z n * / P) - q) == inject_Z n * / P - - q) by ring.
    rewrite X. exact R.
Qed.

End FixedProperties.

Lemma below_1e21 (q : Q) :
  (Qabs q < inject_Z (10 ^ 21))%Q -> Qle_bool (inject_Z (10 ^ 21)) (Qabs q) = false.
Proof.
  intros H. destruct (Qle_bool _ _) eqn:E; [|reflexivity].
  apply Qle_bool_iff in E. exfalso. apply (Qlt_irrefl (Qabs q)).
  eapply Qlt_le_trans; eassumption.
Qed.

(** The value a parametrised command carries is the configured one
    rounded to one decimal.  For a finite torque (mode Increased
    Torque) or stiffness (mode Inertial Control) below [1e21] in
    magnitude, [formatTFDCommand] writes [set constant:] or
    [set inertial:] followed by a text that [parseFloat] reads as a
    whole number of tenths, at most 0.05 away from the configured
    value, and the line feed. *)
Theorem command_value_is_rounded_to_one_decimal (Number_toString : Q -> string)
    (config : TFDState) (q : Q) :
  (Qabs q < inject_Z (10 ^ 21))%Q ->
  (mode config = "increased-torque" /\ torque config = Num q)
  \/ (mode config = "inertial-control" /\ stiffness config = Num q) ->
  exists (t : string) (r : Q) (z : Z),
    Encoder.formatTFDCommand Number_toString config
    = (if mode config =? "increased-torque" then "set constant:" else "set inertial:")%string
        ++ t ++ Encoder.nl
    /\ parseFloat t = Num r
    /\ (Qabs (r - q) <= 1 # 20)%Q
    /\ (r == inject_Z z / 10)%Q.
Proof.
  intros Hq Hc. apply below_1e21 in Hq.
  destruct (toFixed_reads_back Number_toString 1 q ltac:(discriminate) Hq)
    as (r & z & P & B & M).
  exists (Encoder.fixed1 Number_toString (Num q)), r, z.
  split; [|split; [exact P|split; [exact B|exact M]]].
  unfold Encoder.formatTFDCommand.
  destruct Hc as [[-> ->]|[-> ->]]; reflexivity.
Qed.

(** The preset stiffness 0.25 of Inertial Control goes out as 0.3. *)
Lemma command_value_is_rounded_to_one_decimal_witness :
  exists (t : string) (r : Q) (z : Z),
    Encoder.formatTFDCommand Sample.no_printer
      (updateState (payload (call_mode "inertial-control" (Num (25 # 100))))
         initialState)
    = "set inertial:" ++ t ++ Encoder.nl
    /\ parseFloat t = Num r
    /\ (Qabs (r - (25 # 100)) <= 1 # 20)%Q
    /\ (r == inject_Z z / 10)%Q.
Proof.
  refine (command_value_is_rounded_to_one_decimal Sample.no_printer
            (updateState (payload (call_mode "inertial-control" (Num (25 # 100))))
               initialState) (25 # 100) _ _).
  - reflexivity.
  - right. split; reflexivity.
Defined.

(** [setAngle] of the hook writes the angle with two decimals: for a
    finite angle below [1e21] in magnitude, the line is [ANGLE:], a text
    that [parseFloat] reads as a whole number of hundredths at most
    0.005 away from the angle, and the line feed. *)
Theorem hook_angle_goes_out_with_two_decimals (Number_toString : Q -> string)
    (q : Q) :
  (Qabs q < inject_Z (10 ^ 21))%Q ->
  exists (t : string) (r : Q) (z : Z),
    Hook.line Number_toString (Hook.SetAngle (Num q)) = "ANGLE:" ++ t ++ Encoder.nl
    /\ parseFloat t = Num r
    /\ (Qabs (r - q) <= 1 # 200)%Q
    /\ (r == inject_Z z / 100)%Q.
Proof.
  intros Hq. apply below_1e21 in Hq.
  destruct (toFixed_reads_back Number_toString 2 q ltac:(discriminate) Hq)
    as (r & z & P & B & M).
  exists (toFixed Number_toString 2 (Num q)), r, z.
  split; [reflexivity|]. split; [exact P|]. split; [exact B|exact M].
Qed.

Lemma hook_angle_goes_out_with_two_decimals_witness :
  exists (t : string) (r : Q) (z : Z),
    Hook.line Sample.no_printer (Hook.SetAngle (Num (- (12345 # 1000))))
    = "ANGLE:" ++ t ++ Encoder.nl
    /\ parseFloat t = Num r
    /\ (Qabs (r - - (12345 # 1000)) <= 1 # 200)%Q
    /\ (r == inject_Z z / 100)%Q.
Proof.
  refine (hook_angle_goes_out_with_two_decimals Sample.no_printer
            (- (12345 # 1000)) _).
  reflexivity.
Defined.

(* ================================================================== *)
(** ** The encoders of the component copies *)

Ltac split_on_mode config :=
  repeat match goal with
         | |- context [if (mode config =? ?x)%string then _ else _] =>
             let E := fresh "E" in
             destruct (mode config =? x)%string eqn:E; try reflexivity
         end.

(** The encoders of the two component copies against the one of the
    controller.  The second copy writes the same line as the controller
    for every configuration, except that it ignores the endstop mode (in
    endstops mode it always writes [set endstops:] and the turns) and
    encodes the mode [latch] as [set normal].  The first copy writes what
    the second does, except for [inertial-control], which it encodes as
    [set normal]. *)
Theorem component_encoders_ignore_endstop_mode (Number_toString : Q -> string)
    (config : TFDState) :
  (mode config <> "latch" ->
   (mode config = "endstops" ->
    ~ In (endstopMode config) Component.named_endstop_modes) ->
   Component.formatTFDCommand_second Number_toString config
   = Encoder.formatTFDCommand Number_toString config)
  /\ (mode config = "endstops" ->
      Component.formatTFDCommand_second Number_toString config
      = "set endstops:" ++ Encoder.fixed1 Number_toString (endstopTurns config)
          ++ Encoder.nl)
  /\ (mode config = "latch" ->
      Component.formatTFDCommand_second Number_toString config
      = "set normal" ++ Encoder.nl
      /\ Encoder.formatTFDCommand Number_toString config = "set latch" ++ Encoder.nl)
  /\ (mode config <> "inertial-control" ->
      Component.formatTFDCommand_first Number_toString config
      = Component.formatTFDCommand_second Number_toString config)
  /\ (mode config = "inertial-control" ->
      Component.formatTFDCommand_first Number_toString config
      = "set normal" ++ Encoder.nl).
Proof.
  unfold Component.formatTFDCommand_second, Component.formatTFDCommand_first,
    Encoder.formatTFDCommand.
  cbv zeta.
  split; [|split; [|split; [|split]]].
  - intros Hlatch Hend. split_on_mode config.
    + apply String.eqb_eq in E7.
      specialize (Hend E7). unfold Component.named_endstop_modes in Hend.
      repeat match goal with
             | |- context [if (endstopMode config =? ?x)%string then _ else _] =>
                 let F := fresh "F" in
                 destruct (endstopMode config =? x)%string eqn:F;
                 [apply String.eqb_eq in F; exfalso; apply Hend; rewrite F;
                  simpl; tauto|]
             end.
      reflexivity.
    + apply String.eqb_eq in E11. contradiction.
  - intros ->. reflexivity.
  - intros ->. split; reflexivity.
  - intros Hin. split_on_mode config.
    apply String.eqb_eq in E10. contradiction.
  - intros ->. reflexivity.
Qed.

(** The claim for endstops with soft detents, which only the controller
    encodes. *)
Lemma component_encoders_ignore_endstop_mode_witness :
  Component.formatTFDCommand_second Sample.no_printer Sample.soft_endstops
  = "set endstops:2.0" ++ Encoder.nl
  /\ Encoder.formatTFDCommand Sample.no_printer Sample.soft_endstops
     = "set endstops-ultra:2.0" ++ Encoder.nl.
Proof.
  split.
  - exact (proj1 (proj2 (component_encoders_ignore_endstop_mode Sample.no_printer
                           Sample.soft_endstops)) eq_refl).
  - reflexivity.
Defined.
